(** * Booking core of the sports-club backend: reservation, payment
      reconciliation and entry-credential lifecycle.

    Shallow embedding of the Express/Mongoose handlers
    - [createBooking], [cancelBooking]          (the booking controller),
    - [createPaymentOrder], [verifyPayment], [paymentWebhook]
                                                (controllers/paymentController.js),
    - [generateAndSendQR], [scanQR], [generateQRData], [decryptQRData]
                                                (controllers/qrController.js),
    together with the parts of the Activity and Booking schemas that the
    handlers run through on [save] and [create]: the validators ([required],
    [min], [max], [enum], [match]), the unique indexes and the pre-save hook
    of models/Activity.js.

    Conventions.
    - A JavaScript number holding a count (spots, participants, a
      sequence number) is a [Z]: the counts are integers of a magnitude
      below 2^53, on which the arithmetic of doubles is exact.  A price or
      an amount is an IEEE 754 double: Rocq's primitive [float], whose
      operations are the machine's.
    - A [string] stands for the JavaScript string whose code units are the
      codes of its characters, so the strings of the model are those over
      the code units 0 to 255; the string functions of the module [Js] are
      those of JavaScript on such strings.  The message of a response is a
      label that no handler reads back: it is the source's literal, written
      in UTF-8 where the literal has a character beyond this range.
    - A [Date] is its epoch value in milliseconds ([Z]); a nullable date is
      an [option Z]; the server's time zone is a fixed offset [tz] (ms).
    - A handler is a function from the request, the clock reading and the
      database to the response and the new database; requests are handled
      one after the other.  A handler reads the clock once: all its
      [new Date()] calls see the same instant.
    - A thrown error is a [Throw]; what was written before it stays
      written, as in the source, which has no transactions.
    - Node's [crypto], [JSON], the QR encoder and the database's [$sum]
      are external: they are the fields of the class [Externals].  The
      payment gateway's answers and the random IV are inputs of the
      handlers.
    - A message handed to a transport is an entry of the [outbox]: the
      call of [transporter.sendMail] by the e-mail service, and the call of
      [sendViaTwilio], [sendViaBusinessAPI] or [sendViaGenericAPI] by the
      WhatsApp service.  What the library behind the call does with the
      message (a client without credentials refuses it, a network fails)
      is not modelled; the services catch its errors.
    - Left out: the catalogue fields of an activity (texts, media,
      organizer), the [updatedAt] stamp, and the texts of the e-mail and
      WhatsApp messages. *)

From Stdlib Require Import ZArith Floats Lia Bool List String Ascii.
From Stdlib.Strings Require Import Byte.
From Stdlib Require Import DecimalString.
From stdpp Require Import base list.
Import ListNotations.

#[local] Open Scope string_scope.
#[local] Open Scope list_scope.
#[local] Open Scope Z_scope.

(** ** JavaScript strings

    A character is the code unit of its code, 0 to 255. *)

Module Js.

Fixpoint repeatChar (n : nat) (c : ascii) : string :=
  match n with
  | O => EmptyString
  | S n' => String c (repeatChar n' c)
  end.

(** [s.padStart(len, c)] for a one-character filler. *)
Definition padStart (len : nat) (c : ascii) (s : string) : string :=
  repeatChar (len - String.length s) c ++ s.

(** [s.slice(-k)]: the last [k] characters, the whole string when it is
    shorter. *)
Definition sliceLast (k : nat) (s : string) : string :=
  substring (String.length s - k) k s.

(** [String(n)] for an integer. *)
Definition ofInt (n : Z) : string := NilZero.string_of_int (Z.to_int n).

(** White space and line terminators: below 256 these are TAB, LF, VT, FF,
    CR, the space and the no-break space U+00A0. *)
Definition isWhite (c : ascii) : bool :=
  let n := nat_of_ascii c in
  ((9 <=? n) && (n <=? 13))%nat || (n =? 32)%nat || (n =? 160)%nat.

Fixpoint skipWhite (s : string) : string :=
  match s with
  | String c s' => if isWhite c then skipWhite s' else s
  | EmptyString => s
  end.

(** Value of a character as a digit in the given radix. *)
Definition digitOf (radix : Z) (c : ascii) : option Z :=
  let n := Z.of_nat (nat_of_ascii c) in
  let v := if (48 <=? n) && (n <=? 57) then Some (n - 48)
           else if (97 <=? n) && (n <=? 122) then Some (n - 87)
           else if (65 <=? n) && (n <=? 90) then Some (n - 55)
           else None in
  match v with
  | Some d => if d <? radix then Some d else None
  | None => None
  end.

(** Longest prefix of digits, read left to right; [None] when the string
    does not start with a digit. *)
Fixpoint readDigits (radix : Z) (acc : option Z) (s : string) : option Z :=
  match s with
  | String c s' =>
      match digitOf radix c with
      | Some d =>
          readDigits radix
            (Some (match acc with Some a => a * radix + d | None => d end)) s'
      | None => acc
      end
  | EmptyString => acc
  end.

(** [parseInt(s)] without a radix; [None] is NaN. *)
Definition parseInt (s : string) : option Z :=
  let s1 := skipWhite s in
  let '(sign, s2) :=
    match s1 with
    | String "-" r => (-1, r)
    | String "+" r => (1, r)
    | _ => (1, s1)
    end in
  let v :=
    match s2 with
    | String "0" (String "x" r) => readDigits 16 None r
    | String "0" (String "X" r) => readDigits 16 None r
    | _ => readDigits 10 None s2
    end in
  option_map (Z.mul sign) v.

Fixpoint rev (acc s : string) : string :=
  match s with
  | String c s' => rev (String c acc) s'
  | EmptyString => acc
  end.

(** [s.trim()] *)
Definition trim (s : string) : string :=
  rev "" (skipWhite (rev "" (skipWhite s))).

(** Below 256 the letters with a lower case are A to Z and U+00C0 to
    U+00DE without the multiplication sign U+00D7; the lower case is 32
    further. *)
Definition lowerChar (c : ascii) : ascii :=
  let n := nat_of_ascii c in
  if ((65 <=? n) && (n <=? 90))%nat
     || ((192 <=? n) && (n <=? 222) && negb (n =? 215))%nat
  then ascii_of_nat (n + 32) else c.

(** [s.toLowerCase()] *)
Fixpoint toLowerCase (s : string) : string :=
  match s with
  | String c s' => String (lowerChar c) (toLowerCase s')
  | EmptyString => s
  end.

(** [s.split(c)]: the pieces between the occurrences of [c]. *)
Fixpoint split (c : ascii) (s : string) : list string :=
  match s with
  | EmptyString => [EmptyString]
  | String a s' =>
      if Ascii.eqb a c then EmptyString :: split c s'
      else match split c s' with
           | p :: ps => String a p :: ps
           | [] => [String a EmptyString]
           end
  end.

(** [s.split(sep)] for a separator of one character or more: the pieces
    between the occurrences of [sep], found from left to right; [skip]
    counts the characters of an occurrence that are still to be passed. *)
Fixpoint splitOnFrom (sep : string) (skip : nat) (s : string) : list string :=
  match s with
  | EmptyString => [EmptyString]
  | String a s' =>
      match skip with
      | S k => splitOnFrom sep k s'
      | O =>
          if String.prefix sep s then
            EmptyString :: splitOnFrom sep (String.length sep - 1) s'
          else match splitOnFrom sep 0 s' with
               | p :: ps => String a p :: ps
               | [] => [String a EmptyString]
               end
      end
  end.

Definition splitOn (sep s : string) : list string := splitOnFrom sep 0 s.

(** Truthiness of a string value: the empty string is falsy. *)
Definition truthy (s : string) : bool := negb (String.eqb s "").

End Js.

(** ** JavaScript numbers

    A number is an IEEE 754 double, with the machine's arithmetic and
    comparisons: [PrimFloat.add], [sub], [mul], [div], [leb], [ltb],
    [eqb]. *)

Module JsNum.

(** The number that an integer denotes: the nearest double, the integer
    itself when its magnitude is below 2^53. *)
Definition ofZ (n : Z) : float :=
  SF2Prim (binary_normalize prec emax n 0 false).

(** Truthiness of a number: 0, -0 and NaN are falsy. *)
Definition truthy (x : float) : bool :=
  negb (PrimFloat.eqb x 0 || PrimFloat.is_nan x).

End JsNum.

Module Math.

(** [Math.round(x)]: the integer nearest to [x], the larger one of two
    that are equally near; NaN, the infinities and the zeros are returned
    as they are, and a result of zero keeps the sign of [x].  A finite
    double is [m * 2^e] for integers [m] and [e]; when [e] is negative the
    result is the floor of [(2 * m + 2^-e) / 2^(1 - e)]. *)
Definition round (x : float) : float :=
  match Prim2SF x with
  | S754_finite negative m e =>
      if 0 <=? e then x
      else
        let k := 2 ^ (- e) in
        let v := if negative then - Z.pos m else Z.pos m in
        let r := (2 * v + k) / (2 * k) in
        if (r =? 0) && negative then (- 0)%float else JsNum.ofZ r
  | _ => x
  end.

End Math.

(** ** JavaScript dates

    A [Date] is its epoch value in milliseconds; [tz] is the offset of the
    server's local time from UTC, in milliseconds. *)

Module JsDate.

Definition msPerDay : Z := 86400000.

(** [d.setHours(0, 0, 0, 0)]: local midnight of the day of [t]. *)
Definition startOfDay (tz t : Z) : Z := t - (t + tz) mod msPerDay.

(** [d.setHours(23, 59, 59, 999)]. *)
Definition endOfDay (tz t : Z) : Z := startOfDay tz t + (msPerDay - 1).

(** Number of the local calendar day, counted from 1970-01-01. *)
Definition dayNumber (tz t : Z) : Z := (t + tz) / msPerDay.

(** [d.getDay()]: 0 is Sunday; 1970-01-01 was a Thursday. *)
Definition getDay (tz t : Z) : Z := (dayNumber tz t + 4) mod 7.

Definition weekdayNames : list string :=
  ["Sunday"; "Monday"; "Tuesday"; "Wednesday"; "Thursday"; "Friday";
   "Saturday"].

(** [d.toLocaleDateString('en-US', { weekday: 'long' })]; an invalid date
    ([None]) prints as "Invalid Date". *)
Definition weekdayLong (tz : Z) (d : option Z) : string :=
  match d with
  | Some t => nth (Z.to_nat (getDay tz t)) weekdayNames "Invalid Date"
  | None => "Invalid Date"
  end.

(** Year, month (1..12) and day of the month of a day number (proleptic
    Gregorian calendar). *)
Definition civil (days : Z) : Z * Z * Z :=
  let z := days + 719468 in
  let era := z / 146097 in
  let doe := z - era * 146097 in
  let yoe := (doe - doe / 1460 + doe / 36524 - doe / 146096) / 365 in
  let doy := doe - (365 * yoe + yoe / 4 - yoe / 100) in
  let mp := (5 * doy + 2) / 153 in
  let d := doy - (153 * mp + 2) / 5 + 1 in
  let m := if mp <? 10 then mp + 3 else mp - 9 in
  let y := yoe + era * 400 + (if m <=? 2 then 1 else 0) in
  (y, m, d).

Definition getFullYear (tz t : Z) : Z := fst (fst (civil (dayNumber tz t))).
(** [d.getMonth()] counts from 0. *)
Definition getMonth (tz t : Z) : Z := snd (fst (civil (dayNumber tz t))) - 1.
Definition getDate (tz t : Z) : Z := snd (civil (dayNumber tz t)).

(** [a < b] on dates; a comparison with an invalid date is false. *)
Definition lt (a b : option Z) : bool :=
  match a, b with
  | Some x, Some y => x <? y
  | _, _ => false
  end.

End JsDate.

(** ** Hexadecimal buffers *)

Module Hex.

Definition nibbleChar (n : N) : ascii :=
  ascii_of_N (if (n <? 10)%N then n + 48 else n + 87)%N.

Definition ofByte (b : byte) : string :=
  let n := Byte.to_N b in
  String (nibbleChar (n / 16)) (String (nibbleChar (n mod 16)) EmptyString).

(** [buf.toString('hex')]. *)
Fixpoint encode (bs : list byte) : string :=
  match bs with
  | [] => EmptyString
  | b :: bs' => ofByte b ++ encode bs'
  end.

Definition nibbleVal (c : ascii) : option N :=
  let n := N_of_ascii c in
  if ((48 <=? n) && (n <=? 57))%N then Some (n - 48)%N
  else if ((97 <=? n) && (n <=? 102))%N then Some (n - 87)%N
  else if ((65 <=? n) && (n <=? 70))%N then Some (n - 55)%N
  else None.

(** [Buffer.from(s, 'hex')]: decoding stops at the first pair that is not
    two hexadecimal digits. *)
Fixpoint decode (s : string) : list byte :=
  match s with
  | String h (String l s') =>
      match nibbleVal h, nibbleVal l with
      | Some x, Some y =>
          match Byte.of_N (x * 16 + y) with
          | Some b => b :: decode s'
          | None => []
          end
      | _, _ => []
      end
  | _ => []
  end.

(** No colon occurs in the string. *)
Fixpoint noColon (s : string) : bool :=
  match s with
  | EmptyString => true
  | String c s' => negb (Ascii.eqb c ":") && noColon s'
  end.

End Hex.

(** ** Regular expressions of the schema's [match] validators *)

Module Regex.

Inductive re : Type :=
| Void
| Eps
| Cls (p : ascii -> bool)
| Cat (r s : re)
| Alt (r s : re)
| Star (r : re).

Definition Plus (r : re) : re := Cat r (Star r).
Definition Opt (r : re) : re := Alt Eps r.

Fixpoint nullable (r : re) : bool :=
  match r with
  | Void => false
  | Eps => true
  | Cls _ => false
  | Cat r s => nullable r && nullable s
  | Alt r s => nullable r || nullable s
  | Star _ => true
  end.

(** Brzozowski derivative. *)
Fixpoint deriv (c : ascii) (r : re) : re :=
  match r with
  | Void => Void
  | Eps => Void
  | Cls p => if p c then Eps else Void
  | Cat r s =>
      if nullable r then Alt (Cat (deriv c r) s) (deriv c s)
      else Cat (deriv c r) s
  | Alt r s => Alt (deriv c r) (deriv c s)
  | Star r => Cat (deriv c r) (Star r)
  end.

(** [/^r$/.test(s)]. *)
Fixpoint test (r : re) (s : string) : bool :=
  match s with
  | EmptyString => nullable r
  | String c s' => test (deriv c r) s'
  end.

Definition isDigit (c : ascii) : bool :=
  let n := N_of_ascii c in ((48 <=? n) && (n <=? 57))%N.

(** [\w]. *)
Definition isWord (c : ascii) : bool :=
  let n := N_of_ascii c in
  (((48 <=? n) && (n <=? 57)) || ((65 <=? n) && (n <=? 90))
   || ((97 <=? n) && (n <=? 122)) || (n =? 95))%N.

Definition chr (a : ascii) : re := Cls (Ascii.eqb a).

Fixpoint times (n : nat) (r : re) : re :=
  match n with
  | O => Eps
  | S n' => Cat r (times n' r)
  end.

(** [/^[0-9]{10}$/] *)
Definition phoneRe : re := times 10 (Cls isDigit).

(** [/^\w+([\.-]?\w+)*@\w+([\.-]?\w+)*(\.\w{2,3})+$/] *)
Definition emailRe : re :=
  let w := Cls isWord in
  let part :=
    Cat (Plus w) (Star (Cat (Opt (Alt (chr ".") (chr "-"))) (Plus w))) in
  Cat part
    (Cat (chr "@")
       (Cat part (Plus (Cat (chr ".") (Cat w (Cat w (Opt w))))))).

End Regex.

(** ** Data model (models/Activity.js and the Booking model) *)

Definition ObjectId : Type := string.

Inductive ActivityStatus : Type :=
| Active | Inactive | Draft | ActivityCancelled.

Inductive BookingStatus : Type :=
| Initiated | Confirmed | Cancelled | Completed | NoShow.

Inductive PaymentStatus : Type :=
| Pending | PaymentCompleted | Failed | Refunded.

Record TimeSlot : Type := mkTimeSlot {
  startTime : string;
  endTime : string;
  availableSpots : Z
}.

(** The activity fields that the booking core reads or that its [save]
    validates; the catalogue texts and media are left out.  [price] is
    required and [discountPercentage] has the default 0: both are numbers
    in every document of the model. *)
Module Activity.

Record t : Type := mk {
  _id : ObjectId;
  title : string;
  venue : string;
  address : string;
  city : string;
  thumbnailImage : string;
  startDate : Z;
  endDate : Z;
  availableDays : list string;
  timeSlots : list TimeSlot;
  price : float;
  discountPercentage : float;
  priceAfterDiscount : option float;
  maxParticipants : Z;
  minAge : option Z;
  maxAge : option Z;
  status : ActivityStatus;
  isAvailable : bool
}.

Definition set_timeSlots (v : list TimeSlot) (a : t) : t :=
  {| _id := _id a; title := title a; venue := venue a; address := address a;
     city := city a; thumbnailImage := thumbnailImage a;
     startDate := startDate a; endDate := endDate a;
     availableDays := availableDays a; timeSlots := v; price := price a;
     discountPercentage := discountPercentage a;
     priceAfterDiscount := priceAfterDiscount a;
     maxParticipants := maxParticipants a; minAge := minAge a;
     maxAge := maxAge a; status := status a; isAvailable := isAvailable a |}.

Definition set_priceAfterDiscount (v : option float) (a : t) : t :=
  {| _id := _id a; title := title a; venue := venue a; address := address a;
     city := city a; thumbnailImage := thumbnailImage a;
     startDate := startDate a; endDate := endDate a;
     availableDays := availableDays a; timeSlots := timeSlots a;
     price := price a; discountPercentage := discountPercentage a;
     priceAfterDiscount := v;
     maxParticipants := maxParticipants a; minAge := minAge a;
     maxAge := maxAge a; status := status a; isAvailable := isAvailable a |}.

End Activity.

Record CustomerDetails : Type := mkCustomer {
  name : string;
  email : string;
  phone : string;
  address : string
}.

Record SelectedTimeSlot : Type := mkSelected {
  sel_startTime : string;
  sel_endTime : string
}.

Record ActivitySnapshot : Type := mkSnapshot {
  snap_title : string;
  snap_venue : string;
  snap_address : string;
  snap_city : string;
  snap_thumbnailImage : string
}.

(** The Booking schema, field by field, with the [createdAt] stamp of
    [timestamps: true]. *)
Module Booking.

Record t : Type := mk {
  _id : ObjectId;
  activity : ObjectId;
  customerDetails : CustomerDetails;
  bookingDate : Z;
  selectedTimeSlot : SelectedTimeSlot;
  numberOfParticipants : Z;
  pricePerPerson : float;
  totalAmount : float;
  discountAmount : float;
  finalAmount : float;
  bookingStatus : BookingStatus;
  paymentStatus : PaymentStatus;
  transactionId : option string;
  razorpayOrderId : option string;
  razorpayPaymentId : option string;
  razorpaySignature : option string;
  paymentMethod : option string;
  paidAt : option Z;
  qrData : option string;
  qrImage : option string;
  checkedIn : bool;
  checkInTime : option Z;
  checkInBy : option ObjectId;
  confirmationDate : option Z;
  bookingNumber : option string;
  cancelledAt : option Z;
  cancellationReason : option string;
  cancelledBy : option ObjectId;
  adminNotes : option string;
  activitySnapshot : ActivitySnapshot;
  createdAt : Z
}.

Definition set_bookingStatus (v : BookingStatus) (b : t) : t :=
  {|
    _id := _id b; activity := activity b;
    customerDetails := customerDetails b; bookingDate := bookingDate b;
    selectedTimeSlot := selectedTimeSlot b;
    numberOfParticipants := numberOfParticipants b;
    pricePerPerson := pricePerPerson b; totalAmount := totalAmount b;
    discountAmount := discountAmount b; finalAmount := finalAmount b;
    bookingStatus := v; paymentStatus := paymentStatus b;
    transactionId := transactionId b; razorpayOrderId := razorpayOrderId b;
    razorpayPaymentId := razorpayPaymentId b;
    razorpaySignature := razorpaySignature b;
    paymentMethod := paymentMethod b; paidAt := paidAt b;
    qrData := qrData b; qrImage := qrImage b; checkedIn := checkedIn b;
    checkInTime := checkInTime b; checkInBy := checkInBy b;
    confirmationDate := confirmationDate b;
    bookingNumber := bookingNumber b; cancelledAt := cancelledAt b;
    cancellationReason := cancellationReason b;
    cancelledBy := cancelledBy b; adminNotes := adminNotes b;
    activitySnapshot := activitySnapshot b; createdAt := createdAt b
  |}.

Definition set_paymentStatus (v : PaymentStatus) (b : t) : t :=
  {|
    _id := _id b; activity := activity b;
    customerDetails := customerDetails b; bookingDate := bookingDate b;
    selectedTimeSlot := selectedTimeSlot b;
    numberOfParticipants := numberOfParticipants b;
    pricePerPerson := pricePerPerson b; totalAmount := totalAmount b;
    discountAmount := discountAmount b; finalAmount := finalAmount b;
    bookingStatus := bookingStatus b; paymentStatus := v;
    transactionId := transactionId b; razorpayOrderId := razorpayOrderId b;
    razorpayPaymentId := razorpayPaymentId b;
    razorpaySignature := razorpaySignature b;
    paymentMethod := paymentMethod b; paidAt := paidAt b;
    qrData := qrData b; qrImage := qrImage b; checkedIn := checkedIn b;
    checkInTime := checkInTime b; checkInBy := checkInBy b;
    confirmationDate := confirmationDate b;
    bookingNumber := bookingNumber b; cancelledAt := cancelledAt b;
    cancellationReason := cancellationReason b;
    cancelledBy := cancelledBy b; adminNotes := adminNotes b;
    activitySnapshot := activitySnapshot b; createdAt := createdAt b
  |}.

Definition set_transactionId (v : option string) (b : t) : t :=
  {|
    _id := _id b; activity := activity b;
    customerDetails := customerDetails b; bookingDate := bookingDate b;
    selectedTimeSlot := selectedTimeSlot b;
    numberOfParticipants := numberOfParticipants b;
    pricePerPerson := pricePerPerson b; totalAmount := totalAmount b;
    discountAmount := discountAmount b; finalAmount := finalAmount b;
    bookingStatus := bookingStatus b; paymentStatus := paymentStatus b;
    transactionId := v; razorpayOrderId := razorpayOrderId b;
    razorpayPaymentId := razorpayPaymentId b;
    razorpaySignature := razorpaySignature b;
    paymentMethod := paymentMethod b; paidAt := paidAt b;
    qrData := qrData b; qrImage := qrImage b; checkedIn := checkedIn b;
    checkInTime := checkInTime b; checkInBy := checkInBy b;
    confirmationDate := confirmationDate b;
    bookingNumber := bookingNumber b; cancelledAt := cancelledAt b;
    cancellationReason := cancellationReason b;
    cancelledBy := cancelledBy b; adminNotes := adminNotes b;
    activitySnapshot := activitySnapshot b; createdAt := createdAt b
  |}.

Definition set_razorpayOrderId (v : option string) (b : t) : t :=
  {|
    _id := _id b; activity := activity b;
    customerDetails := customerDetails b; bookingDate := bookingDate b;
    selectedTimeSlot := selectedTimeSlot b;
    numberOfParticipants := numberOfParticipants b;
    pricePerPerson := pricePerPerson b; totalAmount := totalAmount b;
    discountAmount := discountAmount b; finalAmount := finalAmount b;
    bookingStatus := bookingStatus b; paymentStatus := paymentStatus b;
    transactionId := transactionId b; razorpayOrderId := v;
    razorpayPaymentId := razorpayPaymentId b;
    razorpaySignature := razorpaySignature b;
    paymentMethod := paymentMethod b; paidAt := paidAt b;
    qrData := qrData b; qrImage := qrImage b; checkedIn := checkedIn b;
    checkInTime := checkInTime b; checkInBy := checkInBy b;
    confirmationDate := confirmationDate b;
    bookingNumber := bookingNumber b; cancelledAt := cancelledAt b;
    cancellationReason := cancellationReason b;
    cancelledBy := cancelledBy b; adminNotes := adminNotes b;
    activitySnapshot := activitySnapshot b; createdAt := createdAt b
  |}.

Definition set_razorpayPaymentId (v : option string) (b : t) : t :=
  {|
    _id := _id b; activity := activity b;
    customerDetails := customerDetails b; bookingDate := bookingDate b;
    selectedTimeSlot := selectedTimeSlot b;
    numberOfParticipants := numberOfParticipants b;
    pricePerPerson := pricePerPerson b; totalAmount := totalAmount b;
    discountAmount := discountAmount b; finalAmount := finalAmount b;
    bookingStatus := bookingStatus b; paymentStatus := paymentStatus b;
    transactionId := transactionId b; razorpayOrderId := razorpayOrderId b;
    razorpayPaymentId := v; razorpaySignature := razorpaySignature b;
    paymentMethod := paymentMethod b; paidAt := paidAt b;
    qrData := qrData b; qrImage := qrImage b; checkedIn := checkedIn b;
    checkInTime := checkInTime b; checkInBy := checkInBy b;
    confirmationDate := confirmationDate b;
    bookingNumber := bookingNumber b; cancelledAt := cancelledAt b;
    cancellationReason := cancellationReason b;
    cancelledBy := cancelledBy b; adminNotes := adminNotes b;
    activitySnapshot := activitySnapshot b; createdAt := createdAt b
  |}.

Definition set_razorpaySignature (v : option string) (b : t) : t :=
  {|
    _id := _id b; activity := activity b;
    customerDetails := customerDetails b; bookingDate := bookingDate b;
    selectedTimeSlot := selectedTimeSlot b;
    numberOfParticipants := numberOfParticipants b;
    pricePerPerson := pricePerPerson b; totalAmount := totalAmount b;
    discountAmount := discountAmount b; finalAmount := finalAmount b;
    bookingStatus := bookingStatus b; paymentStatus := paymentStatus b;
    transactionId := transactionId b; razorpayOrderId := razorpayOrderId b;
    razorpayPaymentId := razorpayPaymentId b; razorpaySignature := v;
    paymentMethod := paymentMethod b; paidAt := paidAt b;
    qrData := qrData b; qrImage := qrImage b; checkedIn := checkedIn b;
    checkInTime := checkInTime b; checkInBy := checkInBy b;
    confirmationDate := confirmationDate b;
    bookingNumber := bookingNumber b; cancelledAt := cancelledAt b;
    cancellationReason := cancellationReason b;
    cancelledBy := cancelledBy b; adminNotes := adminNotes b;
    activitySnapshot := activitySnapshot b; createdAt := createdAt b
  |}.

Definition set_paymentMethod (v : option string) (b : t) : t :=
  {|
    _id := _id b; activity := activity b;
    customerDetails := customerDetails b; bookingDate := bookingDate b;
    selectedTimeSlot := selectedTimeSlot b;
    numberOfParticipants := numberOfParticipants b;
    pricePerPerson := pricePerPerson b; totalAmount := totalAmount b;
    discountAmount := discountAmount b; finalAmount := finalAmount b;
    bookingStatus := bookingStatus b; paymentStatus := paymentStatus b;
    transactionId := transactionId b; razorpayOrderId := razorpayOrderId b;
    razorpayPaymentId := razorpayPaymentId b;
    razorpaySignature := razorpaySignature b; paymentMethod := v;
    paidAt := paidAt b; qrData := qrData b; qrImage := qrImage b;
    checkedIn := checkedIn b; checkInTime := checkInTime b;
    checkInBy := checkInBy b; confirmationDate := confirmationDate b;
    bookingNumber := bookingNumber b; cancelledAt := cancelledAt b;
    cancellationReason := cancellationReason b;
    cancelledBy := cancelledBy b; adminNotes := adminNotes b;
    activitySnapshot := activitySnapshot b; createdAt := createdAt b
  |}.

Definition set_paidAt (v : option Z) (b : t) : t :=
  {|
    _id := _id b; activity := activity b;
    customerDetails := customerDetails b; bookingDate := bookingDate b;
    selectedTimeSlot := selectedTimeSlot b;
    numberOfParticipants := numberOfParticipants b;
    pricePerPerson := pricePerPerson b; totalAmount := totalAmount b;
    discountAmount := discountAmount b; finalAmount := finalAmount b;
    bookingStatus := bookingStatus b; paymentStatus := paymentStatus b;
    transactionId := transactionId b; razorpayOrderId := razorpayOrderId b;
    razorpayPaymentId := razorpayPaymentId b;
    razorpaySignature := razorpaySignature b;
    paymentMethod := paymentMethod b; paidAt := v; qrData := qrData b;
    qrImage := qrImage b; checkedIn := checkedIn b;
    checkInTime := checkInTime b; checkInBy := checkInBy b;
    confirmationDate := confirmationDate b;
    bookingNumber := bookingNumber b; cancelledAt := cancelledAt b;
    cancellationReason := cancellationReason b;
    cancelledBy := cancelledBy b; adminNotes := adminNotes b;
    activitySnapshot := activitySnapshot b; createdAt := createdAt b
  |}.

Definition set_qrData (v : option string) (b : t) : t :=
  {|
    _id := _id b; activity := activity b;
    customerDetails := customerDetails b; bookingDate := bookingDate b;
    selectedTimeSlot := selectedTimeSlot b;
    numberOfParticipants := numberOfParticipants b;
    pricePerPerson := pricePerPerson b; totalAmount := totalAmount b;
    discountAmount := discountAmount b; finalAmount := finalAmount b;
    bookingStatus := bookingStatus b; paymentStatus := paymentStatus b;
    transactionId := transactionId b; razorpayOrderId := razorpayOrderId b;
    razorpayPaymentId := razorpayPaymentId b;
    razorpaySignature := razorpaySignature b;
    paymentMethod := paymentMethod b; paidAt := paidAt b; qrData := v;
    qrImage := qrImage b; checkedIn := checkedIn b;
    checkInTime := checkInTime b; checkInBy := checkInBy b;
    confirmationDate := confirmationDate b;
    bookingNumber := bookingNumber b; cancelledAt := cancelledAt b;
    cancellationReason := cancellationReason b;
    cancelledBy := cancelledBy b; adminNotes := adminNotes b;
    activitySnapshot := activitySnapshot b; createdAt := createdAt b
  |}.

Definition set_qrImage (v : option string) (b : t) : t :=
  {|
    _id := _id b; activity := activity b;
    customerDetails := customerDetails b; bookingDate := bookingDate b;
    selectedTimeSlot := selectedTimeSlot b;
    numberOfParticipants := numberOfParticipants b;
    pricePerPerson := pricePerPerson b; totalAmount := totalAmount b;
    discountAmount := discountAmount b; finalAmount := finalAmount b;
    bookingStatus := bookingStatus b; paymentStatus := paymentStatus b;
    transactionId := transactionId b; razorpayOrderId := razorpayOrderId b;
    razorpayPaymentId := razorpayPaymentId b;
    razorpaySignature := razorpaySignature b;
    paymentMethod := paymentMethod b; paidAt := paidAt b;
    qrData := qrData b; qrImage := v; checkedIn := checkedIn b;
    checkInTime := checkInTime b; checkInBy := checkInBy b;
    confirmationDate := confirmationDate b;
    bookingNumber := bookingNumber b; cancelledAt := cancelledAt b;
    cancellationReason := cancellationReason b;
    cancelledBy := cancelledBy b; adminNotes := adminNotes b;
    activitySnapshot := activitySnapshot b; createdAt := createdAt b
  |}.

Definition set_checkedIn (v : bool) (b : t) : t :=
  {|
    _id := _id b; activity := activity b;
    customerDetails := customerDetails b; bookingDate := bookingDate b;
    selectedTimeSlot := selectedTimeSlot b;
    numberOfParticipants := numberOfParticipants b;
    pricePerPerson := pricePerPerson b; totalAmount := totalAmount b;
    discountAmount := discountAmount b; finalAmount := finalAmount b;
    bookingStatus := bookingStatus b; paymentStatus := paymentStatus b;
    transactionId := transactionId b; razorpayOrderId := razorpayOrderId b;
    razorpayPaymentId := razorpayPaymentId b;
    razorpaySignature := razorpaySignature b;
    paymentMethod := paymentMethod b; paidAt := paidAt b;
    qrData := qrData b; qrImage := qrImage b; checkedIn := v;
    checkInTime := checkInTime b; checkInBy := checkInBy b;
    confirmationDate := confirmationDate b;
    bookingNumber := bookingNumber b; cancelledAt := cancelledAt b;
    cancellationReason := cancellationReason b;
    cancelledBy := cancelledBy b; adminNotes := adminNotes b;
    activitySnapshot := activitySnapshot b; createdAt := createdAt b
  |}.

Definition set_checkInTime (v : option Z) (b : t) : t :=
  {|
    _id := _id b; activity := activity b;
    customerDetails := customerDetails b; bookingDate := bookingDate b;
    selectedTimeSlot := selectedTimeSlot b;
    numberOfParticipants := numberOfParticipants b;
    pricePerPerson := pricePerPerson b; totalAmount := totalAmount b;
    discountAmount := discountAmount b; finalAmount := finalAmount b;
    bookingStatus := bookingStatus b; paymentStatus := paymentStatus b;
    transactionId := transactionId b; razorpayOrderId := razorpayOrderId b;
    razorpayPaymentId := razorpayPaymentId b;
    razorpaySignature := razorpaySignature b;
    paymentMethod := paymentMethod b; paidAt := paidAt b;
    qrData := qrData b; qrImage := qrImage b; checkedIn := checkedIn b;
    checkInTime := v; checkInBy := checkInBy b;
    confirmationDate := confirmationDate b;
    bookingNumber := bookingNumber b; cancelledAt := cancelledAt b;
    cancellationReason := cancellationReason b;
    cancelledBy := cancelledBy b; adminNotes := adminNotes b;
    activitySnapshot := activitySnapshot b; createdAt := createdAt b
  |}.

Definition set_checkInBy (v : option ObjectId) (b : t) : t :=
  {|
    _id := _id b; activity := activity b;
    customerDetails := customerDetails b; bookingDate := bookingDate b;
    selectedTimeSlot := selectedTimeSlot b;
    numberOfParticipants := numberOfParticipants b;
    pricePerPerson := pricePerPerson b; totalAmount := totalAmount b;
    discountAmount := discountAmount b; finalAmount := finalAmount b;
    bookingStatus := bookingStatus b; paymentStatus := paymentStatus b;
    transactionId := transactionId b; razorpayOrderId := razorpayOrderId b;
    razorpayPaymentId := razorpayPaymentId b;
    razorpaySignature := razorpaySignature b;
    paymentMethod := paymentMethod b; paidAt := paidAt b;
    qrData := qrData b; qrImage := qrImage b; checkedIn := checkedIn b;
    checkInTime := checkInTime b; checkInBy := v;
    confirmationDate := confirmationDate b;
    bookingNumber := bookingNumber b; cancelledAt := cancelledAt b;
    cancellationReason := cancellationReason b;
    cancelledBy := cancelledBy b; adminNotes := adminNotes b;
    activitySnapshot := activitySnapshot b; createdAt := createdAt b
  |}.

Definition set_confirmationDate (v : option Z) (b : t) : t :=
  {|
    _id := _id b; activity := activity b;
    customerDetails := customerDetails b; bookingDate := bookingDate b;
    selectedTimeSlot := selectedTimeSlot b;
    numberOfParticipants := numberOfParticipants b;
    pricePerPerson := pricePerPerson b; totalAmount := totalAmount b;
    discountAmount := discountAmount b; finalAmount := finalAmount b;
    bookingStatus := bookingStatus b; paymentStatus := paymentStatus b;
    transactionId := transactionId b; razorpayOrderId := razorpayOrderId b;
    razorpayPaymentId := razorpayPaymentId b;
    razorpaySignature := razorpaySignature b;
    paymentMethod := paymentMethod b; paidAt := paidAt b;
    qrData := qrData b; qrImage := qrImage b; checkedIn := checkedIn b;
    checkInTime := checkInTime b; checkInBy := checkInBy b;
    confirmationDate := v; bookingNumber := bookingNumber b;
    cancelledAt := cancelledAt b;
    cancellationReason := cancellationReason b;
    cancelledBy := cancelledBy b; adminNotes := adminNotes b;
    activitySnapshot := activitySnapshot b; createdAt := createdAt b
  |}.

Definition set_cancelledAt (v : option Z) (b : t) : t :=
  {|
    _id := _id b; activity := activity b;
    customerDetails := customerDetails b; bookingDate := bookingDate b;
    selectedTimeSlot := selectedTimeSlot b;
    numberOfParticipants := numberOfParticipants b;
    pricePerPerson := pricePerPerson b; totalAmount := totalAmount b;
    discountAmount := discountAmount b; finalAmount := finalAmount b;
    bookingStatus := bookingStatus b; paymentStatus := paymentStatus b;
    transactionId := transactionId b; razorpayOrderId := razorpayOrderId b;
    razorpayPaymentId := razorpayPaymentId b;
    razorpaySignature := razorpaySignature b;
    paymentMethod := paymentMethod b; paidAt := paidAt b;
    qrData := qrData b; qrImage := qrImage b; checkedIn := checkedIn b;
    checkInTime := checkInTime b; checkInBy := checkInBy b;
    confirmationDate := confirmationDate b;
    bookingNumber := bookingNumber b; cancelledAt := v;
    cancellationReason := cancellationReason b;
    cancelledBy := cancelledBy b; adminNotes := adminNotes b;
    activitySnapshot := activitySnapshot b; createdAt := createdAt b
  |}.

Definition set_cancellationReason (v : option string) (b : t) : t :=
  {|
    _id := _id b; activity := activity b;
    customerDetails := customerDetails b; bookingDate := bookingDate b;
    selectedTimeSlot := selectedTimeSlot b;
    numberOfParticipants := numberOfParticipants b;
    pricePerPerson := pricePerPerson b; totalAmount := totalAmount b;
    discountAmount := discountAmount b; finalAmount := finalAmount b;
    bookingStatus := bookingStatus b; paymentStatus := paymentStatus b;
    transactionId := transactionId b; razorpayOrderId := razorpayOrderId b;
    razorpayPaymentId := razorpayPaymentId b;
    razorpaySignature := razorpaySignature b;
    paymentMethod := paymentMethod b; paidAt := paidAt b;
    qrData := qrData b; qrImage := qrImage b; checkedIn := checkedIn b;
    checkInTime := checkInTime b; checkInBy := checkInBy b;
    confirmationDate := confirmationDate b;
    bookingNumber := bookingNumber b; cancelledAt := cancelledAt b;
    cancellationReason := v; cancelledBy := cancelledBy b;
    adminNotes := adminNotes b; activitySnapshot := activitySnapshot b;
    createdAt := createdAt b
  |}.

Definition set_cancelledBy (v : option ObjectId) (b : t) : t :=
  {|
    _id := _id b; activity := activity b;
    customerDetails := customerDetails b; bookingDate := bookingDate b;
    selectedTimeSlot := selectedTimeSlot b;
    numberOfParticipants := numberOfParticipants b;
    pricePerPerson := pricePerPerson b; totalAmount := totalAmount b;
    discountAmount := discountAmount b; finalAmount := finalAmount b;
    bookingStatus := bookingStatus b; paymentStatus := paymentStatus b;
    transactionId := transactionId b; razorpayOrderId := razorpayOrderId b;
    razorpayPaymentId := razorpayPaymentId b;
    razorpaySignature := razorpaySignature b;
    paymentMethod := paymentMethod b; paidAt := paidAt b;
    qrData := qrData b; qrImage := qrImage b; checkedIn := checkedIn b;
    checkInTime := checkInTime b; checkInBy := checkInBy b;
    confirmationDate := confirmationDate b;
    bookingNumber := bookingNumber b; cancelledAt := cancelledAt b;
    cancellationReason := cancellationReason b; cancelledBy := v;
    adminNotes := adminNotes b; activitySnapshot := activitySnapshot b;
    createdAt := createdAt b
  |}.

End Booking.

(** ** Mongoose: schema validation, hooks and collections *)

(** What a [catch] can tell about a thrown error: whether its [name] is
    'ValidationError' (a rejected [save] or [create]) or anything else
    (a duplicate key, a TypeError, a failing gateway, an error thrown by a
    hook). *)
Inductive Exn : Type := ValidationError | OtherError.

Inductive result (A : Type) : Type :=
| Ok (a : A)
| Throw (e : Exn).
Arguments Ok {A} a.
Arguments Throw {A} e.

(** The ways of [whatsappService.sendBookingConfirmation] to a recipient:
    [sendViaTwilio], [sendViaBusinessAPI], [sendViaGenericAPI]. *)
Inductive WhatsAppTransport : Type := Twilio | BusinessApi | GenericApi.

(** A message handed to a transport.  The mail of
    [emailService.sendBookingConfirmation] goes to an address, is about a
    booking (its link carries the id) and has one attachment, whose
    content is [None] when it is [undefined].  A WhatsApp message is a
    text for a phone number, as [formatPhoneNumber] returns it, about a
    booking number: each of the three transports receives the QR image as
    an argument and sends the text alone. *)
Inductive Notification : Type :=
| Mail (to : string) (about : ObjectId) (attachment : option string)
| WhatsApp (via : WhatsAppTransport) (to : string) (about : option string).

Record Db : Type := mkDb {
  activities : list Activity.t;
  bookings : list Booking.t;
  outbox : list Notification
}.

Definition set_activities (v : list Activity.t) (db : Db) : Db :=
  {| activities := v; bookings := bookings db; outbox := outbox db |}.

Definition set_bookings (v : list Booking.t) (db : Db) : Db :=
  {| activities := activities db; bookings := v; outbox := outbox db |}.

Definition set_outbox (v : list Notification) (db : Db) : Db :=
  {| activities := activities db; bookings := bookings db; outbox := v |}.

Module Schema.

Definition inList (x : string) (l : list string) : bool :=
  existsb (String.eqb x) l.

Definition zTruthy (z : option Z) : bool :=
  match z with
  | Some v => negb (v =? 0)
  | None => false
  end.

Definition optLtb (a b : option Z) : bool :=
  match a, b with
  | Some x, Some y => x <? y
  | _, _ => false
  end.

(** timeSlots: [startTime] and [endTime] required,
    [availableSpots: { required: true, min: 1 }]. *)
Definition timeSlotValid (s : TimeSlot) : bool :=
  Js.truthy (startTime s) && Js.truthy (endTime s)
  && (1 <=? availableSpots s).

Definition minAgeValid (a : option Z) : bool :=
  match a with
  | Some v => 0 <=? v
  | None => true
  end.

(** The validators of the activity schema on the modelled fields: first
    the scalar fields, then the time slots. *)
Definition activityFieldsValid (a : Activity.t) : bool :=
  Js.truthy (Activity.title a) && Js.truthy (Activity.venue a)
  && Js.truthy (Activity.address a) && Js.truthy (Activity.city a)
  && forallb (fun d => inList d JsDate.weekdayNames)
       (Activity.availableDays a)
  && PrimFloat.leb 0 (Activity.price a)
  && PrimFloat.leb 0 (Activity.discountPercentage a)
  && PrimFloat.leb (Activity.discountPercentage a) 100
  && (1 <=? Activity.maxParticipants a)
  && minAgeValid (Activity.minAge a).

Definition activityValid (a : Activity.t) : bool :=
  activityFieldsValid a && forallb timeSlotValid (Activity.timeSlots a).

(** [this.price - (this.price * this.discountPercentage) / 100] *)
Definition discountedPrice (a : Activity.t) : float :=
  (Activity.price a
   - (Activity.price a * Activity.discountPercentage a) / 100)%float.

(** The assignment [this.priceAfterDiscount = v].  Mongoose does not cast
    a NaN to a Number path: it marks the path invalid and leaves its
    value.  The difference is a NaN for an infinite price only. *)
Definition assignedPrice (a : Activity.t) (v : float) : option float :=
  if PrimFloat.is_nan v then Activity.priceAfterDiscount a else Some v.

(** [activitySchema.pre('save', ...)]: runs after validation, so that a
    refused assignment does not stop the save. *)
Definition activityPreSave (a : Activity.t) : result Activity.t :=
  let a1 :=
    Activity.set_priceAfterDiscount (assignedPrice a (discountedPrice a)) a in
  if Activity.endDate a1 <? Activity.startDate a1 then Throw OtherError
  else if zTruthy (Activity.minAge a1) && zTruthy (Activity.maxAge a1)
          && optLtb (Activity.maxAge a1) (Activity.minAge a1)
  then Throw OtherError
  else Ok a1.

Definition paymentMethods : list string :=
  ["UPI"; "Card"; "NetBanking"; "Wallet"].

(** A [match] validator accepts the empty string ([required] rejects it). *)
Definition matchOk (r : Regex.re) (s : string) : bool :=
  negb (Js.truthy s) || Regex.test r s.

(** The four amounts cast to Number: none is NaN. *)
Definition amountsCast (b : Booking.t) : bool :=
  negb (PrimFloat.is_nan (Booking.pricePerPerson b))
  && negb (PrimFloat.is_nan (Booking.totalAmount b))
  && negb (PrimFloat.is_nan (Booking.discountAmount b))
  && negb (PrimFloat.is_nan (Booking.finalAmount b)).

(** The casts and the validators of the booking schema. *)
Definition bookingValid (b : Booking.t) : bool :=
  let c := Booking.customerDetails b in
  amountsCast b
  && Js.truthy (name c) && Js.truthy (email c) && Js.truthy (phone c)
  && Js.truthy (address c)
  && matchOk Regex.emailRe (email c) && matchOk Regex.phoneRe (phone c)
  && Js.truthy (sel_startTime (Booking.selectedTimeSlot b))
  && Js.truthy (sel_endTime (Booking.selectedTimeSlot b))
  && (1 <=? Booking.numberOfParticipants b)
  && match Booking.paymentMethod b with
     | Some m => inList m paymentMethods
     | None => true
     end.

End Schema.

Definition replaceActivity (a : Activity.t) (l : list Activity.t)
  : list Activity.t :=
  map (fun x => if String.eqb (Activity._id x) (Activity._id a) then a else x)
    l.

Definition replaceBooking (b : Booking.t) (l : list Booking.t)
  : list Booking.t :=
  map (fun x => if String.eqb (Booking._id x) (Booking._id b) then b else x) l.

(** [Activity.findById(id)] *)
Definition Activity_findById (id : ObjectId) (db : Db) : option Activity.t :=
  find (fun a => String.eqb (Activity._id a) id) (activities db).

(** [activity.save()]: validation, then the pre-save hook, then the write.
    The saved document, with the hook's change, is returned as well. *)
Definition Activity_save (a : Activity.t) (db : Db)
  : result (Activity.t * Db) :=
  if negb (Schema.activityValid a) then Throw ValidationError
  else match Schema.activityPreSave a with
       | Throw e => Throw e
       | Ok a' => Ok (a', set_activities (replaceActivity a' (activities db)) db)
       end.

(** [Booking.findById(id)] *)
Definition Booking_findById (id : ObjectId) (db : Db) : option Booking.t :=
  find (fun b => String.eqb (Booking._id b) id) (bookings db).

Definition optStringEqb (a b : option string) : bool :=
  match a, b with
  | Some x, Some y => String.eqb x y
  | None, None => true
  | _, _ => false
  end.

(** [Booking.findOne({ razorpayOrderId })]; an absent order id is sent as
    null and matches the bookings that have none. *)
Definition Booking_findByOrderId (orderId : option string) (db : Db)
  : option Booking.t :=
  find (fun b => optStringEqb (Booking.razorpayOrderId b) orderId)
    (bookings db).

(** [Booking.findOne({ createdAt: { $gte: lo, $lt: hi } }).sort({ createdAt: -1 })]
    over the collection in insertion order; among equal stamps the later
    insertion wins. *)
Fixpoint latestCreated (lo hi : Z) (best : option Booking.t)
    (l : list Booking.t) : option Booking.t :=
  match l with
  | [] => best
  | b :: l' =>
      let t := Booking.createdAt b in
      let best' :=
        if (lo <=? t) && (t <? hi) then
          match best with
          | Some b0 => if Booking.createdAt b0 <=? t then Some b else best
          | None => Some b
          end
        else best in
      latestCreated lo hi best' l'
  end.

Definition Booking_findLastCreatedIn (lo hi : Z) (db : Db)
  : option Booking.t :=
  latestCreated lo hi None (bookings db).

(** The unique indexes: [_id], and [bookingNumber] (unique, sparse). *)
Definition duplicateKey (b : Booking.t) (db : Db) : bool :=
  existsb
    (fun x =>
       String.eqb (Booking._id x) (Booking._id b)
       || match Booking.bookingNumber x, Booking.bookingNumber b with
          | Some m, Some n => String.eqb m n
          | _, _ => false
          end)
    (bookings db).

(** [Booking.create(doc)] *)
Definition Booking_create (b : Booking.t) (db : Db) : result Db :=
  if negb (Schema.bookingValid b) then Throw ValidationError
  else if duplicateKey b db then Throw OtherError
  else Ok (set_bookings (bookings db ++ [b]) db).

(** [booking.save()] of a loaded document. *)
Definition Booking_save (b : Booking.t) (db : Db) : result Db :=
  if negb (Schema.bookingValid b) then Throw ValidationError
  else Ok (set_bookings (replaceBooking b (bookings db)) db).

(** [timeSlots.findIndex(slot => slot.startTime === s && slot.endTime === e)];
    [None] is -1. *)
Fixpoint findIndex {A : Type} (p : A -> bool) (l : list A) : option nat :=
  match l with
  | [] => None
  | x :: l' => if p x then Some O else option_map S (findIndex p l')
  end.

Definition slotMatches (s e : string) (slot : TimeSlot) : bool :=
  String.eqb (startTime slot) s && String.eqb (endTime slot) e.

(** [slot.availableSpots += d] *)
Definition addSpots (d : Z) (slot : TimeSlot) : TimeSlot :=
  {| startTime := startTime slot; endTime := endTime slot;
     availableSpots := availableSpots slot + d |}.

(** ** Process environment *)

Record Config : Type := mkConfig {
  RAZORPAY_KEY_ID : option string;
  RAZORPAY_KEY_SECRET : option string;
  RAZORPAY_WEBHOOK_SECRET : option string;
  QR_SECRET : option string;
  WHATSAPP_SERVICE : option string;
  WHATSAPP_API_URL : option string;
  WHATSAPP_API_KEY : option string;
  tz : Z
}.

(** [process.env.X || fallback] *)
Definition envOr (v : option string) (fallback : string) : string :=
  match v with
  | Some s => if Js.truthy s then s else fallback
  | None => fallback
  end.

(** ** HTTP responses *)

Inductive Detail : Type :=
| NoDetail
| RequiredFields (fields : list string)
| AvailableRange (rangeStart rangeEnd : Z)
| AvailableDays (days : list string)
| AvailableSlots (slots : list TimeSlot)
| Capacity (requested available : Z)
| ErrorDetail
| BookingInitiated (bookingId : ObjectId) (number : option string)
    (amount : float)
| CurrentStatus (s : BookingStatus)
| CurrentPaymentStatus (p : PaymentStatus)
| OrderCreated (orderId : string) (amount : float) (number : option string)
| PaymentVerified (bookingId : ObjectId) (bs : BookingStatus)
    (ps : PaymentStatus) (transaction : option string) (paidAt : option Z)
    (qrGenerated : bool)
| CheckedInAt (time : option Z) (operator : option ObjectId)
| NotToday (bookingDate today : Z)
| CheckedIn (number : option string) (customerName : string)
    (participants : Z) (time : option Z)
| BookingData (b : Booking.t).

Record Response : Type := mkResponse {
  statusCode : Z;
  success : bool;
  message : string;
  detail : Detail
}.

Definition fail (code : Z) (msg : string) (d : Detail) : Response :=
  {| statusCode := code; success := false; message := msg; detail := d |}.

Definition ok (code : Z) (msg : string) (d : Detail) : Response :=
  {| statusCode := code; success := true; message := msg; detail := d |}.

(** A request parameter that names a document: absent, not castable to an
    ObjectId, or an ObjectId. *)
Inductive IdParam : Type := NoId | BadId | GoodId (id : ObjectId).

(** A date in a request body: absent, unparsable ([new Date(x)] is an
    invalid date), or an instant. *)
Inductive DateParam : Type := NoDate | InvalidDate | DateAt (t : Z).

Definition newDate (d : DateParam) : option Z :=
  match d with
  | DateAt t => Some t
  | _ => None
  end.

(** ** The entry credential (controllers/qrController.js) *)

(** The object that [generateQRData] encrypts and that [JSON.parse] gives
    back.  Of a parsed object the handlers read [bookingId] only, and hand
    it to [Booking.findById]: it may be absent, not castable to an
    ObjectId, or an ObjectId. *)
Record QRPayload : Type := mkPayload {
  bookingId : IdParam;
  bookingNumber : option string;
  customerName : string;
  customerPhone : string;
  activityId : ObjectId;
  bookingDate : Z;
  numberOfParticipants : Z;
  timeSlot : SelectedTimeSlot;
  timestamp : Z
}.

(** The payment entity of a gateway event, [body.payload.payment.entity]. *)
Record PaymentEntity : Type := mkEntity {
  order_id : option string;
  id : option string;
  method : option string
}.

Record WebhookBody : Type := mkWebhookBody {
  event : string;
  entity : option PaymentEntity
}.

(** What the gateway is asked when an order is opened. *)
Record OrderOptions : Type := mkOrderOptions {
  opt_amount : float;
  opt_currency : string;
  opt_receipt : string;
  opt_bookingId : ObjectId
}.

Record GatewayOrder : Type := mkGatewayOrder {
  gw_id : string;
  gw_amount : float;
  gw_currency : string
}.

(** Node's [crypto], [JSON], the [qrcode] package and the database's
    accumulator. *)
Class Externals : Type := {
  (** [crypto.createHmac('sha256', key).update(msg).digest('hex')] *)
  hmacSha256Hex : string -> string -> string;
  (** [crypto.scryptSync(secret, 'salt', 32)] *)
  scryptSync : string -> list byte;
  (** aes-256-cbc under a key and a 16-byte IV, on the UTF-8 text *)
  aesEncrypt : list byte -> list byte -> string -> list byte;
  (** [None]: the decipher throws *)
  aesDecrypt : list byte -> list byte -> list byte -> option string;
  JSON_stringify : QRPayload -> string;
  (** [None]: [JSON.parse] throws *)
  JSON_parse : string -> option QRPayload;
  JSON_stringify_body : WebhookBody -> string;
  (** [None]: [QRCode.toDataURL] rejects *)
  QRCode_toDataURL : string -> option string;
  (** [{ $sum: ... }] of a [$group] stage over the values of the matched
      documents, in the order of the collection *)
  aggregateSum : list float -> float
}.

(** [Booking.findById(id)] for an id that came with a request or out of a
    parsed object: an absent id finds nothing, one that does not cast
    throws. *)
Definition Booking_findByIdParam (id : IdParam) (db : Db)
  : result (option Booking.t) :=
  match id with
  | NoId => Ok None
  | BadId => Throw OtherError
  | GoodId bid => Ok (Booking_findById bid db)
  end.

(** *** The notification services *)

(** [s.replace(/\D/g, '')] and its kin: the characters that satisfy [p]. *)
Fixpoint filterString (p : ascii -> bool) (s : string) : string :=
  match s with
  | EmptyString => EmptyString
  | String c s' =>
      if p c then String c (filterString p s') else filterString p s'
  end.

(** [s.startsWith('91')] *)
Definition startsWith91 (s : string) : bool :=
  match s with
  | String "9" (String "1" _) => true
  | _ => false
  end.

(** [formatPhoneNumber(phone)] of services/whatsappService.js. *)
Definition formatPhoneNumber (phone : string) : result string :=
  (* remove all non-digit characters *)
  let cleaned := filterString Regex.isDigit phone in
  (* remove country code if present *)
  let cleaned :=
    if startsWith91 cleaned && Nat.eqb (String.length cleaned) 12
    then substring 2 (String.length cleaned - 2) cleaned
    else cleaned in
  (* should be 10 digits now *)
  if negb (Nat.eqb (String.length cleaned) 10) then Throw OtherError
  else Ok cleaned.

(** [emailService.sendBookingConfirmation(booking)]: never throws.  The
    attachment is [booking.qrImage.split('base64,')[1]]; without an image
    the [split] throws and nothing reaches the transporter. *)
Definition sendConfirmationMail (booking : Booking.t) : list Notification :=
  match Booking.qrImage booking with
  | None => []
  | Some image =>
      [Mail (email (Booking.customerDetails booking)) (Booking._id booking)
         (nth_error (Js.splitOn "base64," image) 1)]
  end.

Definition isService (name : string) (v : option string) : bool :=
  match v with
  | Some s => String.eqb s name
  | None => false
  end.

Definition envSet (v : option string) : bool :=
  match v with
  | Some s => Js.truthy s
  | None => false
  end.

(** [whatsappService.sendBookingConfirmation(booking)]: never throws.  A
    phone number that cannot be formatted ends it; otherwise the text goes
    to the transport that the environment selects, and is only logged
    when it selects none. *)
Definition sendConfirmationWhatsApp (cfg : Config) (booking : Booking.t)
  : list Notification :=
  match formatPhoneNumber (phone (Booking.customerDetails booking)) with
  | Throw _ => []
  | Ok phoneNumber =>
      let text via :=
        [WhatsApp via phoneNumber (Booking.bookingNumber booking)] in
      if isService "twilio" (WHATSAPP_SERVICE cfg) then text Twilio
      else if isService "business-api" (WHATSAPP_SERVICE cfg) then
        text BusinessApi
      else if envSet (WHATSAPP_API_URL cfg) && envSet (WHATSAPP_API_KEY cfg)
      then text GenericApi
      else []
  end.

Section Handlers.

Context {X : Externals}.
Variable cfg : Config.

Definition defaultQrSecret : string :=
  "your-secret-key-minimum-32-chars-long-for-aes-256".

Definition qrPayloadOf (booking : Booking.t) (act : Activity.t) (now : Z)
  : QRPayload :=
  {| bookingId := GoodId (Booking._id booking);
     bookingNumber := Booking.bookingNumber booking;
     customerName := name (Booking.customerDetails booking);
     customerPhone := phone (Booking.customerDetails booking);
     activityId := Activity._id act;
     bookingDate := Booking.bookingDate booking;
     numberOfParticipants := Booking.numberOfParticipants booking;
     timeSlot := Booking.selectedTimeSlot booking;
     timestamp := now |}.

(** [generateQRData(booking)]; [act] is the populated [booking.activity]
    (reading [_id] of a missing one throws), [iv] is
    [crypto.randomBytes(16)]. *)
Definition generateQRData (booking : Booking.t) (act : option Activity.t)
    (iv : list byte) (now : Z) : result string :=
  match act with
  | None => Throw OtherError
  | Some a =>
      let data := qrPayloadOf booking a now in
      let secretKey := envOr (QR_SECRET cfg) defaultQrSecret in
      let key := scryptSync secretKey in
      if negb (Nat.eqb (length iv) 16) then Throw OtherError
      else
        let encrypted :=
          Hex.encode (aesEncrypt key iv (JSON_stringify data)) in
        Ok (Hex.encode iv ++ ":" ++ encrypted)%string
  end.

(** [decryptQRData(encryptedData)]; every failure is rethrown as
    'Failed to decrypt QR data'. *)
Definition decryptQRData (encryptedData : string) : result QRPayload :=
  let secretKey := envOr (QR_SECRET cfg) defaultQrSecret in
  let key := scryptSync secretKey in
  let parts := Js.split ":" encryptedData in
  let ivHex := nth 0 parts EmptyString in
  let iv := Hex.decode ivHex in
  if negb (Nat.eqb (length iv) 16) then Throw OtherError
  else match nth_error parts 1 with
       | None => Throw OtherError
       | Some encrypted =>
           match aesDecrypt key iv (Hex.decode encrypted) with
           | None => Throw OtherError
           | Some decrypted =>
               match JSON_parse decrypted with
               | None => Throw OtherError
               | Some data => Ok data
               end
           end
       end.

(** The two calls that follow each other in [generateAndSendQR] and in
    [resendQR]: the e-mail, then WhatsApp. *)
Definition confirmationsOf (booking : Booking.t) : list Notification :=
  sendConfirmationMail booking ++ sendConfirmationWhatsApp cfg booking.

(** [generateAndSendQR(booking)]: never throws.  Returns the booking
    object as the caller sees it afterwards, and the database. *)
Definition generateAndSendQR (booking : Booking.t) (iv : list byte)
    (now : Z) (db : Db) : Booking.t * Db :=
  match generateQRData booking (Activity_findById (Booking.activity booking) db)
          iv now with
  | Throw _ => (booking, db)
  | Ok qrData =>
      match QRCode_toDataURL qrData with
      | None => (booking, db)
      | Some qrImage =>
          let booking1 :=
            Booking.set_qrImage (Some qrImage)
              (Booking.set_qrData (Some qrData) booking) in
          match Booking_save booking1 db with
          | Throw _ => (booking1, db)
          | Ok db1 =>
              (booking1,
               set_outbox (outbox db1 ++ confirmationsOf booking1) db1)
          end
      end
  end.

(** *** The booking controller *)

Record CreateBookingBody : Type := mkCreateBookingBody {
  req_activityId : IdParam;
  req_bookingDate : DateParam;
  req_selectedTimeSlot : option SelectedTimeSlot;
  req_numberOfParticipants : option Z;
  req_customerDetails : option CustomerDetails
}.

(** Step 10: [activity.priceAfterDiscount || activity.price]. *)
Definition pricePerPersonOf (activity : Activity.t) : float :=
  match Activity.priceAfterDiscount activity with
  | Some d => if JsNum.truthy d then d else Activity.price activity
  | None => Activity.price activity
  end.

(** Step 12, the sequence: one more than the number read off the last four
    characters of today's last booking number. *)
Definition nextSequence (lastBooking : option Booking.t) : Z :=
  match lastBooking with
  | Some lb =>
      match Booking.bookingNumber lb with
      | Some num =>
          if Js.truthy num then
            match Js.parseInt (Js.sliceLast 4 num) with
            | Some lastSequence => lastSequence + 1
            | None => 1
            end
          else 1
      | None => 1
      end
  | None => 1
  end.

(** Step 12, the number: [BK-${year}${month}${day}-${sequence}]. *)
Definition bookingNumberOf (now sequence : Z) : string :=
  let year := Js.sliceLast 2 (Js.ofInt (JsDate.getFullYear (tz cfg) now)) in
  let month :=
    Js.padStart 2 "0" (Js.ofInt (JsDate.getMonth (tz cfg) now + 1)) in
  let day := Js.padStart 2 "0" (Js.ofInt (JsDate.getDate (tz cfg) now)) in
  ("BK-" ++ year ++ month ++ day ++ "-"
   ++ Js.padStart 4 "0" (Js.ofInt sequence))%string.

Definition generateBookingNumber (now : Z) (db : Db) : string :=
  let todayStart := JsDate.startOfDay (tz cfg) now in
  let todayEnd := JsDate.endOfDay (tz cfg) now in
  bookingNumberOf now
    (nextSequence (Booking_findLastCreatedIn todayStart todayEnd db)).

(** The [catch] of [createBooking]. *)
Definition createBookingError (e : Exn) : Response :=
  match e with
  | ValidationError => fail 400 "Validation Error" ErrorDetail
  | OtherError => fail 500 "Error creating booking" ErrorDetail
  end.

Definition bookingFields : list string :=
  ["activityId"; "bookingDate"; "selectedTimeSlot"; "numberOfParticipants";
   "customerDetails"].

(** The document of step 13; the schema trims the name and lower-cases and
    trims the e-mail address once more. *)
Definition newBooking (newId : ObjectId) (now : Z) (number : string)
    (activity : Activity.t) (customer : CustomerDetails)
    (requestedDate : Z) (sel : SelectedTimeSlot) (n : Z)
    (pricePerPerson totalAmount discountAmount finalAmount : float)
  : Booking.t :=
  {| Booking._id := newId;
     Booking.activity := Activity._id activity;
     Booking.customerDetails :=
       {| name := Js.trim (Js.trim (name customer));
          email :=
            Js.trim (Js.toLowerCase (Js.trim (Js.toLowerCase (email customer))));
          phone := Js.trim (phone customer);
          address := Js.trim (address customer) |};
     Booking.bookingDate := requestedDate;
     Booking.selectedTimeSlot :=
       {| sel_startTime := sel_startTime sel;
          sel_endTime := sel_endTime sel |};
     Booking.numberOfParticipants := n;
     Booking.pricePerPerson := pricePerPerson;
     Booking.totalAmount := totalAmount;
     Booking.discountAmount := discountAmount;
     Booking.finalAmount := finalAmount;
     Booking.bookingStatus := Initiated;
     Booking.paymentStatus := Pending;
     Booking.transactionId := None;
     Booking.razorpayOrderId := None;
     Booking.razorpayPaymentId := None;
     Booking.razorpaySignature := None;
     Booking.paymentMethod := None;
     Booking.paidAt := None;
     Booking.qrData := None;
     Booking.qrImage := None;
     Booking.checkedIn := false;
     Booking.checkInTime := None;
     Booking.checkInBy := None;
     Booking.confirmationDate := None;
     Booking.bookingNumber := Some number;
     Booking.cancelledAt := None;
     Booking.cancellationReason := None;
     Booking.cancelledBy := None;
     Booking.adminNotes := None;
     Booking.activitySnapshot :=
       {| snap_title := Activity.title activity;
          snap_venue := Activity.venue activity;
          snap_address := Activity.address activity;
          snap_city := Activity.city activity;
          snap_thumbnailImage := Activity.thumbnailImage activity |};
     Booking.createdAt := now |}.

(** Steps 10 to 14 of [createBooking], once every check has passed. *)
Definition reserveAndCreate (now : Z) (newId : ObjectId)
    (activity : Activity.t) (customer : CustomerDetails)
    (requestedDate : option Z) (sel : SelectedTimeSlot) (n : Z) (db : Db)
  : Response * Db :=
  (* 10. pricing *)
  let pricePerPerson := pricePerPersonOf activity in
  let totalAmount := (pricePerPerson * JsNum.ofZ n)%float in
  let discountAmount :=
    ((Activity.price activity - pricePerPerson) * JsNum.ofZ n)%float in
  let finalAmount := totalAmount in
  (* 11. reduce available spots *)
  match findIndex (slotMatches (sel_startTime sel) (sel_endTime sel))
          (Activity.timeSlots activity) with
  | None => (createBookingError OtherError, db)
  | Some slotIndex =>
      let activity1 :=
        Activity.set_timeSlots
          (alter (addSpots (- n)) slotIndex (Activity.timeSlots activity))
          activity in
      match Activity_save activity1 db with
      | Throw e => (createBookingError e, db)
      | Ok (activity2, db1) =>
          (* 12. booking number *)
          let number := generateBookingNumber now db1 in
          (* 13. create the booking *)
          match requestedDate with
          | None => (createBookingError ValidationError, db1)
          | Some date =>
              let booking :=
                newBooking newId now number activity2 customer date sel n
                  pricePerPerson totalAmount discountAmount finalAmount in
              match Booking_create booking db1 with
              | Throw e => (createBookingError e, db1)
              | Ok db2 =>
                  (ok 201
                     "Booking initiated successfully. Please proceed to payment."
                     (BookingInitiated (Booking._id booking)
                        (Booking.bookingNumber booking) finalAmount),
                   db2)
              end
          end
      end
  end.

(** What steps 1 to 7 of [createBooking] establish. *)
Record Checked : Type := mkChecked {
  ck_activity : Activity.t;
  ck_customer : CustomerDetails;
  ck_requestedDate : option Z;
  ck_selected : SelectedTimeSlot;
  ck_participants : Z;
  ck_timeSlot : TimeSlot
}.

(** Steps 1 to 7 of [createBooking]: the response of the first check that
    fails, or what the later steps work on. *)
Definition checkRequest (now : Z) (body : CreateBookingBody) (db : Db)
  : Response + Checked :=
  match req_activityId body, req_bookingDate body,
        req_selectedTimeSlot body, req_numberOfParticipants body,
        req_customerDetails body with
  | NoId, _, _, _, _ | _, NoDate, _, _, _ | _, _, None, _, _
  | _, _, _, None, _ | _, _, _, _, None =>
      (* 1. required fields *)
      inl (fail 400 "All fields are required" (RequiredFields bookingFields))
  | activityId, date, Some sel, Some n, Some customer =>
      if n =? 0 then
        inl (fail 400 "All fields are required"
               (RequiredFields bookingFields))
      (* 2. customer details *)
      else if negb (Js.truthy (name customer) && Js.truthy (email customer)
                    && Js.truthy (phone customer)
                    && Js.truthy (address customer)) then
        inl (fail 400 "Customer details incomplete"
               (RequiredFields ["name"; "email"; "phone"; "address"]))
      (* 3. time slot structure *)
      else if negb (Js.truthy (sel_startTime sel)
                    && Js.truthy (sel_endTime sel)) then
        inl (fail 400 "Time slot must have startTime and endTime" NoDetail)
      else
        (* 4. the activity exists and is active *)
        match activityId with
        | NoId | BadId => inl (createBookingError OtherError)
        | GoodId aid =>
        match Activity_findById aid db with
        | None => inl (fail 404 "Activity not found" NoDetail)
        | Some activity =>
            if negb (match Activity.status activity with
                     | Active => true
                     | _ => false
                     end)
               || negb (Activity.isAvailable activity) then
              inl (fail 400 "Activity is not available for booking" NoDetail)
            else
              (* 5. booking date *)
              let requestedDate := newDate date in
              let today := JsDate.startOfDay (tz cfg) now in
              if JsDate.lt requestedDate (Some today) then
                inl (fail 400 "Cannot book for past dates" NoDetail)
              else if JsDate.lt requestedDate
                        (Some (Activity.startDate activity))
                      || JsDate.lt (Some (Activity.endDate activity))
                           requestedDate then
                inl (fail 400 "Activity is not available on this date"
                       (AvailableRange (Activity.startDate activity)
                          (Activity.endDate activity)))
              else
                (* 6. day of the week *)
                let dayName := JsDate.weekdayLong (tz cfg) requestedDate in
                if negb (Schema.inList dayName
                           (Activity.availableDays activity)) then
                  inl (fail 400 ("Activity is not available on " ++ dayName)
                         (AvailableDays (Activity.availableDays activity)))
                else
                  (* 7. the time slot *)
                  match find (slotMatches (sel_startTime sel)
                                (sel_endTime sel))
                          (Activity.timeSlots activity) with
                  | None =>
                      inl (fail 400 "Invalid time slot"
                             (AvailableSlots (Activity.timeSlots activity)))
                  | Some timeSlot =>
                      inr {| ck_activity := activity;
                             ck_customer := customer;
                             ck_requestedDate := requestedDate;
                             ck_selected := sel;
                             ck_participants := n;
                             ck_timeSlot := timeSlot |}
                  end
        end
        end
  end.

(** [exports.createBooking]: [now] is the clock, [newId] the ObjectId the
    driver draws for the new document. *)
Definition createBooking (now : Z) (newId : ObjectId)
    (body : CreateBookingBody) (db : Db) : Response * Db :=
  match checkRequest now body db with
  | inl response => (response, db)
  | inr ck =>
      let activity := ck_activity ck in
      let timeSlot := ck_timeSlot ck in
      let numberOfParticipants := ck_participants ck in
      (* 8. available spots *)
      if availableSpots timeSlot <? numberOfParticipants then
        (fail 400 "Not enough spots available"
           (Capacity numberOfParticipants (availableSpots timeSlot)), db)
      (* 9. max participants *)
      else if Activity.maxParticipants activity <? numberOfParticipants then
        (fail 400
           ("Maximum " ++ Js.ofInt (Activity.maxParticipants activity)
            ++ " participants allowed") NoDetail, db)
      else
        reserveAndCreate now newId activity (ck_customer ck)
          (ck_requestedDate ck) (ck_selected ck) numberOfParticipants db
  end.

(** [activity.timeSlots[i].availableSpots += booking.numberOfParticipants]
    and [activity.save()]: the 'restore available spots' block of
    [cancelBooking] and of the webhook's failed-payment branch. *)
Definition restoreSpots (booking : Booking.t) (db : Db) : result Db :=
  match Activity_findById (Booking.activity booking) db with
  | None => Ok db
  | Some activity =>
      let sel := Booking.selectedTimeSlot booking in
      match findIndex (slotMatches (sel_startTime sel) (sel_endTime sel))
              (Activity.timeSlots activity) with
      | None => Ok db
      | Some slotIndex =>
          let activity1 :=
            Activity.set_timeSlots
              (alter (addSpots (Booking.numberOfParticipants booking))
                 slotIndex (Activity.timeSlots activity))
              activity in
          match Activity_save activity1 db with
          | Throw e => Throw e
          | Ok (_, db1) => Ok db1
          end
      end
  end.

(** [exports.cancelBooking]: [user] is [req.user._id], [reason] the body's
    reason (empty when absent). *)
Definition cancelBooking (now : Z) (user : ObjectId) (idParam : IdParam)
    (reason : string) (db : Db) : Response * Db :=
  let serverError := fail 500 "Error cancelling booking" ErrorDetail in
  match idParam with
  | NoId | BadId => (fail 400 "Invalid booking ID" NoDetail, db)
  | GoodId bid =>
      match Booking_findById bid db with
      | None => (fail 404 "Booking not found" NoDetail, db)
      | Some booking =>
          (* can only cancel if payment NOT completed *)
          match Booking.paymentStatus booking with
          | PaymentCompleted =>
              (fail 400
                 "Cannot cancel completed bookings. Please process refund first."
                 NoDetail, db)
          | _ =>
              (* restore available spots *)
              let restored := restoreSpots booking db in
              match restored with
              | Throw _ => (serverError, db)
              | Ok db1 =>
                  let booking1 :=
                    Booking.set_cancelledBy (Some user)
                      (Booking.set_cancellationReason
                         (Some (if Js.truthy reason then reason
                                else "Cancelled by admin"))
                         (Booking.set_cancelledAt (Some now)
                            (Booking.set_bookingStatus Cancelled booking)))
                  in
                  match Booking_save booking1 db1 with
                  | Throw _ => (serverError, db1)
                  | Ok db2 =>
                      (ok 200 "Booking cancelled successfully"
                         (BookingData booking1), db2)
                  end
              end
          end
      end
  end.

(** *** The payment controller *)

(** [exports.createPaymentOrder]; [gateway] is [razorpay.orders.create],
    [None] when it rejects. *)
Definition createPaymentOrder (gateway : OrderOptions -> option GatewayOrder)
    (bookingId : IdParam) (db : Db) : Response * Db :=
  let serverError := fail 500 "Error creating payment order" ErrorDetail in
  match bookingId with
  | NoId => (fail 400 "Booking ID is required" NoDetail, db)
  | BadId => (serverError, db)
  | GoodId bid =>
      match Booking_findById bid db with
      | None => (fail 404 "Booking not found" NoDetail, db)
      | Some booking =>
          (* validate booking status *)
          match Booking.bookingStatus booking with
          | Initiated =>
              match Booking.paymentStatus booking with
              | Pending =>
                  let options :=
                    {| opt_amount :=
                         Math.round (Booking.finalAmount booking * 100)%float;
                       opt_currency := "INR";
                       opt_receipt :=
                         ("receipt_"
                          ++ match Booking.bookingNumber booking with
                             | Some num => num
                             | None => "undefined"
                             end)%string;
                       opt_bookingId := Booking._id booking |} in
                  match gateway options with
                  | None => (serverError, db)
                  | Some order =>
                      (* update booking with order id *)
                      let booking1 :=
                        Booking.set_razorpayOrderId (Some (gw_id order))
                          booking in
                      match Booking_save booking1 db with
                      | Throw _ => (serverError, db)
                      | Ok db1 =>
                          (ok 200 "Payment order created successfully"
                             (OrderCreated (gw_id order) (gw_amount order)
                                (Booking.bookingNumber booking1)), db1)
                      end
                  end
              | ps =>
                  (fail 400 "Payment already processed"
                     (CurrentPaymentStatus ps), db)
              end
          | bs =>
              (fail 400 "This booking cannot be paid" (CurrentStatus bs), db)
          end
      end
  end.

Record VerifyPaymentBody : Type := mkVerifyPaymentBody {
  razorpay_order_id : string;
  razorpay_payment_id : string;
  razorpay_signature : string;
  vp_bookingId : IdParam
}.

(** [exports.verifyPayment]; [fetched] is the method reported by
    [razorpay.payments.fetch], [None] when the fetch fails; [iv] is the
    random IV of the credential. *)
Definition verifyPayment (now : Z) (iv : list byte)
    (fetched : option (option string)) (body : VerifyPaymentBody) (db : Db)
  : Response * Db :=
  let serverError := fail 500 "Error verifying payment" ErrorDetail in
  (* validate required fields *)
  if negb (Js.truthy (razorpay_order_id body))
     || negb (Js.truthy (razorpay_payment_id body))
     || negb (Js.truthy (razorpay_signature body))
     || match vp_bookingId body with NoId => true | _ => false end then
    (fail 400 "Missing payment verification data" NoDetail, db)
  else
    match vp_bookingId body with
    | NoId | BadId => (serverError, db)
    | GoodId bid =>
    match Booking_findById bid db with
    | None => (fail 404 "Booking not found" NoDetail, db)
    | Some booking =>
        (* verify the signature *)
        match RAZORPAY_KEY_SECRET cfg with
        | None => (serverError, db)
        | Some secret =>
            let body' :=
              (razorpay_order_id body ++ "|" ++ razorpay_payment_id body)%string
            in
            let expectedSignature := hmacSha256Hex secret body' in
            let isAuthentic :=
              String.eqb expectedSignature (razorpay_signature body) in
            if negb isAuthentic then
              (* mark payment as failed *)
              let booking1 := Booking.set_paymentStatus Failed booking in
              match Booking_save booking1 db with
              | Throw _ => (serverError, db)
              | Ok db1 =>
                  (fail 400
                     "Payment verification failed. Invalid signature."
                     NoDetail, db1)
              end
            else
              let paymentMethod :=
                match fetched with
                | Some (Some m) => if Js.truthy m then m else "Unknown"
                | Some None => "Unknown"
                | None => "Unknown"
                end in
              (* update booking with payment info *)
              let booking1 :=
                Booking.set_confirmationDate (Some now)
                  (Booking.set_paidAt (Some now)
                     (Booking.set_paymentMethod (Some paymentMethod)
                        (Booking.set_transactionId
                           (Some (razorpay_payment_id body))
                           (Booking.set_razorpaySignature
                              (Some (razorpay_signature body))
                              (Booking.set_razorpayPaymentId
                                 (Some (razorpay_payment_id body))
                                 (Booking.set_bookingStatus Confirmed
                                    (Booking.set_paymentStatus
                                       PaymentCompleted booking)))))))
              in
              match Booking_save booking1 db with
              | Throw _ => (serverError, db)
              | Ok db1 =>
                  (* generate QR and send notifications *)
                  let '(booking2, db2) :=
                    generateAndSendQR booking1 iv now db1 in
                  (ok 200 "Payment verified successfully! Booking confirmed."
                     (PaymentVerified (Booking._id booking2)
                        (Booking.bookingStatus booking2)
                        (Booking.paymentStatus booking2)
                        (Booking.transactionId booking2)
                        (Booking.paidAt booking2)
                        (match Booking.qrImage booking2 with
                         | Some img => Js.truthy img
                         | None => false
                         end)), db2)
              end
        end
    end
    end.

(** [exports.paymentWebhook]; [signature] is the [x-razorpay-signature]
    header. *)
Definition paymentWebhook (now : Z) (iv : list byte)
    (signature : option string) (body : WebhookBody) (db : Db)
  : Response * Db :=
  let serverError := fail 500 "Webhook processing error" ErrorDetail in
  match RAZORPAY_WEBHOOK_SECRET cfg with
  | None => (fail 500 "Webhook secret not configured" NoDetail, db)
  | Some webhookSecret =>
  if negb (Js.truthy webhookSecret) then
    (fail 500 "Webhook secret not configured" NoDetail, db)
  else
    let expectedSignature :=
      hmacSha256Hex webhookSecret (JSON_stringify_body body) in
    let isAuthentic := optStringEqb signature (Some expectedSignature) in
    if negb isAuthentic then
      (fail 400 "Invalid webhook signature" NoDetail, db)
    else
      match entity body with
      | None => (serverError, db)
      | Some payload =>
          if String.eqb (event body) "payment.captured" then
            (* find booking by order id *)
            match Booking_findByOrderId (order_id payload) db with
            | None => (fail 404 "Booking not found" NoDetail, db)
            | Some booking =>
                (* check if already processed *)
                match Booking.paymentStatus booking with
                | PaymentCompleted =>
                    (ok 200 "Payment already processed" NoDetail, db)
                | _ =>
                    let paymentMethod :=
                      match method payload with
                      | Some m => if Js.truthy m then m else "Unknown"
                      | None => "Unknown"
                      end in
                    let booking1 :=
                      Booking.set_confirmationDate (Some now)
                        (Booking.set_paidAt (Some now)
                           (Booking.set_paymentMethod (Some paymentMethod)
                              (Booking.set_transactionId (id payload)
                                 (Booking.set_razorpayPaymentId (id payload)
                                    (Booking.set_bookingStatus Confirmed
                                       (Booking.set_paymentStatus
                                          PaymentCompleted booking))))))
                    in
                    match Booking_save booking1 db with
                    | Throw _ => (serverError, db)
                    | Ok db1 =>
                        let '(_, db2) :=
                          generateAndSendQR booking1 iv now db1 in
                        (ok 200 "Webhook processed successfully" NoDetail,
                         db2)
                    end
                end
            end
          else if String.eqb (event body) "payment.failed" then
            match Booking_findByOrderId (order_id payload) db with
            | None => (ok 200 "Webhook received" NoDetail, db)
            | Some booking =>
                match Booking.paymentStatus booking with
                | Pending =>
                    let booking1 :=
                      Booking.set_paymentStatus Failed booking in
                    match Booking_save booking1 db with
                    | Throw _ => (serverError, db)
                    | Ok db1 =>
                        (* restore available spots *)
                        match restoreSpots booking1 db1 with
                        | Throw _ => (serverError, db1)
                        | Ok db2 =>
                            (ok 200 "Webhook received" NoDetail, db2)
                        end
                    end
                | _ => (ok 200 "Webhook received" NoDetail, db)
                end
            end
          else (ok 200 "Webhook received" NoDetail, db)
      end
  end.

(** *** The QR controller *)

(** [exports.scanQR]; [user] is [req.user._id]. *)
Definition scanQR (now : Z) (user : ObjectId) (qrData : string) (db : Db)
  : Response * Db :=
  let serverError := fail 500 "Error processing QR code" ErrorDetail in
  if negb (Js.truthy qrData) then
    (fail 400 "QR data is required" NoDetail, db)
  else
    (* 1. decrypt *)
    match decryptQRData qrData with
    | Throw _ => (fail 400 "Invalid or corrupted QR code" NoDetail, db)
    | Ok decryptedData =>
        (* 2. find booking *)
        match Booking_findByIdParam (bookingId decryptedData) db with
        | Throw _ => (serverError, db)
        | Ok None => (fail 404 "Booking not found" NoDetail, db)
        | Ok (Some booking) =>
            (* 3. booking status *)
            match Booking.bookingStatus booking with
            | Confirmed =>
                (* 4. payment status *)
                match Booking.paymentStatus booking with
                | PaymentCompleted =>
                    (* 5. already checked in *)
                    if Booking.checkedIn booking then
                      (fail 400 "Already checked in"
                         (CheckedInAt (Booking.checkInTime booking)
                            (Booking.checkInBy booking)), db)
                    else
                      (* 6. the booking date must be today *)
                      let today := JsDate.startOfDay (tz cfg) now in
                      let bookingDate :=
                        JsDate.startOfDay (tz cfg)
                          (Booking.bookingDate booking) in
                      if negb (bookingDate =? today) then
                        (fail 400 "This booking is not for today"
                           (NotToday (Booking.bookingDate booking) today),
                         db)
                      else
                        (* 7. check in *)
                        let booking1 :=
                          Booking.set_bookingStatus Completed
                            (Booking.set_checkInBy (Some user)
                               (Booking.set_checkInTime (Some now)
                                  (Booking.set_checkedIn true booking))) in
                        match Booking_save booking1 db with
                        | Throw _ => (serverError, db)
                        | Ok db1 =>
                            (* 8. the response reads the populated activity *)
                            match Activity_findById
                                    (Booking.activity booking) db with
                            | None => (serverError, db1)
                            | Some _ =>
                                (ok 200 "✅ Check-in successful!"
                                   (CheckedIn
                                      (Booking.bookingNumber booking1)
                                      (name
                                         (Booking.customerDetails booking1))
                                      (Booking.numberOfParticipants booking1)
                                      (Booking.checkInTime booking1)), db1)
                            end
                        end
                | ps =>
                    (fail 400 "Payment not completed"
                       (CurrentPaymentStatus ps), db)
                end
            | bs =>
                (fail 400 "Booking is not confirmed" (CurrentStatus bs), db)
            end
        end
    end.

End Handlers.

(** ** The other handlers of the booking, payment and QR controllers *)

(** What [validateQR] reports about a booking. *)
Record QrStatus : Type := mkQrStatus {
  qs_bookingNumber : option string;
  qs_bookingStatus : BookingStatus;
  qs_paymentStatus : PaymentStatus;
  qs_checkedIn : bool;
  qs_checkInTime : option Z;
  qs_customerName : string;
  qs_activityTitle : option string
}.

Record ValidateReply : Type := mkValidateReply {
  vr_status : Z;
  vr_success : bool;
  vr_message : string;
  vr_valid : option bool;
  vr_data : option QrStatus
}.

(** What [checkAvailability] reports about a slot. *)
Record Availability : Type := mkAvailability {
  av_isAvailable : bool;
  av_availableSpots : Z;
  av_timeSlot : TimeSlot
}.

Record AvailabilityReply : Type := mkAvailabilityReply {
  ar_status : Z;
  ar_success : bool;
  ar_message : string;
  ar_data : option Availability
}.

(** The overview of [getBookingStats]. *)
Record Overview : Type := mkOverview {
  totalBookings : Z;
  confirmedBookings : Z;
  cancelledBookings : Z;
  pendingBookings : Z;
  todayBookings : Z;
  upcomingBookings : Z;
  totalRevenue : float;
  completedPayments : Z
}.

Record StatsReply : Type := mkStatsReply {
  sr_status : Z;
  sr_success : bool;
  sr_overview : option Overview
}.

(** [Booking.countDocuments(filter)] *)
Definition countDocuments (p : Booking.t -> bool) (db : Db) : Z :=
  Z.of_nat (length (List.filter p (bookings db))).

Definition isConfirmed (b : Booking.t) : bool :=
  match Booking.bookingStatus b with Confirmed => true | _ => false end.

Definition isCancelled (b : Booking.t) : bool :=
  match Booking.bookingStatus b with Cancelled => true | _ => false end.

Definition isInitiated (b : Booking.t) : bool :=
  match Booking.bookingStatus b with Initiated => true | _ => false end.

Definition isPaid (b : Booking.t) : bool :=
  match Booking.paymentStatus b with PaymentCompleted => true | _ => false end.

(** The filter [{ createdAt: { $gte: from, $lte: to } }], each bound
    present when its parameter is. *)
Definition createdWithin (from to : option Z) (b : Booking.t) : bool :=
  match from with Some f => f <=? Booking.createdAt b | None => true end
  && match to with Some t => Booking.createdAt b <=? t | None => true end.

(** [revenueData[0]?.totalRevenue || 0]: the [$group] stage gives no
    document when nothing matched. *)
Definition totalRevenueOf {X : Externals} (paid : list Booking.t) : float :=
  match paid with
  | [] => 0%float
  | _ =>
      let sum := aggregateSum (map Booking.finalAmount paid) in
      if JsNum.truthy sum then sum else 0%float
  end.

(** [exports.getBookingStats]; a bound that is present but is no date
    makes the first query throw. *)
Definition getBookingStats {X : Externals} (tzOffset now : Z)
    (fromDate toDate : DateParam) (db : Db) : StatsReply :=
  match fromDate, toDate with
  | InvalidDate, _ | _, InvalidDate =>
      {| sr_status := 500; sr_success := false; sr_overview := None |}
  | _, _ =>
      let dateFilter := createdWithin (newDate fromDate) (newDate toDate) in
      let paid := List.filter (fun b => dateFilter b && isPaid b) (bookings db) in
      let todayStart := JsDate.startOfDay tzOffset now in
      let todayEnd := JsDate.endOfDay tzOffset now in
      let nextWeek := now + 7 * JsDate.msPerDay in
      {| sr_status := 200; sr_success := true;
         sr_overview :=
           Some
             {| totalBookings := countDocuments dateFilter db;
                confirmedBookings :=
                  countDocuments (fun b => dateFilter b && isConfirmed b) db;
                cancelledBookings :=
                  countDocuments (fun b => dateFilter b && isCancelled b) db;
                pendingBookings :=
                  countDocuments (fun b => dateFilter b && isInitiated b) db;
                todayBookings :=
                  countDocuments
                    (createdWithin (Some todayStart) (Some todayEnd)) db;
                upcomingBookings :=
                  countDocuments
                    (fun b =>
                       (now <=? Booking.bookingDate b)
                       && (Booking.bookingDate b <=? nextWeek)
                       && isConfirmed b) db;
                totalRevenue := totalRevenueOf paid;
                completedPayments := Z.of_nat (length paid) |} |}
  end.

(** [exports.checkAvailability] of the activity controller; [timeSlot] is
    the start time asked for. *)
Definition checkAvailability (idParam : IdParam) (date : DateParam)
    (timeSlot : string) (db : Db) : AvailabilityReply :=
  let reject code msg :=
    {| ar_status := code; ar_success := false; ar_message := msg;
       ar_data := None |} in
  match idParam with
  | NoId | BadId => reject 400 "Invalid activity ID"
  | GoodId aid =>
      match Activity_findById aid db with
      | None => reject 404 "Activity not found"
      | Some activity =>
          if negb (match Activity.status activity with
                   | Active => true
                   | _ => false
                   end)
             || negb (Activity.isAvailable activity) then
            reject 400 "Activity is not available for booking"
          else
            let requestedDate := newDate date in
            if JsDate.lt requestedDate (Some (Activity.startDate activity))
               || JsDate.lt (Some (Activity.endDate activity)) requestedDate
            then reject 400 "Activity is not available on this date"
            else
              match find (fun s => String.eqb (startTime s) timeSlot)
                      (Activity.timeSlots activity) with
              | None => reject 400 "Invalid time slot"
              | Some slot =>
                  {| ar_status := 200; ar_success := true; ar_message := "";
                     ar_data :=
                       Some {| av_isAvailable := 0 <? availableSpots slot;
                               av_availableSpots := availableSpots slot;
                               av_timeSlot := slot |} |}
              end
      end
  end.

Section MoreHandlers.

Context {X : Externals}.
Variable cfg : Config.

(** [exports.verifyAndCheckIn] of the booking controller: check-in by
    booking id; [qrData] is the body's QR data (empty when absent),
    [user] is [req.user._id]. *)
Definition verifyAndCheckIn (now : Z) (user : ObjectId) (idParam : IdParam)
    (qrData : string) (db : Db) : Response * Db :=
  let serverError := fail 500 "Error processing check-in" ErrorDetail in
  match idParam with
  | NoId | BadId => (fail 400 "Invalid booking ID" NoDetail, db)
  | GoodId bid =>
      match Booking_findById bid db with
      | None => (fail 404 "Booking not found" NoDetail, db)
      | Some booking =>
          (* validation checks *)
          match Booking.bookingStatus booking with
          | Confirmed =>
              match Booking.paymentStatus booking with
              | PaymentCompleted =>
                  if Booking.checkedIn booking then
                    (fail 400 "Already checked in"
                       (CheckedInAt (Booking.checkInTime booking) None), db)
                  (* verify QR data matches *)
                  else if Js.truthy qrData
                          && negb (optStringEqb (Booking.qrData booking)
                                     (Some qrData)) then
                    (fail 400 "Invalid QR code" NoDetail, db)
                  else
                    (* check booking date *)
                    let today := JsDate.startOfDay (tz cfg) now in
                    let bookingDate :=
                      JsDate.startOfDay (tz cfg)
                        (Booking.bookingDate booking) in
                    if negb (bookingDate =? today) then
                      (fail 400 "This booking is not for today"
                         (NotToday (Booking.bookingDate booking) today), db)
                    else
                      (* update check-in status *)
                      let booking1 :=
                        Booking.set_bookingStatus Completed
                          (Booking.set_checkInBy (Some user)
                             (Booking.set_checkInTime (Some now)
                                (Booking.set_checkedIn true booking))) in
                      match Booking_save booking1 db with
                      | Throw _ => (serverError, db)
                      | Ok db1 =>
                          (* the response reads the populated activity *)
                          match Activity_findById (Booking.activity booking)
                                  db with
                          | None => (serverError, db1)
                          | Some _ =>
                              (ok 200 "Check-in successful"
                                 (CheckedIn (Booking.bookingNumber booking1)
                                    (name (Booking.customerDetails booking1))
                                    (Booking.numberOfParticipants booking1)
                                    (Booking.checkInTime booking1)), db1)
                          end
                      end
              | _ => (fail 400 "Payment not completed" NoDetail, db)
              end
          | bs => (fail 400 "Booking is not confirmed" (CurrentStatus bs), db)
          end
      end
  end.

(** [exports.validateQR]: reads only. *)
Definition validateQR (qrData : string) (db : Db) : ValidateReply :=
  if negb (Js.truthy qrData) then
    {| vr_status := 400; vr_success := false;
       vr_message := "QR data is required"; vr_valid := None;
       vr_data := None |}
  else
    match decryptQRData cfg qrData with
    | Throw _ =>
        {| vr_status := 400; vr_success := false;
           vr_message := "Invalid QR code"; vr_valid := Some false;
           vr_data := None |}
    | Ok decryptedData =>
        match Booking_findByIdParam (bookingId decryptedData) db with
        | Throw _ =>
            {| vr_status := 500; vr_success := false;
               vr_message := "Error validating QR code"; vr_valid := None;
               vr_data := None |}
        | Ok None =>
            {| vr_status := 404; vr_success := false;
               vr_message := "Booking not found"; vr_valid := Some false;
               vr_data := None |}
        | Ok (Some booking) =>
            {| vr_status := 200; vr_success := true; vr_message := "";
               vr_valid := Some true;
               vr_data :=
                 Some
                   {| qs_bookingNumber := Booking.bookingNumber booking;
                      qs_bookingStatus := Booking.bookingStatus booking;
                      qs_paymentStatus := Booking.paymentStatus booking;
                      qs_checkedIn := Booking.checkedIn booking;
                      qs_checkInTime := Booking.checkInTime booking;
                      qs_customerName :=
                        name (Booking.customerDetails booking);
                      qs_activityTitle :=
                        option_map Activity.title
                          (Activity_findById (Booking.activity booking) db)
                   |} |}
        end
    end.

End MoreHandlers.

Record ResendBody : Type := mkResendBody {
  rs_bookingNumber : string;
  rs_email : string;
  rs_phone : string
}.

(** The filter of [resendQR]:
    [{ bookingNumber, 'customerDetails.email': email.toLowerCase(),
       'customerDetails.phone': phone }]; the schema's setters of the
    e-mail path (lowercase, trim) apply to the queried value too. *)
Definition resendMatches (body : ResendBody) (b : Booking.t) : bool :=
  optStringEqb (Booking.bookingNumber b) (Some (rs_bookingNumber body))
  && String.eqb (email (Booking.customerDetails b))
       (Js.trim (Js.toLowerCase (Js.toLowerCase (rs_email body))))
  && String.eqb (phone (Booking.customerDetails b)) (rs_phone body).

(** [exports.resendQR]: sends the stored QR again. *)
Definition resendQR (cfg : Config) (body : ResendBody) (db : Db)
  : Response * Db :=
  if negb (Js.truthy (rs_bookingNumber body))
     || negb (Js.truthy (rs_email body))
     || negb (Js.truthy (rs_phone body)) then
    (fail 400 "Booking number, email, and phone are required" NoDetail, db)
  else
    (* find booking with matching details *)
    match find (resendMatches body) (bookings db) with
    | None =>
        (fail 404 "Booking not found or details do not match" NoDetail, db)
    | Some booking =>
        match Booking.bookingStatus booking with
        | Confirmed =>
            match Booking.paymentStatus booking with
            | PaymentCompleted =>
                (* check if QR exists *)
                match Booking.qrImage booking with
                | None => (fail 400 "QR code not generated yet" NoDetail, db)
                | Some img =>
                    if negb (Js.truthy img) then
                      (fail 400 "QR code not generated yet" NoDetail, db)
                    else
                      (ok 200
                         "QR code resent successfully via email and WhatsApp"
                         NoDetail,
                       set_outbox (outbox db ++ confirmationsOf cfg booking)
                         db)
                end
            | _ => (fail 400 "Payment not completed" NoDetail, db)
            end
        | _ => (fail 400 "Booking is not confirmed yet" NoDetail, db)
        end
    end.

(** Every character of the string satisfies [p]. *)
Fixpoint allChars (p : ascii -> bool) (s : string) : bool :=
  match s with
  | EmptyString => true
  | String c s' => p c && allChars p s'
  end.

(** ** Well-formed databases *)

(** The pre-save hook looks at the dates and the ages only. *)
Definition hookPasses (a : Activity.t) : bool :=
  negb (Activity.endDate a <? Activity.startDate a)
  && negb (Schema.zTruthy (Activity.minAge a)
           && Schema.zTruthy (Activity.maxAge a)
           && Schema.optLtb (Activity.maxAge a) (Activity.minAge a)).

(** What the pre-save hook makes of the document when it passes. *)
Definition discounted (a : Activity.t) : Activity.t :=
  Activity.set_priceAfterDiscount
    (Schema.assignedPrice a (Schema.discountedPrice a)) a.

(** The event's payment method is one that the booking schema stores. *)
Definition methodAccepted (payload : PaymentEntity) : bool :=
  match method payload with
  | Some m => Schema.inList m Schema.paymentMethods
  | None => false
  end.

(** The sequence number [s], written on four digits, is read back as [s]
    from the last four characters of a booking number. *)
Definition sequenceReadsBack (s : Z) : bool :=
  let field := Js.padStart 4 "0" (Js.ofInt s) in
  Nat.eqb (String.length field) 4
  && match Js.parseInt field with
     | Some v => v =? s
     | None => false
     end.

(** An activity that [save] accepts: the validators pass and the pre-save
    hook does not throw. *)
Definition activitySound (a : Activity.t) : bool :=
  Schema.activityValid a
  && match Schema.activityPreSave a with
     | Ok _ => true
     | Throw _ => false
     end.

(** Every stored document satisfies its schema, as documents written by
    [save] and [create] do. *)
Definition storedOk (db : Db) : bool :=
  forallb activitySound (activities db)
  && forallb Schema.bookingValid (bookings db).

(** No slot is overdrawn. *)
Definition spotsNonneg (db : Db) : Prop :=
  forall a s,
    In a (activities db) -> In s (Activity.timeSlots a) ->
    0 <= availableSpots s.

(** ** A small installation, for concrete runs *)

Module Demo.

(** Stand-ins for the external functions: a keyed tag for the HMAC, a
    byte reversal for the cipher, a field list for JSON, a sum from left
    to right for the accumulator. *)
Definition sep : string := "|".

Definition stringify (p : QRPayload) : string :=
  (match bookingId p with GoodId b => b | _ => "" end ++ sep
   ++ match bookingNumber p with Some n => n | None => "" end ++ sep
   ++ customerName p ++ sep ++ customerPhone p ++ sep ++ activityId p ++ sep
   ++ Js.ofInt (bookingDate p) ++ sep
   ++ Js.ofInt (numberOfParticipants p) ++ sep
   ++ sel_startTime (timeSlot p) ++ sep ++ sel_endTime (timeSlot p) ++ sep
   ++ Js.ofInt (timestamp p))%string.

Definition parse (s : string) : option QRPayload :=
  match Js.split "|" s with
  | [bid; num; cn; cp; aid; bd; n; st; en; ts] =>
      match Js.parseInt bd, Js.parseInt n, Js.parseInt ts with
      | Some bd', Some n', Some ts' =>
          Some {| bookingId := GoodId bid;
                  bookingNumber := if Js.truthy num then Some num else None;
                  customerName := cn; customerPhone := cp;
                  activityId := aid; bookingDate := bd';
                  numberOfParticipants := n';
                  timeSlot := {| sel_startTime := st; sel_endTime := en |};
                  timestamp := ts' |}
      | _, _, _ => None
      end
  | _ => None
  end.

Definition externals : Externals := {|
  hmacSha256Hex key msg := ("hmac[" ++ key ++ "](" ++ msg ++ ")")%string;
  scryptSync secret := list_byte_of_string secret;
  aesEncrypt key iv text := List.rev (list_byte_of_string text);
  aesDecrypt key iv data := Some (string_of_list_byte (List.rev data));
  JSON_stringify := stringify;
  JSON_parse := parse;
  JSON_stringify_body body :=
    (event body ++ "/"
     ++ match entity body with
        | Some e =>
            match order_id e with Some o => o | None => "" end
        | None => ""
        end)%string;
  QRCode_toDataURL data := Some ("data:image/png;base64," ++ data)%string;
  aggregateSum amounts := fold_left PrimFloat.add amounts 0%float
|}.

Definition cfg : Config :=
  {| RAZORPAY_KEY_ID := Some "rzp_test_key";
     RAZORPAY_KEY_SECRET := Some "key-secret";
     RAZORPAY_WEBHOOK_SECRET := Some "hook-secret";
     QR_SECRET := None;
     WHATSAPP_SERVICE := Some "twilio";
     WHATSAPP_API_URL := None;
     WHATSAPP_API_KEY := None;
     tz := 19800000 |}.

(** 2025-01-15, 10:00 local time. *)
Definition now : Z := 1736915400000.

(** 2025-01-15, 00:00 UTC: a Wednesday. *)
Definition jan15 : Z := 1736899200000.

Definition slot (spots : Z) : TimeSlot :=
  {| startTime := "10:00"; endTime := "11:00"; availableSpots := spots |}.

Definition climbing (spots : Z) (discount : float)
    (afterDiscount : option float) : Activity.t :=
  {| Activity._id := "a1";
     Activity.title := "Wall climbing";
     Activity.venue := "Stadium";
     Activity.address := "1 Arena Road";
     Activity.city := "Pune";
     Activity.thumbnailImage := "";
     Activity.startDate := 1735689600000;
     Activity.endDate := 1767139200000;
     Activity.availableDays := JsDate.weekdayNames;
     Activity.timeSlots := [slot spots];
     Activity.price := 500;
     Activity.discountPercentage := discount;
     Activity.priceAfterDiscount := afterDiscount;
     Activity.maxParticipants := 5;
     Activity.minAge := None;
     Activity.maxAge := None;
     Activity.status := Active;
     Activity.isAvailable := true |}.

Definition db0 (spots : Z) : Db :=
  {| activities := [climbing spots 0 (Some 500%float)]; bookings := [];
     outbox := [] |}.

Definition asha : CustomerDetails :=
  {| name := "Asha"; email := "asha@example.com"; phone := "9876543210";
     address := "12 Hill Road" |}.

Definition request (n : Z) : CreateBookingBody :=
  {| req_activityId := GoodId "a1";
     req_bookingDate := DateAt jan15;
     req_selectedTimeSlot :=
       Some {| sel_startTime := "10:00"; sel_endTime := "11:00" |};
     req_numberOfParticipants := Some n;
     req_customerDetails := Some asha |}.

Definition spotsOf (db : Db) : list Z :=
  concat (map (fun a => map availableSpots (Activity.timeSlots a))
            (activities db)).

Definition gateway (o : OrderOptions) : option GatewayOrder :=
  Some {| gw_id := ("order_" ++ opt_bookingId o)%string;
          gw_amount := opt_amount o; gw_currency := opt_currency o |}.

Definition iv : list byte := List.repeat x2a 16.

(** Five spots; Asha books two of them ... *)
Definition dbBooked : Db :=
  Eval vm_compute in snd (createBooking cfg now "b1" (request 2) (db0 5)).

(** ... opens a payment order ... *)
Definition dbOrdered : Db :=
  Eval vm_compute in snd (createPaymentOrder gateway (GoodId "b1") dbBooked).

Definition payment (signature : string) : VerifyPaymentBody :=
  {| razorpay_order_id := "order_b1"; razorpay_payment_id := "pay_1";
     razorpay_signature := signature; vp_bookingId := GoodId "b1" |}.

Definition goodSignature : string :=
  Eval vm_compute in
    hmacSha256Hex (Externals := externals) "key-secret" "order_b1|pay_1".

(** ... and pays by card, one minute later. *)
Definition dbPaid : Db :=
  Eval vm_compute in
    snd (verifyPayment (X := externals) cfg (now + 60000) iv
           (Some (Some "Card"))
           (payment goodSignature) dbOrdered).

Definition iv2 : list byte := List.repeat x17 16.

(** The gateway's event for an order. *)
Definition gatewayEvent (kind order : string) : WebhookBody :=
  {| event := kind;
     entity := Some {| order_id := Some order; id := Some "pay_1";
                       method := Some "UPI" |} |}.

(** The signature that the gateway puts on an event. *)
Definition signed (body : WebhookBody) : option string :=
  Some (hmacSha256Hex (Externals := externals) "hook-secret"
          (JSON_stringify_body (Externals := externals) body)).

(** A booking of the day of [now] with a given number, made at [t]. *)
Definition numbered (oid number : string) (t : Z) : Booking.t :=
  newBooking oid t number (climbing 5 0 (Some 500%float)) asha jan15
    {| sel_startTime := "10:00"; sel_endTime := "11:00" |} 1 500 500 0 500.

(** A day on which ten thousand bookings were made: the first and the
    last of them. *)
Definition dbBusy : Db :=
  {| activities := [climbing 5 0 (Some 500%float)];
     bookings :=
       [numbered "b1" "BK-250115-0001" (now - 3600000);
        numbered "b10000" "BK-250115-10000" (now - 1000)];
     outbox := [] |}.

(** The activity at a discount of 100 percent, as [save] stores it. *)
Definition freeClimbing : Activity.t :=
  climbing 5 100 (Some (500 - (500 * 100) / 100)%float).

Definition dbFree : Db :=
  {| activities := [freeClimbing]; bookings := []; outbox := [] |}.

End Demo.

(** ** Documents of the example, by stage *)

Module Scenario.

Definition firstBooking (db : Db) : Booking.t :=
  match bookings db with
  | b :: _ => b
  | [] => Demo.numbered "" "" 0
  end.

Definition firstActivity (db : Db) : Activity.t :=
  match activities db with
  | a :: _ => a
  | [] => Demo.climbing 0 0 None
  end.

(** Asha's booking when made, with its payment order, and once paid. *)
Definition booked : Booking.t := Eval vm_compute in firstBooking Demo.dbBooked.

Definition ordered : Booking.t :=
  Eval vm_compute in firstBooking Demo.dbOrdered.

Definition paid : Booking.t := Eval vm_compute in firstBooking Demo.dbPaid.

(** The activity after Asha's booking. *)
Definition activity : Activity.t :=
  Eval vm_compute in firstActivity Demo.dbPaid.

(** The credential issued at payment. *)
Definition token : string :=
  Eval vm_compute in
    match Booking.qrData paid with Some t => t | None => "" end.

Definition resend : ResendBody :=
  {| rs_bookingNumber := "BK-250115-0001"; rs_email := "asha@example.com";
     rs_phone := "9876543210" |}.

Definition captured : WebhookBody :=
  Demo.gatewayEvent "payment.captured" "order_b1".

Definition failed : WebhookBody :=
  Demo.gatewayEvent "payment.failed" "order_b1".

End Scenario.

(** * Properties *)

(** ** The collections *)

Section Collections.

Lemma find_replaceBooking_same (b : Booking.t) (l : list Booking.t) :
  is_Some (find (fun x => String.eqb (Booking._id x) (Booking._id b)) l) ->
  find (fun x => String.eqb (Booking._id x) (Booking._id b))
    (replaceBooking b l) = Some b.
Proof.
  induction l as [|x l IH]; simpl.
  - intros [? H]; discriminate.
  - destruct (String.eqb (Booking._id x) (Booking._id b)) eqn:E.
    + intros _. now rewrite String.eqb_refl.
    + rewrite E. exact IH.
Qed.

Lemma find_replaceBooking_other (b : Booking.t) (id : ObjectId)
    (l : list Booking.t) :
  id <> Booking._id b ->
  find (fun x => String.eqb (Booking._id x) id) (replaceBooking b l)
  = find (fun x => String.eqb (Booking._id x) id) l.
Proof.
  intros Hne. induction l as [|x l IH]; simpl; [reflexivity|].
  destruct (String.eqb (Booking._id x) (Booking._id b)) eqn:E.
  - apply String.eqb_eq in E.
    destruct (String.eqb (Booking._id b) id) eqn:E1.
    + apply String.eqb_eq in E1. congruence.
    + rewrite E, E1. exact IH.
  - destruct (String.eqb (Booking._id x) id); [reflexivity | exact IH].
Qed.

Lemma find_some_id (id : ObjectId) (l : list Booking.t) (b : Booking.t) :
  find (fun x => String.eqb (Booking._id x) id) l = Some b ->
  Booking._id b = id.
Proof.
  intros H. apply find_some in H as [_ H]. now apply String.eqb_eq.
Qed.

(** A booking that was found is found again, updated, after its save. *)
Lemma Booking_save_lookup (b0 b : Booking.t) (db db' : Db) :
  Booking_findById (Booking._id b) db = Some b0 ->
  Booking_save b db = Ok db' ->
  Booking_findById (Booking._id b) db' = Some b
  /\ activities db' = activities db /\ outbox db' = outbox db.
Proof.
  unfold Booking_save, Booking_findById. intros Hf Hs.
  destruct (negb (Schema.bookingValid b)); [discriminate|].
  injection Hs as <-. simpl. split; [|split; reflexivity].
  apply find_replaceBooking_same. rewrite Hf. eauto.
Qed.

Lemma Booking_save_ok (b : Booking.t) (db : Db) :
  Schema.bookingValid b = true ->
  Booking_save b db = Ok (set_bookings (replaceBooking b (bookings db)) db).
Proof. unfold Booking_save. now intros ->. Qed.

Lemma Booking_save_inv (b : Booking.t) (db db' : Db) :
  Booking_save b db = Ok db' ->
  Schema.bookingValid b = true
  /\ db' = set_bookings (replaceBooking b (bookings db)) db.
Proof.
  unfold Booking_save.
  destruct (Schema.bookingValid b); simpl; [|discriminate].
  intros [= <-]. split; reflexivity.
Qed.

End Collections.

(** ** Payment orders *)

(** C10: a payment order is opened only for a booking that is Initiated and
    Pending: a request answered 200 found such a booking and stored the
    gateway's order id on it, and a request for a booking in any other state
    is answered 400 and leaves the database as it was. *)
Theorem createPaymentOrder_only_initiated_pending
    (gateway : OrderOptions -> option GatewayOrder) (bookingId : IdParam)
    (db db' : Db) (r : Response) :
  createPaymentOrder gateway bookingId db = (r, db') ->
  (statusCode r = 200 ->
   exists bid b order,
     bookingId = GoodId bid /\ Booking_findById bid db = Some b
     /\ Booking.bookingStatus b = Initiated
     /\ Booking.paymentStatus b = Pending
     /\ Booking_findById bid db'
        = Some (Booking.set_razorpayOrderId (Some (gw_id order)) b))
  /\ (forall bid b,
        bookingId = GoodId bid -> Booking_findById bid db = Some b ->
        ~ (Booking.bookingStatus b = Initiated
           /\ Booking.paymentStatus b = Pending) ->
        statusCode r = 400 /\ success r = false /\ db' = db).
Proof.
  unfold createPaymentOrder. intros H. split.
  - intros H200.
    destruct bookingId as [| |bid];
      try (injection H as <- <-; discriminate).
    destruct (Booking_findById bid db) as [b|] eqn:Hf;
      [|injection H as <- <-; discriminate].
    destruct (Booking.bookingStatus b) eqn:Hbs;
      try (injection H as <- <-; discriminate).
    destruct (Booking.paymentStatus b) eqn:Hps;
      try (injection H as <- <-; discriminate).
    destruct (gateway _) as [order|];
      [|injection H as <- <-; discriminate].
    destruct (Booking_save _ db) as [db1|] eqn:Hs;
      [|injection H as <- <-; discriminate].
    injection H as <- <-.
    exists bid, b, order. repeat split; trivial.
    pose proof (find_some_id _ _ _ Hf) as Hid.
    assert (Hid' : Booking._id
                     (Booking.set_razorpayOrderId (Some (gw_id order)) b)
                   = bid) by exact Hid.
    rewrite <- Hid' in Hf |- *.
    now destruct (Booking_save_lookup _ _ _ _ Hf Hs).
  - intros bid b -> Hf Hnot. rewrite Hf in H.
    destruct (Booking.bookingStatus b) eqn:Hbs;
      try (injection H as <- <-; repeat split; reflexivity).
    destruct (Booking.paymentStatus b) eqn:Hps;
      try (injection H as <- <-; repeat split; reflexivity).
    exfalso. apply Hnot. split; reflexivity.
Qed.

#[local] Ltac pair_eq H := injection H as <- <-.

(** A witness of C10 on a paid booking: the order is refused and nothing is
    written. *)
Lemma createPaymentOrder_only_initiated_pending_witness :
  let out := createPaymentOrder Demo.gateway (GoodId "b1") Demo.dbPaid in
  statusCode (fst out) = 400 /\ snd out = Demo.dbPaid.
Proof.
  intros out.
  destruct (createPaymentOrder_only_initiated_pending Demo.gateway
              (GoodId "b1") Demo.dbPaid (snd out) (fst out)
              (surjective_pairing out)) as [_ H].
  destruct (Booking_findById "b1" Demo.dbPaid) as [b|] eqn:Hb;
    [|vm_compute in Hb; discriminate].
  destruct (H "b1" b eq_refl Hb) as (H1 & _ & H3).
  - vm_compute in Hb. injection Hb as <-. intros [Hs _]. discriminate Hs.
  - split; assumption.
Defined.

(** ** Payment verification by the client *)

Section Verification.

Context {X : Externals}.
Variable cfg : Config.

(** C7: when the supplied signature is not the HMAC-SHA256 of
    [orderId|paymentId] under the key secret, [verifyPayment] marks the
    payment Failed and answers 400 'Invalid signature'; the booking status
    and every other field of the booking stay as they were, as do the other
    bookings, and no activity (hence no slot capacity) changes. *)
Theorem verifyPayment_invalid_signature (now : Z) (iv : list byte)
    (fetched : option (option string)) (body : VerifyPaymentBody)
    (db : Db) (bid : ObjectId) (booking : Booking.t) (secret : string) :
  Js.truthy (razorpay_order_id body) = true ->
  Js.truthy (razorpay_payment_id body) = true ->
  Js.truthy (razorpay_signature body) = true ->
  vp_bookingId body = GoodId bid ->
  Booking_findById bid db = Some booking ->
  RAZORPAY_KEY_SECRET cfg = Some secret ->
  razorpay_signature body
  <> hmacSha256Hex secret
       (razorpay_order_id body ++ "|" ++ razorpay_payment_id body)%string ->
  Schema.bookingValid booking = true ->
  exists db',
    verifyPayment cfg now iv fetched body db
    = (fail 400 "Payment verification failed. Invalid signature." NoDetail,
       db')
    /\ Booking_findById bid db'
       = Some (Booking.set_paymentStatus Failed booking)
    /\ (forall b', Booking_findById bid db' = Some b' ->
          Booking.paymentStatus b' = Failed
          /\ Booking.bookingStatus b' = Booking.bookingStatus booking)
    /\ (forall other, other <> bid ->
          Booking_findById other db' = Booking_findById other db)
    /\ activities db' = activities db
    /\ outbox db' = outbox db.
Proof.
  intros Ho Hp Hs Hid Hf Hk Hneq Hv.
  unfold verifyPayment. rewrite Ho, Hp, Hs, Hid, Hf, Hk.
  cbv beta iota zeta.
  destruct (String.eqb _ (razorpay_signature body)) eqn:E.
  { apply String.eqb_eq in E. congruence. }
  simpl.
  assert (Hv' : Schema.bookingValid (Booking.set_paymentStatus Failed booking)
                = true) by exact Hv.
  rewrite (Booking_save_ok _ db Hv').
  eexists. split; [reflexivity|].
  pose proof (find_some_id _ _ _ Hf) as Hbid.
  assert (Hl : Booking_findById bid
                 (set_bookings
                    (replaceBooking (Booking.set_paymentStatus Failed booking)
                       (bookings db)) db)
               = Some (Booking.set_paymentStatus Failed booking)).
  { unfold Booking_findById. simpl. rewrite <- Hbid.
    apply (find_replaceBooking_same (Booking.set_paymentStatus Failed booking)).
    simpl. unfold Booking_findById in Hf. rewrite Hbid, Hf. eauto. }
  split; [exact Hl|]. split; [|split; [|split; reflexivity]].
  - intros b' Hb'. rewrite Hl in Hb'. injection Hb' as <-.
    split; reflexivity.
  - intros other Hother. unfold Booking_findById. simpl.
    apply find_replaceBooking_other. simpl. congruence.
Qed.

End Verification.

(** A witness of C7: a forged signature on Asha's order. *)
Lemma verifyPayment_invalid_signature_witness :
  exists db',
    verifyPayment (X := Demo.externals) Demo.cfg Demo.now Demo.iv None
      (Demo.payment "forged") Demo.dbOrdered
    = (fail 400 "Payment verification failed. Invalid signature." NoDetail,
       db')
    /\ Demo.spotsOf db' = [3].
Proof.
  destruct (Booking_findById "b1" Demo.dbOrdered) as [b|] eqn:Hb;
    [|vm_compute in Hb; discriminate].
  destruct (verifyPayment_invalid_signature (X := Demo.externals) Demo.cfg
              Demo.now Demo.iv None
              (Demo.payment "forged") Demo.dbOrdered "b1" b "key-secret")
    as (db' & H1 & _ & _ & _ & H4 & _);
    try reflexivity; try exact Hb.
  - vm_compute. discriminate.
  - vm_compute in Hb. injection Hb as <-. reflexivity.
  - exists db'. split; [exact H1|].
    unfold Demo.spotsOf. rewrite H4. reflexivity.
Defined.

(** ** The entry credential *)

Section HexFacts.

Lemma decode_ofByte (b : byte) (s : string) :
  Hex.decode (Hex.ofByte b ++ s) = b :: Hex.decode s.
Proof. destruct b; reflexivity. Qed.

(** [Buffer.from(buf.toString('hex'), 'hex')] gives the buffer back. *)
Lemma decode_encode (bs : list byte) : Hex.decode (Hex.encode bs) = bs.
Proof.
  induction bs as [|b bs IH]; [reflexivity|].
  change (Hex.encode (b :: bs)) with (Hex.ofByte b ++ Hex.encode bs)%string.
  rewrite decode_ofByte. now rewrite IH.
Qed.

Lemma noColon_app (s t : string) :
  Hex.noColon (s ++ t) = Hex.noColon s && Hex.noColon t.
Proof.
  induction s as [|c s IH]; simpl; [reflexivity|].
  rewrite IH. now rewrite andb_assoc.
Qed.

Lemma noColon_encode (bs : list byte) : Hex.noColon (Hex.encode bs) = true.
Proof.
  induction bs as [|b bs IH]; [reflexivity|].
  change (Hex.encode (b :: bs)) with (Hex.ofByte b ++ Hex.encode bs)%string.
  rewrite noColon_app, IH, andb_true_r.
  destruct b; reflexivity.
Qed.

Lemma split_noColon (s : string) :
  Hex.noColon s = true -> Js.split ":" s = [s].
Proof.
  induction s as [|c s IH]; simpl; [reflexivity|].
  intros H. apply andb_prop in H as [Hc Hs].
  apply negb_true_iff in Hc. rewrite Hc, (IH Hs). reflexivity.
Qed.

(** Splitting [s:t] at the colon gives back [s] and [t] when neither holds
    a colon. *)
Lemma split_join (s t : string) :
  Hex.noColon s = true -> Hex.noColon t = true ->
  Js.split ":" (s ++ ":" ++ t) = [s; t].
Proof.
  intros Hs Ht. change (":" ++ t)%string with (String ":" t).
  induction s as [|c s IH]; simpl.
  - now rewrite (split_noColon t Ht).
  - simpl in Hs. apply andb_prop in Hs as [Hc Hs].
    apply negb_true_iff in Hc. rewrite Hc, (IH Hs). reflexivity.
Qed.

End HexFacts.

Section Credential.

Context {X : Externals}.
Variable cfg : Config.

(** C9: for a 16-byte IV drawn for the issuance, the token that
    [generateQRData] issues is [ivHex:cipherHex] for that IV, and
    [decryptQRData] returns the payload that was encrypted, given that the
    cipher and JSON invert each other on this payload. *)
Theorem credential_round_trip (booking : Booking.t) (act : Activity.t)
    (iv : list byte) (now : Z) :
  let payload := qrPayloadOf booking act now in
  let key := scryptSync (envOr (QR_SECRET cfg) defaultQrSecret) in
  let cipher := aesEncrypt key iv (JSON_stringify payload) in
  length iv = 16%nat ->
  aesDecrypt key iv cipher = Some (JSON_stringify payload) ->
  JSON_parse (JSON_stringify payload) = Some payload ->
  generateQRData cfg booking (Some act) iv now
  = Ok (Hex.encode iv ++ ":" ++ Hex.encode cipher)%string
  /\ decryptQRData cfg (Hex.encode iv ++ ":" ++ Hex.encode cipher)%string
     = Ok payload.
Proof.
  intros payload key cipher Hiv Haes Hjson. split.
  - unfold generateQRData. rewrite Hiv. reflexivity.
  - unfold decryptQRData.
    rewrite (split_join _ _ (noColon_encode iv) (noColon_encode cipher)).
    cbn [nth nth_error]. rewrite !decode_encode, Hiv. cbn [Nat.eqb negb].
    fold key. fold payload in Haes. unfold cipher at 1.
    fold cipher. rewrite Haes, Hjson. reflexivity.
Qed.

(** C4: a scan that checks a booking in (answer 200) stores [checkedIn],
    the check-in time and the status Completed; scanning the same code
    again, at any time and by any operator, changes nothing, and the
    answer is 400 'Booking is not confirmed' with the status Completed:
    the check of the booking status comes before the check of
    [checkedIn]. *)
Theorem scanQR_twice (now now' : Z) (user user' : ObjectId)
    (qrData : string) (db db1 : Db) (r : Response) :
  scanQR cfg now user qrData db = (r, db1) ->
  statusCode r = 200 ->
  (exists payload booking,
     decryptQRData cfg qrData = Ok payload
     /\ Booking_findByIdParam (bookingId payload) db1 = Ok (Some booking)
     /\ Booking.checkedIn booking = true
     /\ Booking.checkInTime booking = Some now
     /\ Booking.checkInBy booking = Some user
     /\ Booking.bookingStatus booking = Completed)
  /\ scanQR cfg now' user' qrData db1
     = (fail 400 "Booking is not confirmed" (CurrentStatus Completed), db1).
Proof.
  unfold scanQR. intros H H200.
  destruct (negb (Js.truthy qrData)); [pair_eq H; discriminate|].
  destruct (decryptQRData cfg qrData) as [payload|];
    [|pair_eq H; discriminate].
  destruct (bookingId payload) as [| |bid] eqn:Hbid;
    cbn [Booking_findByIdParam] in *; try (pair_eq H; discriminate).
  destruct (Booking_findById bid db) as [b|] eqn:Hf;
    [|pair_eq H; discriminate].
  destruct (Booking.bookingStatus b) eqn:Hbs; try (pair_eq H; discriminate).
  destruct (Booking.paymentStatus b) eqn:Hps; try (pair_eq H; discriminate).
  destruct (Booking.checkedIn b) eqn:Hci; [pair_eq H; discriminate|].
  destruct (negb _); [pair_eq H; discriminate|].
  destruct (Booking_save _ db) as [db2|] eqn:Hs; [|pair_eq H; discriminate].
  destruct (Activity_findById _ db); [|pair_eq H; discriminate].
  pair_eq H.
  pose proof (find_some_id _ _ _ Hf) as Hid.
  set (b1 := Booking.set_bookingStatus Completed _) in *.
  assert (Hl : Booking_findById bid db2 = Some b1).
  { change (Booking._id b1) with (Booking._id b) in *.
    assert (Hid1 : Booking._id b1 = bid) by exact Hid.
    rewrite <- Hid1 in Hf |- *.
    now destruct (Booking_save_lookup _ _ _ _ Hf Hs). }
  split.
  - exists payload, b1. rewrite Hbid. cbn [Booking_findByIdParam].
    rewrite Hl. repeat split; trivial.
  - rewrite Hl. reflexivity.
Qed.

End Credential.

(** ** Stored documents *)

Section Stored.

Lemma storedOk_booking (db : Db) (b : Booking.t) :
  storedOk db = true -> In b (bookings db) -> Schema.bookingValid b = true.
Proof.
  unfold storedOk. intros H Hin. apply andb_prop in H as [_ H].
  rewrite forallb_forall in H. now apply H.
Qed.

Lemma storedOk_activity (db : Db) (a : Activity.t) :
  storedOk db = true -> In a (activities db) -> activitySound a = true.
Proof.
  unfold storedOk. intros H Hin. apply andb_prop in H as [H _].
  rewrite forallb_forall in H. now apply H.
Qed.

Lemma Booking_findById_In (id : ObjectId) (db : Db) (b : Booking.t) :
  Booking_findById id db = Some b -> In b (bookings db).
Proof. intros H. now apply find_some in H. Qed.

Lemma Booking_findByOrderId_In (o : option string) (db : Db)
    (b : Booking.t) :
  Booking_findByOrderId o db = Some b -> In b (bookings db).
Proof. intros H. now apply find_some in H. Qed.

Lemma Activity_findById_In (id : ObjectId) (db : Db) (a : Activity.t) :
  Activity_findById id db = Some a -> In a (activities db).
Proof. intros H. now apply find_some in H. Qed.

Lemma bookingValid_method (b b' : Booking.t) (m : string) :
  Schema.bookingValid b = true ->
  Schema.inList m Schema.paymentMethods = true ->
  Schema.amountsCast b' = Schema.amountsCast b ->
  Booking.customerDetails b' = Booking.customerDetails b ->
  Booking.selectedTimeSlot b' = Booking.selectedTimeSlot b ->
  Booking.numberOfParticipants b' = Booking.numberOfParticipants b ->
  Booking.paymentMethod b' = Some m ->
  Schema.bookingValid b' = true.
Proof.
  unfold Schema.bookingValid. intros Hv Hm Ha Hc Hs Hn Hpm.
  rewrite Ha, Hc, Hs, Hn, Hpm, Hm.
  apply andb_prop in Hv as [Hv _]. now rewrite Hv.
Qed.

Lemma bookingValid_participants (b : Booking.t) :
  Schema.bookingValid b = true -> 1 <= Booking.numberOfParticipants b.
Proof.
  unfold Schema.bookingValid. intros H.
  apply andb_prop in H as [H _]. apply andb_prop in H as [_ H]. lia.
Qed.

Lemma forallb_alter {A : Type} (p : A -> bool) (f : A -> A) (i : nat)
    (l : list A) :
  forallb p l = true -> (forall x, p x = true -> p (f x) = true) ->
  forallb p (alter f i l) = true.
Proof.
  intros Hl Hf. revert i. induction l as [|x l IH]; intros i;
    [destruct i; reflexivity|].
  simpl in Hl. apply andb_prop in Hl as [Hx Hl].
  destruct i; simpl.
  - now rewrite (Hf x Hx), Hl.
  - rewrite Hx. now apply IH.
Qed.

Lemma timeSlotValid_addSpots (d : Z) (s : TimeSlot) :
  0 <= d -> Schema.timeSlotValid s = true ->
  Schema.timeSlotValid (addSpots d s) = true.
Proof.
  unfold Schema.timeSlotValid. simpl. intros Hd H.
  apply andb_prop in H as [H1 H2]. rewrite H1. simpl. lia.
Qed.

Lemma activityPreSave_spec (a : Activity.t) :
  Schema.activityPreSave a
  = if hookPasses a then Ok (discounted a) else Throw OtherError.
Proof.
  unfold Schema.activityPreSave, hookPasses, discounted.
  cbn [Activity.endDate Activity.startDate Activity.minAge Activity.maxAge
       Activity.set_priceAfterDiscount].
  destruct (Activity.endDate a <? Activity.startDate a); [reflexivity|].
  now destruct (Schema.zTruthy (Activity.minAge a)
                && Schema.zTruthy (Activity.maxAge a)
                && Schema.optLtb (Activity.maxAge a) (Activity.minAge a)).
Qed.

Lemma activitySound_spec (a : Activity.t) :
  activitySound a
  = Schema.activityFieldsValid a
    && forallb Schema.timeSlotValid (Activity.timeSlots a)
    && hookPasses a.
Proof.
  unfold activitySound, Schema.activityValid.
  rewrite activityPreSave_spec. now destruct (hookPasses a).
Qed.

(** The hook changes [priceAfterDiscount] at most. *)
Lemma discounted_id (a : Activity.t) :
  Activity._id (discounted a) = Activity._id a.
Proof. reflexivity. Qed.

Lemma discounted_timeSlots (a : Activity.t) :
  Activity.timeSlots (discounted a) = Activity.timeSlots a.
Proof. reflexivity. Qed.

Lemma discounted_price (a : Activity.t) :
  Activity.price (discounted a) = Activity.price a.
Proof. reflexivity. Qed.

Lemma discounted_fieldsValid (a : Activity.t) :
  Schema.activityFieldsValid (discounted a) = Schema.activityFieldsValid a.
Proof. reflexivity. Qed.

Lemma discounted_hookPasses (a : Activity.t) :
  hookPasses (discounted a) = hookPasses a.
Proof. reflexivity. Qed.

Lemma discounted_sound (a : Activity.t) :
  activitySound (discounted a) = activitySound a.
Proof.
  rewrite !activitySound_spec.
  now rewrite discounted_fieldsValid, discounted_timeSlots,
    discounted_hookPasses.
Qed.

(** Changing the time slots of a sound activity to valid ones keeps it
    sound, and [save] then stores it with the discounted price
    recomputed. *)
Lemma Activity_save_slots (a : Activity.t) (slots : list TimeSlot)
    (db : Db) :
  activitySound a = true ->
  forallb Schema.timeSlotValid slots = true ->
  exists a',
    Activity_save (Activity.set_timeSlots slots a) db
    = Ok (a', set_activities (replaceActivity a' (activities db)) db)
    /\ Activity.timeSlots a' = slots
    /\ Activity._id a' = Activity._id a
    /\ activitySound a' = true.
Proof.
  rewrite activitySound_spec. intros Ha Hs.
  apply andb_prop in Ha as [Ha Hh]. apply andb_prop in Ha as [Hf _].
  exists (discounted (Activity.set_timeSlots slots a)).
  assert (Hf' : Schema.activityFieldsValid (Activity.set_timeSlots slots a)
                = true) by exact Hf.
  assert (Hh' : hookPasses (Activity.set_timeSlots slots a) = true)
    by exact Hh.
  unfold Activity_save, Schema.activityValid.
  rewrite Hf'. cbn [Activity.timeSlots Activity.set_timeSlots].
  rewrite Hs, activityPreSave_spec, Hh'. cbn [negb andb].
  split; [reflexivity|]. split; [now rewrite discounted_timeSlots|].
  split; [now rewrite discounted_id|].
  rewrite discounted_sound, activitySound_spec.
  cbn [Activity.timeSlots Activity.set_timeSlots].
  now rewrite Hf', Hs, Hh'.
Qed.

(** A release succeeds against a well-formed database. *)
Lemma restoreSpots_ok (b : Booking.t) (db : Db) :
  storedOk db = true -> 0 <= Booking.numberOfParticipants b ->
  exists db', restoreSpots b db = Ok db' /\ bookings db' = bookings db
              /\ outbox db' = outbox db.
Proof.
  intros Hok Hn. unfold restoreSpots.
  destruct (Activity_findById _ db) as [a|] eqn:Ha; [|eauto].
  destruct (findIndex _ _) as [i|]; [|eauto].
  pose proof (storedOk_activity _ _ Hok (Activity_findById_In _ _ _ Ha))
    as Hsound.
  destruct (Activity_save_slots a
              (alter (addSpots (Booking.numberOfParticipants b)) i
                 (Activity.timeSlots a)) db Hsound) as (a' & -> & _).
  - apply forallb_alter.
    + unfold activitySound, Schema.activityValid in Hsound.
      apply andb_prop in Hsound as [Hv _].
      now apply andb_prop in Hv as [_ Hv].
    + intros x. now apply timeSlotValid_addSpots.
  - eexists. repeat split.
Qed.

End Stored.

(** ** The payment webhook *)

Section Webhook.

Context {X : Externals}.
Variable cfg : Config.

(** The webhook's idempotency guard: a captured payment for a booking that
    is already Completed is answered 200 and nothing at all is written or
    sent. *)
Lemma paymentWebhook_already_processed (now : Z) (iv : list byte)
    (body : WebhookBody) (db : Db) (secret : string)
    (payload : PaymentEntity) (booking : Booking.t) :
  RAZORPAY_WEBHOOK_SECRET cfg = Some secret ->
  Js.truthy secret = true ->
  entity body = Some payload ->
  event body = "payment.captured" ->
  Booking_findByOrderId (order_id payload) db = Some booking ->
  Booking.paymentStatus booking = PaymentCompleted ->
  paymentWebhook cfg now iv
    (Some (hmacSha256Hex secret (JSON_stringify_body body))) body db
  = (ok 200 "Payment already processed" NoDetail, db).
Proof.
  intros Hs Ht He Hev Hf Hp. unfold paymentWebhook.
  rewrite Hs, Ht. cbn [negb optStringEqb]. rewrite String.eqb_refl.
  cbn [negb]. rewrite He, Hev. cbn [String.eqb Ascii.eqb Bool.eqb].
  now rewrite Hf, Hp.
Qed.

(** C5, as the code has it: for a webhook whose signature verifies and
    that carries a payment entity, against a database of valid documents
    (and, for a captured payment that is not yet processed, a payment
    method that the schema stores), the status is 200, also for an event
    that was already processed, which changes nothing; the one exception is
    a captured payment whose order id matches no booking, answered 404. *)
Theorem paymentWebhook_authentic_status (now : Z) (iv : list byte)
    (body : WebhookBody) (db db' : Db) (r : Response) (secret : string)
    (payload : PaymentEntity) :
  RAZORPAY_WEBHOOK_SECRET cfg = Some secret ->
  Js.truthy secret = true ->
  entity body = Some payload ->
  storedOk db = true ->
  (forall booking,
     event body = "payment.captured" ->
     Booking_findByOrderId (order_id payload) db = Some booking ->
     Booking.paymentStatus booking <> PaymentCompleted ->
     methodAccepted payload = true) ->
  paymentWebhook cfg now iv
    (Some (hmacSha256Hex secret (JSON_stringify_body body))) body db
  = (r, db') ->
  (if String.eqb (event body) "payment.captured" then
     match Booking_findByOrderId (order_id payload) db with
     | None => r = fail 404 "Booking not found" NoDetail /\ db' = db
     | Some booking =>
         statusCode r = 200
         /\ (Booking.paymentStatus booking = PaymentCompleted -> db' = db)
     end
   else statusCode r = 200).
Proof.
  intros Hs Ht He Hok Hm. unfold paymentWebhook.
  rewrite Hs, Ht. cbn [negb optStringEqb]. rewrite String.eqb_refl.
  cbn [negb]. rewrite He.
  destruct (String.eqb (event body) "payment.captured") eqn:Hev.
  - apply String.eqb_eq in Hev.
    destruct (Booking_findByOrderId (order_id payload) db) as [b|] eqn:Hf;
      [|intros H; pair_eq H; split; reflexivity].
    pose proof (storedOk_booking _ _ Hok (Booking_findByOrderId_In _ _ _ Hf))
      as Hv.
    specialize (Hm b Hev eq_refl). unfold methodAccepted in Hm.
    destruct (Booking.paymentStatus b) eqn:Hp;
      try (intros H; pair_eq H; split; [reflexivity | trivial; discriminate]);
      (specialize (Hm ltac:(discriminate));
       destruct (method payload) as [m|] eqn:Hmeth; [|discriminate];
       assert (Htr : Js.truthy m = true)
         by (destruct m; [discriminate Hm | reflexivity]);
       rewrite Htr;
       rewrite Booking_save_ok;
       [ destruct (generateAndSendQR _ _ _ _ _) as [b2 db2];
         intros H; pair_eq H; split; [reflexivity | discriminate]
       | apply (bookingValid_method b _ m Hv Hm); reflexivity ]).
  - destruct (String.eqb (event body) "payment.failed");
      [|intros H; pair_eq H; reflexivity].
    destruct (Booking_findByOrderId (order_id payload) db) as [b|] eqn:Hf;
      [|intros H; pair_eq H; reflexivity].
    pose proof (storedOk_booking _ _ Hok (Booking_findByOrderId_In _ _ _ Hf))
      as Hv.
    destruct (Booking.paymentStatus b) eqn:Hp;
      try (intros H; pair_eq H; reflexivity).
    rewrite Booking_save_ok by exact Hv.
    set (db1 := set_bookings _ db).
    destruct (restoreSpots_ok (Booking.set_paymentStatus Failed b) db1)
      as (db2 & -> & _).
    + unfold storedOk in *. apply andb_prop in Hok as [Ha Hb].
      subst db1. cbn [activities bookings set_bookings]. rewrite Ha.
      cbn [andb]. unfold replaceBooking. rewrite forallb_forall in *.
      intros x Hx. apply in_map_iff in Hx as (y & <- & Hy).
      destruct (String.eqb (Booking._id y) _); [exact Hv | now apply Hb].
    + pose proof (bookingValid_participants _ Hv).
      cbn [Booking.numberOfParticipants Booking.set_paymentStatus]. lia.
    + intros H; pair_eq H; reflexivity.
Qed.

End Webhook.

(** A run against C5: the gateway's signed event for an order id that no
    booking carries is answered 404. *)
Lemma paymentWebhook_unknown_order_404 :
  let body := Demo.gatewayEvent "payment.captured" "order_unknown" in
  paymentWebhook (X := Demo.externals) Demo.cfg Demo.now Demo.iv
    (Demo.signed body) body Demo.dbOrdered
  = (fail 404 "Booking not found" NoDetail, Demo.dbOrdered).
Proof. vm_compute. reflexivity. Qed.

(** A witness of C5: the event of a payment that was already processed. *)
Lemma paymentWebhook_authentic_status_witness :
  let body := Demo.gatewayEvent "payment.captured" "order_b1" in
  let out :=
    paymentWebhook (X := Demo.externals) Demo.cfg Demo.now Demo.iv
      (Demo.signed body) body Demo.dbPaid in
  statusCode (fst out) = 200 /\ snd out = Demo.dbPaid.
Proof.
  intros body out.
  pose proof (paymentWebhook_authentic_status (X := Demo.externals) Demo.cfg
                Demo.now Demo.iv body Demo.dbPaid (snd out) (fst out)
                "hook-secret"
                {| order_id := Some "order_b1"; id := Some "pay_1";
                   method := Some "UPI" |}
                eq_refl eq_refl eq_refl eq_refl (fun _ _ _ _ => eq_refl)
                (surjective_pairing out)) as H.
  change (String.eqb (event body) "payment.captured") with true in H.
  cbv iota in H.
  destruct (Booking_findByOrderId (Some "order_b1") Demo.dbPaid) as [b|] eqn:Hb;
    [|vm_compute in Hb; discriminate].
  destruct H as [H1 H2]. split; [exact H1|]. apply H2.
  vm_compute in Hb. injection Hb as <-. reflexivity.
Defined.

(** C3 at a failing input: the booking of [Demo.dbPaid] is Completed, paid
    at minute 1 by card, with a credential that was sent once; a second
    client confirmation of the same payment at minute 5 is answered 200 and
    writes a new payment time and method, issues another credential and
    sends the two notifications again. *)
Theorem verifyPayment_reapplies_confirmation :
  let out :=
    verifyPayment (X := Demo.externals) Demo.cfg (Demo.now + 300000) Demo.iv2
      (Some (Some "UPI")) (Demo.payment Demo.goodSignature) Demo.dbPaid in
  map Booking.paymentStatus (bookings Demo.dbPaid) = [PaymentCompleted]
  /\ map Booking.paidAt (bookings Demo.dbPaid) = [Some (Demo.now + 60000)]
  /\ map Booking.paymentMethod (bookings Demo.dbPaid) = [Some "Card"]
  /\ length (outbox Demo.dbPaid) = 2%nat
  /\ statusCode (fst out) = 200
  /\ map Booking.paidAt (bookings (snd out)) = [Some (Demo.now + 300000)]
  /\ map Booking.paymentMethod (bookings (snd out)) = [Some "UPI"]
  /\ map Booking.qrData (bookings (snd out))
     <> map Booking.qrData (bookings Demo.dbPaid)
  /\ length (outbox (snd out)) = 4%nat.
Proof. vm_compute. repeat split; discriminate. Qed.

(** C6 at a failing input: on a day whose last booking carries the widened
    number BK-250115-10000, the next number is BK-250115-0001 again, the
    number of the day's first booking; the creation then fails on the unique
    index, after the capacity was taken. *)
Theorem bookingNumber_wraps_after_10000 :
  bookingNumberOf Demo.cfg Demo.now
    (nextSequence
       (Some (Demo.numbered "b9999" "BK-250115-9999" (Demo.now - 2000))))
  = "BK-250115-10000"
  /\ nextSequence
       (Some (Demo.numbered "b10000" "BK-250115-10000" (Demo.now - 1000)))
     = 1
  /\ generateBookingNumber Demo.cfg Demo.now Demo.dbBusy = "BK-250115-0001"
  /\ map Booking.bookingNumber (bookings Demo.dbBusy)
     = [Some "BK-250115-0001"; Some "BK-250115-10000"]
  /\ (let out :=
        createBooking Demo.cfg Demo.now "b10001" (Demo.request 1) Demo.dbBusy in
      fst out = fail 500 "Error creating booking" ErrorDetail
      /\ Demo.spotsOf Demo.dbBusy = [5] /\ Demo.spotsOf (snd out) = [4]
      /\ bookings (snd out) = bookings Demo.dbBusy).
Proof. vm_compute. repeat split; reflexivity. Qed.

(** C8 at a failing input: an activity of price 500 at a discount of 100
    percent is stored with a discounted price of 0; a booking for two is
    priced at 500 per person, 1000 in total, with a discount of 0. *)
Theorem createBooking_ignores_zero_discounted_price :
  Schema.activityPreSave (Demo.climbing 5 100 None) = Ok Demo.freeClimbing
  /\ (exists d, Activity.priceAfterDiscount Demo.freeClimbing = Some d
                /\ d = 0%float)
  /\ (let out :=
        createBooking Demo.cfg Demo.now "b1" (Demo.request 2) Demo.dbFree in
      statusCode (fst out) = 201
      /\ map Booking.pricePerPerson (bookings (snd out)) = [500%float]
      /\ map Booking.totalAmount (bookings (snd out)) = [1000%float]
      /\ map Booking.discountAmount (bookings (snd out)) = [0%float]
      /\ map Booking.finalAmount (bookings (snd out)) = [1000%float]).
Proof.
  split; [reflexivity|]. split.
  - eexists. split; [reflexivity|]. reflexivity.
  - vm_compute. repeat split; reflexivity.
Qed.

(** ** Capacity *)

Section Capacity.

Lemma find_findIndex {A : Type} (p : A -> bool) (l : list A) (x : A) :
  find p l = Some x ->
  exists i, findIndex p l = Some i /\ l !! i = Some x.
Proof.
  induction l as [|y l IH]; simpl; [discriminate|].
  destruct (p y).
  - intros [= ->]. exists O. split; reflexivity.
  - intros H. destruct (IH H) as (i & -> & Hi).
    exists (S i). split; [reflexivity | exact Hi].
Qed.

Lemma find_replaceActivity_same (a : Activity.t) (l : list Activity.t) :
  is_Some (find (fun x => String.eqb (Activity._id x) (Activity._id a)) l) ->
  find (fun x => String.eqb (Activity._id x) (Activity._id a))
    (replaceActivity a l) = Some a.
Proof.
  induction l as [|x l IH]; simpl.
  - intros [? H]; discriminate.
  - destruct (String.eqb (Activity._id x) (Activity._id a)) eqn:E.
    + intros _. now rewrite String.eqb_refl.
    + rewrite E. exact IH.
Qed.

Lemma Activity_find_id (id : ObjectId) (db : Db) (a : Activity.t) :
  Activity_findById id db = Some a -> Activity._id a = id.
Proof.
  intros H. apply find_some in H as [_ H]. now apply String.eqb_eq.
Qed.

Lemma Activity_save_inv (a a' : Activity.t) (db db' : Db) :
  Activity_save a db = Ok (a', db') ->
  Schema.activityValid a = true
  /\ a' = discounted a
  /\ db' = set_activities (replaceActivity a' (activities db)) db.
Proof.
  unfold Activity_save. rewrite activityPreSave_spec.
  destruct (Schema.activityValid a); [|discriminate].
  destruct (hookPasses a); [|discriminate].
  cbn [negb]. intros [= <- <-]. repeat split.
Qed.

(** [save] writes no slot below 1: the schema rejects it. *)
Lemma Activity_save_nonneg (a a' : Activity.t) (db db' : Db) :
  Activity_save a db = Ok (a', db') -> spotsNonneg db -> spotsNonneg db'.
Proof.
  intros H Hinv. apply Activity_save_inv in H as (Hv & -> & ->).
  intros x s Hx Hs. cbn [activities set_activities] in Hx.
  unfold replaceActivity in Hx. apply in_map_iff in Hx as (y & Hy & Hin).
  destruct (String.eqb (Activity._id y) _).
  - subst x. rewrite discounted_timeSlots in Hs.
    unfold Schema.activityValid in Hv. apply andb_prop in Hv as [_ Hv].
    rewrite forallb_forall in Hv. specialize (Hv s Hs).
    unfold Schema.timeSlotValid in Hv. apply andb_prop in Hv as [_ Hv]. lia.
  - subst x. now apply (Hinv y).
Qed.

Lemma spotsNonneg_same (db db' : Db) :
  activities db' = activities db -> spotsNonneg db -> spotsNonneg db'.
Proof. unfold spotsNonneg. intros ->. trivial. Qed.

Lemma Booking_save_activities (b : Booking.t) (db db' : Db) :
  Booking_save b db = Ok db' -> activities db' = activities db.
Proof. intros H. now apply Booking_save_inv in H as [_ ->]. Qed.

Lemma Booking_create_inv (b : Booking.t) (db db' : Db) :
  Booking_create b db = Ok db' ->
  db' = set_bookings (bookings db ++ [b]) db.
Proof.
  unfold Booking_create.
  destruct (negb (Schema.bookingValid b)); [discriminate|].
  destruct (duplicateKey b db); [discriminate|]. now intros [= <-].
Qed.

Lemma restoreSpots_nonneg (b : Booking.t) (db db' : Db) :
  restoreSpots b db = Ok db' -> spotsNonneg db -> spotsNonneg db'.
Proof.
  unfold restoreSpots.
  destruct (Activity_findById _ db) as [a|]; [|now intros [= <-]].
  destruct (findIndex _ _) as [i|]; [|now intros [= <-]].
  destruct (Activity_save _ db) as [[a' db1]|] eqn:Hs; [|discriminate].
  intros [= <-]. now apply (Activity_save_nonneg _ _ _ _ Hs).
Qed.

(** A release adds the booking's participants to the first slot with the
    booking's times, whatever the slot holds: nothing bounds the sum. *)
Lemma restoreSpots_adds (b : Booking.t) (db db' : Db) (a : Activity.t)
    (i : nat) (slot : TimeSlot) :
  restoreSpots b db = Ok db' ->
  Activity_findById (Booking.activity b) db = Some a ->
  findIndex
    (slotMatches (sel_startTime (Booking.selectedTimeSlot b))
       (sel_endTime (Booking.selectedTimeSlot b))) (Activity.timeSlots a)
  = Some i ->
  Activity.timeSlots a !! i = Some slot ->
  exists a',
    Activity_findById (Booking.activity b) db' = Some a'
    /\ Activity.timeSlots a' !! i
       = Some (addSpots (Booking.numberOfParticipants b) slot)
    /\ forall j, j <> i ->
         Activity.timeSlots a' !! j = Activity.timeSlots a !! j.
Proof.
  unfold restoreSpots. intros H Ha Hi Hslot. rewrite Ha, Hi in H.
  destruct (Activity_save _ db) as [[a' db1]|] eqn:Hs; [|discriminate].
  injection H as <-.
  apply Activity_save_inv in Hs as (_ & -> & ->).
  eexists. split; [|split].
  - unfold Activity_findById. cbn [activities set_activities].
    pose proof (Activity_find_id _ _ _ Ha) as Hid.
    rewrite <- Hid.
    apply (find_replaceActivity_same
             (discounted
                (Activity.set_timeSlots
                   (alter (addSpots (Booking.numberOfParticipants b)) i
                      (Activity.timeSlots a)) a))).
    cbn. unfold Activity_findById in Ha. rewrite <- Hid in Ha.
    rewrite Ha. eauto.
  - cbn. rewrite list_lookup_alter_eq. now rewrite Hslot.
  - intros j Hj. cbn. now rewrite list_lookup_alter_ne by congruence.
Qed.

End Capacity.

Section CapacityInvariant.

Context {X : Externals}.
Variable cfg : Config.

Lemma generateAndSendQR_activities (b : Booking.t) (iv : list byte)
    (now : Z) (db : Db) :
  activities (snd (generateAndSendQR cfg b iv now db)) = activities db.
Proof.
  unfold generateAndSendQR.
  destruct (generateQRData _ _ _ _ _); [|reflexivity].
  destruct (QRCode_toDataURL _); [|reflexivity].
  destruct (Booking_save _ db) as [db1|] eqn:Hs; [|reflexivity].
  cbn. now apply Booking_save_activities in Hs.
Qed.

Lemma createBooking_nonneg (now : Z) (newId : ObjectId)
    (body : CreateBookingBody) (db : Db) :
  spotsNonneg db -> spotsNonneg (snd (createBooking cfg now newId body db)).
Proof.
  intros Hinv. unfold createBooking.
  destruct (checkRequest cfg now body db) as [r|ck]; [exact Hinv|].
  destruct (_ <? _); [exact Hinv|].
  destruct (_ <? _); [exact Hinv|].
  unfold reserveAndCreate.
  destruct (findIndex _ _) as [i|]; [|exact Hinv].
  destruct (Activity_save _ db) as [[a2 db1]|] eqn:Hs; [|exact Hinv].
  pose proof (Activity_save_nonneg _ _ _ _ Hs Hinv) as Hinv1.
  destruct (ck_requestedDate ck); [|exact Hinv1].
  destruct (Booking_create _ db1) as [db2|] eqn:Hc; [|exact Hinv1].
  apply Booking_create_inv in Hc as ->. exact Hinv1.
Qed.

Lemma paymentWebhook_nonneg (now : Z) (iv : list byte)
    (signature : option string) (body : WebhookBody) (db : Db) :
  spotsNonneg db ->
  spotsNonneg (snd (paymentWebhook cfg now iv signature body db)).
Proof.
  intros Hinv. unfold paymentWebhook.
  destruct (RAZORPAY_WEBHOOK_SECRET cfg) as [secret|]; [|exact Hinv].
  destruct (negb (Js.truthy secret)); [exact Hinv|].
  destruct (negb (optStringEqb _ _)); [exact Hinv|].
  destruct (entity body) as [payload|]; [|exact Hinv].
  destruct (String.eqb (event body) "payment.captured").
  - destruct (Booking_findByOrderId _ db) as [b|]; [|exact Hinv].
    destruct (Booking.paymentStatus b); try exact Hinv;
      (destruct (Booking_save _ db) as [db1|] eqn:Hs; [|exact Hinv];
       match goal with
       | |- context [generateAndSendQR cfg ?b ?iv ?now db1] =>
           pose proof (generateAndSendQR_activities b iv now db1) as Hg;
           destruct (generateAndSendQR cfg b iv now db1) as [b2 db2]
       end;
       cbn in Hg |- *; apply Booking_save_activities in Hs;
       apply (spotsNonneg_same db); [congruence | exact Hinv]).
  - destruct (String.eqb (event body) "payment.failed"); [|exact Hinv].
    destruct (Booking_findByOrderId _ db) as [b|]; [|exact Hinv].
    destruct (Booking.paymentStatus b); try exact Hinv.
    destruct (Booking_save _ db) as [db1|] eqn:Hs; [|exact Hinv].
    apply Booking_save_activities in Hs.
    pose proof (spotsNonneg_same db db1 Hs Hinv) as Hinv1.
    destruct (restoreSpots _ db1) as [db2|] eqn:Hr; [|exact Hinv1].
    exact (restoreSpots_nonneg _ _ _ Hr Hinv1).
Qed.

Lemma cancelBooking_nonneg (now : Z) (user : ObjectId) (idParam : IdParam)
    (reason : string) (db : Db) :
  spotsNonneg db ->
  spotsNonneg (snd (cancelBooking now user idParam reason db)).
Proof.
  intros Hinv. unfold cancelBooking.
  destruct idParam as [| |bid]; try exact Hinv.
  destruct (Booking_findById bid db) as [b|]; [|exact Hinv].
  destruct (Booking.paymentStatus b); try exact Hinv;
    (destruct (restoreSpots b db) as [db1|] eqn:Hr; [|exact Hinv];
     pose proof (restoreSpots_nonneg _ _ _ Hr Hinv) as Hinv1;
     destruct (Booking_save _ db1) as [db2|] eqn:Hs; [|exact Hinv1];
     apply Booking_save_activities in Hs;
     exact (spotsNonneg_same db1 db2 Hs Hinv1)).
Qed.

(** X25: no operation that changes capacity (booking creation, the webhook
    with its release on a failed payment, the admin's cancellation) takes
    a slot below 0, and a release adds exactly the booking's participants
    to the slot with the booking's times, other slots untouched. *)
Theorem capacity_never_negative (now : Z) (newId user : ObjectId)
    (iv : list byte) (request : CreateBookingBody)
    (signature : option string) (hook : WebhookBody) (idParam : IdParam)
    (reason : string) (db : Db) :
  spotsNonneg db ->
  spotsNonneg (snd (createBooking cfg now newId request db))
  /\ spotsNonneg (snd (paymentWebhook cfg now iv signature hook db))
  /\ spotsNonneg (snd (cancelBooking now user idParam reason db))
  /\ (forall booking db' a i slot,
        restoreSpots booking db = Ok db' ->
        Activity_findById (Booking.activity booking) db = Some a ->
        findIndex
          (slotMatches (sel_startTime (Booking.selectedTimeSlot booking))
             (sel_endTime (Booking.selectedTimeSlot booking)))
          (Activity.timeSlots a) = Some i ->
        Activity.timeSlots a !! i = Some slot ->
        exists a',
          Activity_findById (Booking.activity booking) db' = Some a'
          /\ Activity.timeSlots a' !! i
             = Some {| startTime := startTime slot;
                       endTime := endTime slot;
                       availableSpots :=
                         availableSpots slot
                         + Booking.numberOfParticipants booking |}
          /\ forall j, j <> i ->
               Activity.timeSlots a' !! j = Activity.timeSlots a !! j).
Proof.
  intros Hinv. split; [|split; [|split]].
  - now apply createBooking_nonneg.
  - now apply paymentWebhook_nonneg.
  - now apply cancelBooking_nonneg.
  - intros booking db' a i slot Hr Ha Hi Hs.
    exact (restoreSpots_adds _ _ _ _ _ _ Hr Ha Hi Hs).
Qed.

End CapacityInvariant.

(** C2 at a failing input: two of five spots are booked; the gateway
    reports the payment failed, and the webhook, which releases only while
    the payment is Pending, gives the two spots back; the admin then
    cancels the booking, and [cancelBooking], which looks at no status but
    Completed, gives them back again: the slot holds 7 of its 5 spots. *)
Theorem double_release_exceeds_total :
  let failed := Demo.gatewayEvent "payment.failed" "order_b1" in
  let db1 :=
    snd (paymentWebhook (X := Demo.externals) Demo.cfg Demo.now Demo.iv
           (Demo.signed failed) failed Demo.dbOrdered) in
  let cancelled := cancelBooking Demo.now "admin" (GoodId "b1") "" db1 in
  Demo.spotsOf (Demo.db0 5) = [5]
  /\ Demo.spotsOf Demo.dbOrdered = [3]
  /\ Demo.spotsOf db1 = [5]
  /\ statusCode (fst cancelled) = 200
  /\ Demo.spotsOf (snd cancelled) = [7].
Proof. vm_compute. repeat split; reflexivity. Qed.

(** A witness of X25 on the database with Asha's open order. *)
Lemma capacity_never_negative_witness :
  spotsNonneg Demo.dbOrdered
  /\ spotsNonneg
       (snd (cancelBooking Demo.now "admin" (GoodId "b1") "" Demo.dbOrdered)).
Proof.
  assert (H : spotsNonneg Demo.dbOrdered).
  { intros a s [<-|[]] [<-|[]]. vm_compute. discriminate. }
  split; [exact H|].
  destruct (capacity_never_negative (X := Demo.externals) Demo.cfg Demo.now
              "b2" "admin" Demo.iv (Demo.request 1) None
              (Demo.gatewayEvent "payment.failed" "order_b1") (GoodId "b1")
              "" Demo.dbOrdered H) as (_ & _ & H3 & _).
  exact H3.
Defined.

(** A witness of C9: the credential of Asha's booking. *)
Lemma credential_round_trip_witness :
  exists booking act payload,
    Booking_findById "b1" Demo.dbPaid = Some booking
    /\ Activity_findById "a1" Demo.dbPaid = Some act
    /\ generateQRData (X := Demo.externals) Demo.cfg booking (Some act)
         Demo.iv Demo.now
       = Ok (Hex.encode Demo.iv ++ ":"
             ++ Hex.encode
                  (aesEncrypt (Externals := Demo.externals)
                     (scryptSync (Externals := Demo.externals)
                        defaultQrSecret) Demo.iv
                     (JSON_stringify (Externals := Demo.externals) payload)))%string
    /\ decryptQRData (X := Demo.externals) Demo.cfg
         (Hex.encode Demo.iv ++ ":"
          ++ Hex.encode
               (aesEncrypt (Externals := Demo.externals)
                  (scryptSync (Externals := Demo.externals) defaultQrSecret)
                  Demo.iv
                  (JSON_stringify (Externals := Demo.externals) payload)))%string
       = Ok payload.
Proof.
  destruct (Booking_findById "b1" Demo.dbPaid) as [b|] eqn:Hb;
    [|vm_compute in Hb; discriminate].
  destruct (Activity_findById "a1" Demo.dbPaid) as [a|] eqn:Ha;
    [|vm_compute in Ha; discriminate].
  exists b, a, (qrPayloadOf b a Demo.now).
  split; [reflexivity|]. split; [reflexivity|].
  apply (credential_round_trip (X := Demo.externals) Demo.cfg b a Demo.iv
           Demo.now).
  - reflexivity.
  - vm_compute in Hb, Ha. injection Hb as <-. injection Ha as <-.
    vm_compute. reflexivity.
  - vm_compute in Hb, Ha. injection Hb as <-. injection Ha as <-.
    vm_compute. reflexivity.
Defined.

(** A witness of C4: Asha's code is scanned at the gate, twice. *)
Lemma scanQR_twice_witness :
  exists token,
    map Booking.qrData (bookings Demo.dbPaid) = [Some token]
    /\ (let first :=
          scanQR (X := Demo.externals) Demo.cfg (Demo.now + 120000) "staff1"
            token Demo.dbPaid in
        statusCode (fst first) = 200
        /\ scanQR (X := Demo.externals) Demo.cfg (Demo.now + 180000) "staff2"
             token (snd first)
           = (fail 400 "Booking is not confirmed" (CurrentStatus Completed),
              snd first)).
Proof.
  eexists. split; [vm_compute; reflexivity|].
  intros first.
  assert (H200 : statusCode (fst first) = 200) by (vm_compute; reflexivity).
  split; [exact H200|].
  exact (proj2 (scanQR_twice (X := Demo.externals) Demo.cfg
                  (Demo.now + 120000) (Demo.now + 180000) "staff1" "staff2" _
                  Demo.dbPaid (snd first) (fst first)
                  (surjective_pairing first) H200)).
Defined.

(** ** Reservation *)

Section Reservation.

Variable cfg : Config.

(** What a request that passed steps 1 to 7 is known to satisfy. *)
Lemma checkRequest_inr (now : Z) (body : CreateBookingBody) (db : Db)
    (ck : Checked) :
  checkRequest cfg now body db = inr ck ->
  Activity_findById (Activity._id (ck_activity ck)) db
  = Some (ck_activity ck)
  /\ find (slotMatches (sel_startTime (ck_selected ck))
             (sel_endTime (ck_selected ck)))
       (Activity.timeSlots (ck_activity ck))
     = Some (ck_timeSlot ck)
  /\ req_numberOfParticipants body = Some (ck_participants ck)
  /\ req_selectedTimeSlot body = Some (ck_selected ck)
  /\ req_customerDetails body = Some (ck_customer ck)
  /\ ck_requestedDate ck = newDate (req_bookingDate body).
Proof.
  unfold checkRequest.
  repeat match goal with
         | |- (if ?c then _ else _) = _ -> _ =>
             destruct c eqn:?; try discriminate
         | |- match ?x with _ => _ end = _ -> _ =>
             destruct x eqn:?; try discriminate
         end.
  all: intros [= <-]; cbn.
  all: match goal with
       | H : Activity_findById _ _ = Some _ |- _ =>
           rewrite (Activity_find_id _ _ _ H)
       end.
  all: repeat split; assumption.
Qed.

(** C1, as the code has it.  For a request that passed the checks up to
    the slot lookup: with fewer spots than participants the answer is 400
    'Not enough spots available' with the remaining count, and nothing is
    written; with more participants than the activity allows per booking
    the answer is 400 as well, and nothing is written; otherwise, when at
    least one spot is left over, the slot is decreased by exactly the
    participant count, other slots untouched, and the booking is created,
    provided the activity as stored passes its schema and the checks of
    its pre-save hook, the booking date is a date, the new document passes
    the booking schema and its number and id are not taken. *)
Theorem createBooking_reserves_capacity (now : Z) (newId : ObjectId)
    (body : CreateBookingBody) (db : Db) (ck : Checked) (date : Z) :
  checkRequest cfg now body db = inr ck ->
  let activity := ck_activity ck in
  let slot := ck_timeSlot ck in
  let n := ck_participants ck in
  let pricePerPerson := pricePerPersonOf activity in
  let booking :=
    newBooking newId now (generateBookingNumber cfg now db) activity
      (ck_customer ck) date (ck_selected ck) n pricePerPerson
      (pricePerPerson * JsNum.ofZ n)%float
      ((Activity.price activity - pricePerPerson) * JsNum.ofZ n)%float
      (pricePerPerson * JsNum.ofZ n)%float in
  (availableSpots slot < n ->
   createBooking cfg now newId body db
   = (fail 400 "Not enough spots available"
        (Capacity n (availableSpots slot)), db))
  /\ (n <= availableSpots slot -> Activity.maxParticipants activity < n ->
      createBooking cfg now newId body db
      = (fail 400
           ("Maximum " ++ Js.ofInt (Activity.maxParticipants activity)
            ++ " participants allowed") NoDetail, db))
  /\ (n <= Activity.maxParticipants activity ->
      1 <= availableSpots slot - n ->
      activitySound activity = true ->
      ck_requestedDate ck = Some date ->
      Schema.bookingValid booking = true ->
      duplicateKey booking db = false ->
      exists i activity' db',
        createBooking cfg now newId body db
        = (ok 201
             "Booking initiated successfully. Please proceed to payment."
             (BookingInitiated newId
                (Some (generateBookingNumber cfg now db))
                (pricePerPerson * JsNum.ofZ n)%float), db')
        /\ Activity.timeSlots activity !! i = Some slot
        /\ Activity_findById (Activity._id activity) db' = Some activity'
        /\ Activity.timeSlots activity' !! i
           = Some {| startTime := startTime slot; endTime := endTime slot;
                     availableSpots := availableSpots slot - n |}
        /\ (forall j, j <> i ->
              Activity.timeSlots activity' !! j
              = Activity.timeSlots activity !! j)
        /\ bookings db' = bookings db ++ [booking]).
Proof.
  intros Hck activity slot n ppp booking.
  destruct (checkRequest_inr _ _ _ _ Hck) as (Ha & Hslot & _).
  fold activity slot in Ha, Hslot.
  unfold createBooking. rewrite Hck. fold activity slot n.
  split; [|split].
  - intros Hlt. apply Z.ltb_lt in Hlt. now rewrite Hlt.
  - intros Hle Hmax.
    apply Z.ltb_ge in Hle. apply Z.ltb_lt in Hmax. now rewrite Hle, Hmax.
  - intros Hmax Hleft Hsound Hdate Hvalid Hfresh.
    assert (Hge : (availableSpots slot <? n) = false)
      by (apply Z.ltb_ge; lia).
    apply Z.ltb_ge in Hmax. rewrite Hge, Hmax.
    destruct (find_findIndex _ _ _ Hslot) as (i & Hi & Hlook).
    unfold reserveAndCreate. fold activity. rewrite Hi.
    destruct (Activity_save_slots activity
                (alter (addSpots (- n)) i (Activity.timeSlots activity)) db
                Hsound) as (a' & Hsave & Hslots & Hid & _).
    { rewrite activitySound_spec in Hsound.
      apply andb_prop in Hsound as [Hsound _].
      apply andb_prop in Hsound as [_ Hall].
      rewrite forallb_forall. intros s Hs.
      apply list_elem_of_In, list_elem_of_lookup in Hs as [j Hj].
      destruct (decide (i = j)) as [<-|Hne].
      - rewrite list_lookup_alter_eq, Hlook in Hj. injection Hj as <-.
        rewrite forallb_forall in Hall.
        assert (Hin : In slot (Activity.timeSlots activity)).
        { apply list_elem_of_In, list_elem_of_lookup. eauto. }
        specialize (Hall _ Hin). unfold Schema.timeSlotValid in *. cbn.
        apply andb_prop in Hall as [-> _]. cbn. lia.
      - rewrite list_lookup_alter_ne in Hj by exact Hne.
        rewrite forallb_forall in Hall. apply Hall.
        apply list_elem_of_In, list_elem_of_lookup. eauto. }
    rewrite Hsave, Hdate.
    set (db1 := set_activities _ db).
    assert (Hnum : generateBookingNumber cfg now db1
                   = generateBookingNumber cfg now db) by reflexivity.
    rewrite Hnum.
    assert (Hdoc : newBooking newId now (generateBookingNumber cfg now db)
                     a' (ck_customer ck) date (ck_selected ck) n ppp
                     (ppp * JsNum.ofZ n)%float
                     ((Activity.price activity - ppp) * JsNum.ofZ n)%float
                     (ppp * JsNum.ofZ n)%float
                   = booking).
    { apply Activity_save_inv in Hsave as (_ & -> & _). reflexivity. }
    fold ppp. rewrite Hdoc.
    unfold Booking_create. rewrite Hvalid.
    assert (Hfresh1 : duplicateKey booking db1 = false) by exact Hfresh.
    rewrite Hfresh1. cbn [negb].
    exists i, a'. eexists. split; [reflexivity|].
    split; [exact Hlook|]. split; [|split; [|split]].
    + unfold Activity_findById. cbn [activities set_bookings set_activities db1].
      rewrite <- Hid.
      apply find_replaceActivity_same. rewrite Hid.
      unfold Activity_findById in Ha. rewrite Ha. eauto.
    + rewrite Hslots, list_lookup_alter_eq, Hlook. reflexivity.
    + intros j Hj. rewrite Hslots.
      now rewrite list_lookup_alter_ne by congruence.
    + reflexivity.
Qed.

End Reservation.

(** A run against C1: the slot exists and holds 10 spots, 7 are asked for,
    yet nothing is reserved and no booking is made, since the activity
    takes 5 participants per booking. *)
Lemma createBooking_rejects_above_max :
  exists ck,
    checkRequest Demo.cfg Demo.now (Demo.request 7) (Demo.db0 10) = inr ck
    /\ ck_participants ck = 7
    /\ availableSpots (ck_timeSlot ck) = 10
    /\ createBooking Demo.cfg Demo.now "b1" (Demo.request 7) (Demo.db0 10)
       = (fail 400 "Maximum 5 participants allowed" NoDetail, Demo.db0 10).
Proof. eexists. vm_compute. repeat split; reflexivity. Qed.

(** A witness of C1: Asha books two of five spots. *)
Lemma createBooking_reserves_capacity_witness :
  exists db',
    createBooking Demo.cfg Demo.now "b1" (Demo.request 2) (Demo.db0 5)
    = (ok 201 "Booking initiated successfully. Please proceed to payment."
         (BookingInitiated "b1" (Some "BK-250115-0001") 1000%float),
       db').
Proof.
  destruct (checkRequest Demo.cfg Demo.now (Demo.request 2) (Demo.db0 5))
    as [r|ck] eqn:Hck; [vm_compute in Hck; discriminate|].
  destruct (createBooking_reserves_capacity Demo.cfg Demo.now "b1"
              (Demo.request 2) (Demo.db0 5) ck Demo.jan15 Hck) as (_ & _ & H).
  vm_compute in Hck. injection Hck as <-.
  destruct H as (i & a' & db' & H1 & _).
  - vm_compute. discriminate.
  - vm_compute. discriminate.
  - vm_compute. reflexivity.
  - reflexivity.
  - vm_compute. reflexivity.
  - vm_compute. reflexivity.
  - exists db'. exact H1.
Defined.

(** ** Every handler keeps the stored documents valid *)

Section StoredInvariant.

Context {X : Externals}.
Variable cfg : Config.

Lemma Activity_save_storedOk (a a' : Activity.t) (db db' : Db) :
  Activity_save a db = Ok (a', db') ->
  storedOk db = true -> storedOk db' = true.
Proof.
  unfold Activity_save. rewrite activityPreSave_spec.
  destruct (Schema.activityValid a) eqn:Hv; [|discriminate].
  destruct (hookPasses a) eqn:Hh; [|discriminate].
  cbn [negb]. intros [= <- <-]. unfold storedOk.
  intros H. apply andb_prop in H as [Ha Hb].
  cbn [activities bookings set_activities]. rewrite Hb, andb_true_r.
  unfold replaceActivity. rewrite forallb_forall in *.
  intros x Hx. apply in_map_iff in Hx as (y & <- & Hy).
  destruct (String.eqb (Activity._id y) _); [|now apply Ha].
  rewrite activitySound_spec.
  unfold Schema.activityValid in Hv.
  change (Schema.activityFieldsValid (discounted a))
    with (Schema.activityFieldsValid a).
  change (Activity.timeSlots (discounted a)) with (Activity.timeSlots a).
  change (hookPasses (discounted a)) with (hookPasses a).
  now rewrite Hv, Hh.
Qed.

Lemma Booking_save_storedOk (b : Booking.t) (db db' : Db) :
  Booking_save b db = Ok db' -> storedOk db = true -> storedOk db' = true.
Proof.
  intros H. apply Booking_save_inv in H as [Hv ->]. unfold storedOk.
  intros H. apply andb_prop in H as [Ha Hb].
  cbn [activities bookings set_bookings]. rewrite Ha. cbn [andb].
  unfold replaceBooking. rewrite forallb_forall in *.
  intros x Hx. apply in_map_iff in Hx as (y & <- & Hy).
  destruct (String.eqb (Booking._id y) _); [exact Hv | now apply Hb].
Qed.

Lemma Booking_create_storedOk (b : Booking.t) (db db' : Db) :
  Booking_create b db = Ok db' -> storedOk db = true -> storedOk db' = true.
Proof.
  unfold Booking_create.
  destruct (Schema.bookingValid b) eqn:Hv; [|discriminate].
  destruct (duplicateKey b db); [discriminate|].
  cbn [negb]. intros [= <-]. unfold storedOk.
  intros H. apply andb_prop in H as [Ha Hb].
  cbn [activities bookings set_bookings].
  rewrite Ha, forallb_app, Hb. cbn. now rewrite Hv.
Qed.

Lemma restoreSpots_storedOk (b : Booking.t) (db db' : Db) :
  restoreSpots b db = Ok db' -> storedOk db = true -> storedOk db' = true.
Proof.
  unfold restoreSpots.
  destruct (Activity_findById _ db) as [a|]; [|now intros [= <-]].
  destruct (findIndex _ _) as [i|]; [|now intros [= <-]].
  destruct (Activity_save _ db) as [[a' db1]|] eqn:Hs; [|discriminate].
  intros [= <-]. now apply (Activity_save_storedOk _ _ _ _ Hs).
Qed.

Lemma generateAndSendQR_storedOk (b : Booking.t) (iv : list byte) (now : Z)
    (db : Db) :
  storedOk db = true ->
  storedOk (snd (generateAndSendQR cfg b iv now db)) = true.
Proof.
  intros Hok. unfold generateAndSendQR.
  destruct (generateQRData _ _ _ _ _); [|exact Hok].
  destruct (QRCode_toDataURL _); [|exact Hok].
  destruct (Booking_save _ db) as [db1|] eqn:Hs; [|exact Hok].
  exact (Booking_save_storedOk _ _ _ Hs Hok).
Qed.

#[local] Ltac stored_step :=
  match goal with
  | H : storedOk ?d = true |- storedOk (snd (_, ?d)) = true => exact H
  | |- storedOk (snd (let '(_, _) := generateAndSendQR cfg ?b ?iv ?t ?d in _))
       = true =>
      let H := fresh "Hg" in
      assert (H : storedOk (snd (generateAndSendQR cfg b iv t d)) = true)
        by (apply generateAndSendQR_storedOk; assumption);
      destruct (generateAndSendQR cfg b iv t d); exact H
  | |- context [Booking_save ?b ?d] =>
      let E := fresh "Hs" in
      destruct (Booking_save b d) eqn:E;
      [apply Booking_save_storedOk in E; [|assumption]|]
  | |- context [match ?x with _ => _ end] => destruct x
  | |- context [if ?x then _ else _] => destruct x
  end.

(** X24: documents are written through [save] and [create] only, which
    validate: a database of valid documents stays one under every handler. *)
Lemma storedOk_preserved (now : Z) (newId user : ObjectId) (iv : list byte)
    (request : CreateBookingBody) (idParam : IdParam) (reason : string)
    (gateway : OrderOptions -> option GatewayOrder)
    (fetched : option (option string)) (payment : VerifyPaymentBody)
    (signature : option string) (hook : WebhookBody) (qrData : string)
    (db : Db) :
  storedOk db = true ->
  storedOk (snd (createBooking cfg now newId request db)) = true
  /\ storedOk (snd (cancelBooking now user idParam reason db)) = true
  /\ storedOk (snd (createPaymentOrder gateway idParam db)) = true
  /\ storedOk (snd (verifyPayment cfg now iv fetched payment db)) = true
  /\ storedOk (snd (paymentWebhook cfg now iv signature hook db)) = true
  /\ storedOk (snd (scanQR cfg now user qrData db)) = true.
Proof.
  intros Hok. repeat split.
  - unfold createBooking.
    destruct (checkRequest cfg now request db) as [r|ck]; [exact Hok|].
    destruct (_ <? _); [exact Hok|]. destruct (_ <? _); [exact Hok|].
    unfold reserveAndCreate.
    destruct (findIndex _ _); [|exact Hok].
    destruct (Activity_save _ db) as [[a2 db1]|] eqn:Hs; [|exact Hok].
    apply Activity_save_storedOk in Hs; [|exact Hok].
    destruct (ck_requestedDate ck); [|exact Hs].
    destruct (Booking_create _ db1) as [db2|] eqn:Hc; [|exact Hs].
    exact (Booking_create_storedOk _ _ _ Hc Hs).
  - unfold cancelBooking.
    destruct idParam as [| |bid]; try exact Hok.
    destruct (Booking_findById bid db) as [b|]; [|exact Hok].
    destruct (Booking.paymentStatus b); try exact Hok;
      (destruct (restoreSpots b db) as [db1|] eqn:Hr; [|exact Hok];
       apply restoreSpots_storedOk in Hr; [|exact Hok];
       destruct (Booking_save _ db1) as [db2|] eqn:Hs; [|exact Hr];
       exact (Booking_save_storedOk _ _ _ Hs Hr)).
  - unfold createPaymentOrder. repeat stored_step.
  - unfold verifyPayment. repeat stored_step.
  - unfold paymentWebhook.
    destruct (RAZORPAY_WEBHOOK_SECRET cfg) as [secret|]; [|exact Hok].
    destruct (negb (Js.truthy secret)); [exact Hok|].
    destruct (negb (optStringEqb _ _)); [exact Hok|].
    destruct (entity hook) as [payload|]; [|exact Hok].
    destruct (String.eqb (event hook) "payment.captured").
    + destruct (Booking_findByOrderId _ db) as [b|]; [|exact Hok].
      destruct (Booking.paymentStatus b); try exact Hok;
        (destruct (Booking_save _ db) as [db1|] eqn:Hs; [|exact Hok];
         apply Booking_save_storedOk in Hs; [|exact Hok];
         match goal with
         | |- context [generateAndSendQR cfg ?b ?iv ?t db1] =>
             pose proof (generateAndSendQR_storedOk b iv t db1 Hs) as Hg;
             destruct (generateAndSendQR cfg b iv t db1); exact Hg
         end).
    + destruct (String.eqb (event hook) "payment.failed"); [|exact Hok].
      destruct (Booking_findByOrderId _ db) as [b|]; [|exact Hok].
      destruct (Booking.paymentStatus b); try exact Hok.
      destruct (Booking_save _ db) as [db1|] eqn:Hs; [|exact Hok].
      apply Booking_save_storedOk in Hs; [|exact Hok].
      destruct (restoreSpots _ db1) as [db2|] eqn:Hr; [|exact Hs].
      exact (restoreSpots_storedOk _ _ _ Hr Hs).
  - unfold scanQR. repeat stored_step.
Qed.

End StoredInvariant.

(** ** Booking numbers up to 9999 *)

Section Numbering.

Variable cfg : Config.

Lemma substring_whole (s : string) : substring 0 (String.length s) s = s.
Proof. induction s as [|c s IH]; [reflexivity|]. cbn. now rewrite IH. Qed.

Lemma substring_skip (p t : string) (k : nat) :
  substring (String.length p) k (p ++ t) = substring 0 k t.
Proof. induction p as [|c p IH]; [reflexivity|]. exact IH. Qed.

Lemma length_app (p t : string) :
  String.length (p ++ t) = (String.length p + String.length t)%nat.
Proof. induction p as [|c p IH]; [reflexivity|]. cbn. now rewrite IH. Qed.

(** [(p + t).slice(-k)] is [t] when [t] has [k] characters. *)
Lemma sliceLast_app (p t : string) (k : nat) :
  String.length t = k -> Js.sliceLast k (p ++ t) = t.
Proof.
  intros <-. unfold Js.sliceLast. rewrite length_app.
  replace (String.length p + String.length t - String.length t)%nat
    with (String.length p) by lia.
  rewrite substring_skip. apply substring_whole.
Qed.

Lemma sequences_read_back :
  forallb sequenceReadsBack (map Z.of_nat (seq 1 (Z.to_nat 9999))) = true.
Proof. vm_compute. reflexivity. Qed.

Lemma sequence_reads_back (s : Z) :
  1 <= s <= 9999 -> sequenceReadsBack s = true.
Proof.
  intros Hs. pose proof sequences_read_back as H.
  rewrite forallb_forall in H. apply H.
  apply in_map_iff. exists (Z.to_nat s). split; [lia|].
  apply in_seq. lia.
Qed.

(** While the day's sequence is at most 9999, the allocator reads the
    last sequence back and goes one up: the numbers of a day increase, and
    the 9999th is followed by the five-digit 10000. *)
Lemma nextSequence_increments (now s : Z) (last : Booking.t) :
  1 <= s <= 9999 ->
  Booking.bookingNumber last = Some (bookingNumberOf cfg now s) ->
  nextSequence (Some last) = s + 1.
Proof.
  intros Hs Hnum. unfold nextSequence. rewrite Hnum.
  pose proof (sequence_reads_back s Hs) as Hr.
  unfold sequenceReadsBack in Hr. apply andb_prop in Hr as [Hlen Hparse].
  apply Nat.eqb_eq in Hlen.
  unfold bookingNumberOf.
  set (year := Js.sliceLast 2 _). set (month := Js.padStart 2 _ _).
  set (day := Js.padStart 2 _ (Js.ofInt (JsDate.getDate _ _))).
  change ("BK-" ++ year ++ month ++ day ++ "-"
          ++ Js.padStart 4 "0" (Js.ofInt s))%string
    with (String "B" ("K-" ++ year ++ month ++ day ++ "-"
                      ++ Js.padStart 4 "0" (Js.ofInt s)))%string.
  cbn [Js.truthy String.eqb negb].
  change (String "B" ("K-" ++ year ++ month ++ day ++ "-"
                      ++ Js.padStart 4 "0" (Js.ofInt s)))%string
    with ("BK-" ++ (year ++ (month ++ (day ++ ("-"
          ++ Js.padStart 4 "0" (Js.ofInt s))))))%string.
  assert (Hassoc : forall a b c : string,
             (a ++ (b ++ c) = (a ++ b) ++ c)%string).
  { intros a b c. induction a as [|x a IH]; [reflexivity|].
    cbn. now rewrite IH. }
  rewrite !Hassoc. rewrite (sliceLast_app _ _ 4 Hlen).
  destruct (Js.parseInt _) as [v|]; [|discriminate].
  apply Z.eqb_eq in Hparse. now subst v.
Qed.

(** Two sequences up to 9999 give two booking numbers on a day. *)
Lemma bookingNumberOf_injective (now s s' : Z) :
  1 <= s <= 9999 -> 1 <= s' <= 9999 ->
  bookingNumberOf cfg now s = bookingNumberOf cfg now s' -> s = s'.
Proof.
  intros Hs Hs' Heq.
  set (b := Demo.numbered "x" (bookingNumberOf cfg now s) now).
  assert (H1 : nextSequence (Some b) = s + 1)
    by (apply (nextSequence_increments now s b Hs); reflexivity).
  assert (H2 : nextSequence (Some b) = s' + 1)
    by (apply (nextSequence_increments now s' b Hs');
        change (Some (bookingNumberOf cfg now s)
                = Some (bookingNumberOf cfg now s'));
        now rewrite Heq).
  lia.
Qed.

End Numbering.

(** ** Pricing *)

(** The price per person is the stored discounted price when there is one
    other than 0 and NaN, and the base price otherwise. *)
Lemma pricePerPersonOf_spec (activity : Activity.t) :
  pricePerPersonOf activity
  = match Activity.priceAfterDiscount activity with
    | Some d =>
        if PrimFloat.eqb d 0 || PrimFloat.is_nan d
        then Activity.price activity else d
    | None => Activity.price activity
    end.
Proof.
  unfold pricePerPersonOf, JsNum.truthy.
  destruct (Activity.priceAfterDiscount activity) as [d|]; [|reflexivity].
  now destruct (PrimFloat.eqb d 0 || PrimFloat.is_nan d).
Qed.

(** Booking the last spots of a slot: the decrement to 0 is rejected by the
    schema of the activity ([availableSpots] has [min: 1]), the request is
    answered 400 and nothing is written. *)
Lemma createBooking_last_spots_rejected :
  createBooking Demo.cfg Demo.now "b1" (Demo.request 5) (Demo.db0 5)
  = (fail 400 "Validation Error" ErrorDetail, Demo.db0 5).
Proof. vm_compute. reflexivity. Qed.

(** * Further properties *)

(** ** The entry gate *)

Section Gate.

Context {X : Externals}.
Variable cfg : Config.

Lemma truthy_app_cons (a b : string) (c : ascii) :
  Js.truthy (a ++ String c b) = true.
Proof. destruct a; reflexivity. Qed.

(** The token that [generateQRData] issues decrypts to its payload, given
    that the cipher and JSON invert each other on this payload. *)
Lemma decryptQRData_issued (booking : Booking.t) (act : Activity.t)
    (iv : list byte) (now : Z) (token : string) :
  let payload := qrPayloadOf booking act now in
  let key := scryptSync (envOr (QR_SECRET cfg) defaultQrSecret) in
  generateQRData cfg booking (Some act) iv now = Ok token ->
  aesDecrypt key iv (aesEncrypt key iv (JSON_stringify payload))
  = Some (JSON_stringify payload) ->
  JSON_parse (JSON_stringify payload) = Some payload ->
  decryptQRData cfg token = Ok payload /\ Js.truthy token = true.
Proof.
  intros payload key. unfold generateQRData.
  destruct (negb (Nat.eqb (length iv) 16)) eqn:Hiv; [discriminate|].
  intros Heq Haes Hjson.
  assert (Htok : token
                 = (Hex.encode iv ++ ":"
                    ++ Hex.encode
                         (aesEncrypt key iv (JSON_stringify payload)))%string)
    by (injection Heq as <-; reflexivity).
  subst token. clear Heq. split.
  - unfold decryptQRData.
    rewrite (split_join _ _ (noColon_encode iv) (noColon_encode _)).
    cbn [nth nth_error]. rewrite !decode_encode, Hiv.
    fold key. fold payload. now rewrite Haes, Hjson.
  - apply truthy_app_cons.
Qed.

(** X1: [scanQR] admits a booking only if it is Confirmed, paid, not yet
    checked in and booked for the current local day; it writes nothing unless
    it answers 200 or 500, and never touches an activity or sends a message. *)
Theorem scanQR_admits_only (now : Z) (user : ObjectId) (qrData : string)
    (db db' : Db) (r : Response) :
  scanQR cfg now user qrData db = (r, db') ->
  (statusCode r = 200 ->
   exists payload booking,
     decryptQRData cfg qrData = Ok payload
     /\ Booking_findByIdParam (bookingId payload) db = Ok (Some booking)
     /\ Booking.bookingStatus booking = Confirmed
     /\ Booking.paymentStatus booking = PaymentCompleted
     /\ Booking.checkedIn booking = false
     /\ JsDate.startOfDay (tz cfg) (Booking.bookingDate booking)
        = JsDate.startOfDay (tz cfg) now)
  /\ (statusCode r <> 200 -> statusCode r <> 500 -> db' = db)
  /\ activities db' = activities db
  /\ outbox db' = outbox db.
Proof.
  unfold scanQR. intros H.
  destruct (negb (Js.truthy qrData));
    [pair_eq H; repeat split; try discriminate; congruence|].
  destruct (decryptQRData cfg qrData) as [payload|];
    [|pair_eq H; repeat split; try discriminate; congruence].
  destruct (Booking_findByIdParam (bookingId payload) db) as [[b|]|] eqn:Hf;
    try (pair_eq H; repeat split; try discriminate; congruence).
  destruct (Booking.bookingStatus b) eqn:Hbs;
    try (pair_eq H; repeat split; try discriminate; congruence).
  destruct (Booking.paymentStatus b) eqn:Hps;
    try (pair_eq H; repeat split; try discriminate; congruence).
  destruct (Booking.checkedIn b) eqn:Hci;
    [pair_eq H; repeat split; try discriminate; congruence|].
  destruct (negb (_ =? _)) eqn:Hday;
    [pair_eq H; repeat split; try discriminate; congruence|].
  apply negb_false_iff, Z.eqb_eq in Hday.
  destruct (Booking_save _ db) as [db1|] eqn:Hs;
    [|pair_eq H; repeat split; try discriminate; congruence].
  apply Booking_save_inv in Hs as [_ ->].
  destruct (Activity_findById _ db);
    pair_eq H; repeat split; try discriminate; try congruence;
    try reflexivity;
    try (intros H1 H2;
         solve [ exfalso; apply H1; reflexivity
               | exfalso; apply H2; reflexivity ]).
  intros _. exists payload, b. repeat split; assumption.
Qed.

(** X2: a code without a colon is never accepted: [scanQR] answers 400
    'Invalid or corrupted QR code' and writes nothing, and [validateQR]
    answers 400 with [valid: false]. *)
Theorem token_without_colon_rejected (now : Z) (user : ObjectId)
    (qrData : string) (db : Db) :
  Js.truthy qrData = true ->
  Hex.noColon qrData = true ->
  scanQR cfg now user qrData db
  = (fail 400 "Invalid or corrupted QR code" NoDetail, db)
  /\ vr_status (validateQR cfg qrData db) = 400
  /\ vr_valid (validateQR cfg qrData db) = Some false.
Proof.
  intros Ht Hc.
  assert (Hd : decryptQRData cfg qrData = Throw OtherError).
  { unfold decryptQRData. rewrite (split_noColon qrData Hc).
    cbn [nth nth_error]. now destruct (negb _). }
  unfold scanQR, validateQR. rewrite Ht, Hd. repeat split.
Qed.

(** X3: the credential issued for a booking opens the gate: scanning the token
    of [generateQRData] while the booking is Confirmed, paid, not checked in
    and booked for today checks it in, with the time and the operator of the
    scan. *)
Theorem issued_credential_is_admitted (issued : Booking.t)
    (act : Activity.t) (iv : list byte) (issuedAt now : Z)
    (user : ObjectId) (token : string) (db : Db) (booking : Booking.t) :
  let payload := qrPayloadOf issued act issuedAt in
  let key := scryptSync (envOr (QR_SECRET cfg) defaultQrSecret) in
  generateQRData cfg issued (Some act) iv issuedAt = Ok token ->
  aesDecrypt key iv (aesEncrypt key iv (JSON_stringify payload))
  = Some (JSON_stringify payload) ->
  JSON_parse (JSON_stringify payload) = Some payload ->
  Booking_findById (Booking._id issued) db = Some booking ->
  Booking.bookingStatus booking = Confirmed ->
  Booking.paymentStatus booking = PaymentCompleted ->
  Booking.checkedIn booking = false ->
  JsDate.startOfDay (tz cfg) (Booking.bookingDate booking)
  = JsDate.startOfDay (tz cfg) now ->
  Schema.bookingValid booking = true ->
  is_Some (Activity_findById (Booking.activity booking) db) ->
  exists r db' stored,
    scanQR cfg now user token db = (r, db')
    /\ statusCode r = 200
    /\ Booking_findById (Booking._id issued) db' = Some stored
    /\ Booking.checkedIn stored = true
    /\ Booking.checkInTime stored = Some now
    /\ Booking.checkInBy stored = Some user
    /\ Booking.bookingStatus stored = Completed.
Proof.
  intros payload key Hgen Haes Hjson Hf Hbs Hps Hci Hday Hv [a Ha].
  destruct (decryptQRData_issued _ _ _ _ _ Hgen Haes Hjson) as [Hd Ht].
  unfold scanQR. rewrite Ht, Hd. cbn [negb bookingId qrPayloadOf].
  change (bookingId (qrPayloadOf issued act issuedAt))
    with (GoodId (Booking._id issued)).
  cbn [Booking_findByIdParam].
  rewrite Hf, Hbs, Hps, Hci, Hday, Z.eqb_refl. cbn [negb].
  set (b1 := Booking.set_bookingStatus Completed _).
  assert (Hv1 : Schema.bookingValid b1 = true) by exact Hv.
  rewrite (Booking_save_ok _ db Hv1), Ha.
  eexists _, _, b1. split; [reflexivity|]. split; [reflexivity|].
  split; [|repeat split].
  pose proof (find_some_id _ _ _ Hf) as Hid.
  unfold Booking_findById. cbn [bookings set_bookings].
  assert (Hid1 : Booking._id b1 = Booking._id issued) by exact Hid.
  rewrite <- Hid1. apply find_replaceBooking_same.
  rewrite Hid1. unfold Booking_findById in Hf. rewrite Hf. eauto.
Qed.

(** X4: after a scan that checked a booking in, [validateQR] still calls the
    code valid, and reports the booking as checked in, with the time of that
    scan and the status Completed. *)
Theorem validateQR_after_scan (now : Z) (user : ObjectId) (qrData : string)
    (db db' : Db) (r : Response) :
  scanQR cfg now user qrData db = (r, db') ->
  statusCode r = 200 ->
  exists status,
    vr_data (validateQR cfg qrData db') = Some status
    /\ vr_status (validateQR cfg qrData db') = 200
    /\ vr_valid (validateQR cfg qrData db') = Some true
    /\ qs_checkedIn status = true
    /\ qs_checkInTime status = Some now
    /\ qs_bookingStatus status = Completed.
Proof.
  unfold scanQR. intros H H200.
  destruct (negb (Js.truthy qrData)) eqn:Ht; [pair_eq H; discriminate|].
  destruct (decryptQRData cfg qrData) as [payload|] eqn:Hd;
    [|pair_eq H; discriminate].
  destruct (bookingId payload) as [| |bid] eqn:Hbid;
    cbn [Booking_findByIdParam] in H; try (pair_eq H; discriminate).
  destruct (Booking_findById bid db) as [b|] eqn:Hf;
    [|pair_eq H; discriminate].
  destruct (Booking.bookingStatus b) eqn:Hbs; try (pair_eq H; discriminate).
  destruct (Booking.paymentStatus b) eqn:Hps; try (pair_eq H; discriminate).
  destruct (Booking.checkedIn b) eqn:Hci; [pair_eq H; discriminate|].
  destruct (negb (_ =? _)); [pair_eq H; discriminate|].
  destruct (Booking_save _ db) as [db1|] eqn:Hs; [|pair_eq H; discriminate].
  destruct (Activity_findById _ db); [|pair_eq H; discriminate].
  pair_eq H.
  pose proof (find_some_id _ _ _ Hf) as Hid.
  set (b1 := Booking.set_bookingStatus Completed _) in *.
  assert (Hid1 : Booking._id b1 = bid) by exact Hid.
  rewrite <- Hid1 in Hf.
  destruct (Booking_save_lookup _ _ _ _ Hf Hs) as (Hl & _).
  rewrite Hid1 in Hl.
  unfold validateQR. rewrite Ht, Hd, Hbid. cbn [Booking_findByIdParam].
  rewrite Hl. cbn.
  eexists. repeat split.
Qed.

End Gate.

(** ** Check-in by booking id, and the resending of codes *)

Section CheckInById.

Context {X : Externals}.
Variable cfg : Config.

(** X5: [verifyAndCheckIn] admits a booking only if it is Confirmed, paid, not
    yet checked in and booked for the current local day, and the QR data of
    the request, when there is any, is the stored one; it writes nothing
    unless it answers 200 or 500. *)
Theorem verifyAndCheckIn_admits_only (now : Z) (user : ObjectId)
    (idParam : IdParam) (qrData : string) (db db' : Db) (r : Response) :
  verifyAndCheckIn cfg now user idParam qrData db = (r, db') ->
  (statusCode r = 200 ->
   exists bid booking,
     idParam = GoodId bid
     /\ Booking_findById bid db = Some booking
     /\ Booking.bookingStatus booking = Confirmed
     /\ Booking.paymentStatus booking = PaymentCompleted
     /\ Booking.checkedIn booking = false
     /\ (qrData = "" \/ Booking.qrData booking = Some qrData)
     /\ JsDate.startOfDay (tz cfg) (Booking.bookingDate booking)
        = JsDate.startOfDay (tz cfg) now)
  /\ (statusCode r <> 200 -> statusCode r <> 500 -> db' = db)
  /\ activities db' = activities db
  /\ outbox db' = outbox db.
Proof.
  unfold verifyAndCheckIn. intros H.
  destruct idParam as [| |bid];
    try (pair_eq H; repeat split; try discriminate; congruence).
  destruct (Booking_findById bid db) as [b|] eqn:Hf;
    [|pair_eq H; repeat split; try discriminate; congruence].
  destruct (Booking.bookingStatus b) eqn:Hbs;
    try (pair_eq H; repeat split; try discriminate; congruence).
  destruct (Booking.paymentStatus b) eqn:Hps;
    try (pair_eq H; repeat split; try discriminate; congruence).
  destruct (Booking.checkedIn b) eqn:Hci;
    [pair_eq H; repeat split; try discriminate; congruence|].
  destruct (Js.truthy qrData && negb _) eqn:Hqr;
    [pair_eq H; repeat split; try discriminate; congruence|].
  destruct (negb (_ =? _)) eqn:Hday;
    [pair_eq H; repeat split; try discriminate; congruence|].
  apply negb_false_iff, Z.eqb_eq in Hday.
  assert (Hcode : qrData = "" \/ Booking.qrData b = Some qrData).
  { apply andb_false_iff in Hqr as [Hqr|Hqr].
    - left. unfold Js.truthy in Hqr. apply negb_false_iff in Hqr.
      now apply String.eqb_eq.
    - right. apply negb_false_iff in Hqr. unfold optStringEqb in Hqr.
      destruct (Booking.qrData b) as [q|]; [|discriminate].
      apply String.eqb_eq in Hqr. now subst. }
  destruct (Booking_save _ db) as [db1|] eqn:Hs;
    [|pair_eq H; repeat split; try discriminate; congruence].
  apply Booking_save_inv in Hs as [_ ->].
  destruct (Activity_findById _ db);
    pair_eq H; repeat split; try discriminate; try congruence;
    try reflexivity;
    try (intros H1 H2;
         solve [ exfalso; apply H1; reflexivity
               | exfalso; apply H2; reflexivity ]).
  intros _. exists bid, b. repeat split; assumption.
Qed.

(** X6: whatever a scan of a code does to the database, a check-in by the
    booking's id without any QR data does as well: when [scanQR] checks a
    booking in, [verifyAndCheckIn] on the id in the code, with no QR data,
    answers 200 and leaves the same database. *)
Theorem checkIn_by_id_needs_no_code (now : Z) (user : ObjectId)
    (qrData : string) (db db' : Db) (r : Response) :
  scanQR cfg now user qrData db = (r, db') ->
  statusCode r = 200 ->
  exists payload bid r',
    decryptQRData cfg qrData = Ok payload
    /\ bookingId payload = GoodId bid
    /\ verifyAndCheckIn cfg now user (GoodId bid) "" db = (r', db')
    /\ statusCode r' = 200.
Proof.
  unfold scanQR, verifyAndCheckIn. intros H H200.
  destruct (negb (Js.truthy qrData)); [pair_eq H; discriminate|].
  destruct (decryptQRData cfg qrData) as [payload|];
    [|pair_eq H; discriminate].
  exists payload.
  destruct (bookingId payload) as [| |bid];
    cbn [Booking_findByIdParam] in H; try (pair_eq H; discriminate).
  exists bid.
  destruct (Booking_findById bid db) as [b|];
    [|pair_eq H; discriminate].
  destruct (Booking.bookingStatus b); try (pair_eq H; discriminate).
  destruct (Booking.paymentStatus b); try (pair_eq H; discriminate).
  destruct (Booking.checkedIn b); [pair_eq H; discriminate|].
  cbn [Js.truthy String.eqb negb andb].
  destruct (negb (_ =? _)); [pair_eq H; discriminate|].
  destruct (Booking_save _ db) as [db1|]; [|pair_eq H; discriminate].
  destruct (Activity_findById _ db); [|pair_eq H; discriminate].
  pair_eq H. eexists. repeat split.
Qed.

End CheckInById.

(** What [whatsappService.sendBookingConfirmation] hands over: nothing, or
    one text for the booking's phone number as [formatPhoneNumber] returns
    it. *)
Lemma sendConfirmationWhatsApp_shape (cfg : Config) (booking : Booking.t) :
  sendConfirmationWhatsApp cfg booking = []
  \/ exists via to,
       formatPhoneNumber (phone (Booking.customerDetails booking)) = Ok to
       /\ sendConfirmationWhatsApp cfg booking
          = [WhatsApp via to (Booking.bookingNumber booking)].
Proof.
  unfold sendConfirmationWhatsApp.
  destruct (formatPhoneNumber _) as [to|]; [|now left].
  destruct (isService "twilio" _); [right; eauto|].
  destruct (isService "business-api" _); [right; eauto|].
  destruct (_ && _); [right; eauto | now left].
Qed.

(** X7: [resendQR] mints nothing: bookings and activities are never written;
    it answers 200 only for a Confirmed, paid booking that has a QR image,
    and then hands the mail transporter one mail for the stored address,
    with the part of the stored image after 'base64,' attached, followed by
    at most one WhatsApp text, for the stored phone number as formatted;
    any other answer sends nothing. *)
Theorem resendQR_reuses_credential (cfg : Config) (body : ResendBody)
    (db db' : Db) (r : Response) :
  resendQR cfg body db = (r, db') ->
  bookings db' = bookings db
  /\ activities db' = activities db
  /\ (statusCode r = 200 ->
      exists booking image texts,
        In booking (bookings db)
        /\ Booking.bookingNumber booking = Some (rs_bookingNumber body)
        /\ Booking.bookingStatus booking = Confirmed
        /\ Booking.paymentStatus booking = PaymentCompleted
        /\ Booking.qrImage booking = Some image
        /\ outbox db'
           = outbox db
             ++ Mail (email (Booking.customerDetails booking))
                  (Booking._id booking)
                  (nth_error (Js.splitOn "base64," image) 1)
                :: texts
        /\ (texts = []
            \/ exists via to,
                 formatPhoneNumber (phone (Booking.customerDetails booking))
                 = Ok to
                 /\ texts = [WhatsApp via to (Some (rs_bookingNumber body))]))
  /\ (statusCode r <> 200 -> db' = db).
Proof.
  unfold resendQR. intros H.
  destruct (negb _ || negb _ || negb _);
    [pair_eq H; repeat split; try discriminate; congruence|].
  destruct (find (resendMatches body) (bookings db)) as [b|] eqn:Hf;
    [|pair_eq H; repeat split; try discriminate; congruence].
  destruct (Booking.bookingStatus b) eqn:Hbs;
    try (pair_eq H; repeat split; try discriminate; congruence).
  destruct (Booking.paymentStatus b) eqn:Hps;
    try (pair_eq H; repeat split; try discriminate; congruence).
  destruct (Booking.qrImage b) as [img|] eqn:Himg;
    [|pair_eq H; repeat split; try discriminate; congruence].
  destruct (negb (Js.truthy img));
    [pair_eq H; repeat split; try discriminate; congruence|].
  pair_eq H. split; [reflexivity|]. split; [reflexivity|]. split.
  - intros _. apply find_some in Hf as [Hin Hm]. exists b, img.
    unfold resendMatches in Hm.
    apply andb_prop in Hm as [Hm _]. apply andb_prop in Hm as [Hn _].
    unfold optStringEqb in Hn.
    destruct (Booking.bookingNumber b) as [n|] eqn:Hnum; [|discriminate].
    apply String.eqb_eq in Hn. subst n.
    exists (sendConfirmationWhatsApp cfg b).
    split; [exact Hin|]. split; [reflexivity|].
    split; [exact Hbs|]. split; [exact Hps|]. split; [exact Himg|]. split.
    + cbn [outbox set_outbox]. unfold confirmationsOf, sendConfirmationMail.
      rewrite Himg. reflexivity.
    + rewrite <- Hnum. apply sendConfirmationWhatsApp_shape.
  - intros Hne. exfalso. apply Hne. reflexivity.
Qed.

(** ** Issuing the credential *)

Section Issuing.

Context {X : Externals}.
Variable cfg : Config.

(** X8: [generateAndSendQR] does all or nothing: either the database is left
    as it was and nothing is sent, or the booking is stored with the token
    generated for it and the image of that token, one mail for the
    customer's address, with the part of the image after 'base64,'
    attached, is handed to the mail transporter, and at most one WhatsApp
    text follows, for the customer's phone number as formatted.  The
    booking it hands back differs from the one it was given in the QR
    fields at most. *)
Theorem generateAndSendQR_all_or_nothing (booking : Booking.t)
    (iv : list byte) (now : Z) (db : Db) :
  let out := generateAndSendQR cfg booking iv now db in
  (snd out = db
   \/ exists token image texts,
        generateQRData cfg booking
          (Activity_findById (Booking.activity booking) db) iv now = Ok token
        /\ QRCode_toDataURL token = Some image
        /\ Booking.qrData (fst out) = Some token
        /\ Booking.qrImage (fst out) = Some image
        /\ bookings (snd out) = replaceBooking (fst out) (bookings db)
        /\ activities (snd out) = activities db
        /\ outbox (snd out)
           = outbox db
             ++ Mail (email (Booking.customerDetails booking))
                  (Booking._id booking)
                  (nth_error (Js.splitOn "base64," image) 1)
                :: texts
        /\ (texts = []
            \/ exists via to,
                 formatPhoneNumber (phone (Booking.customerDetails booking))
                 = Ok to
                 /\ texts = [WhatsApp via to (Booking.bookingNumber booking)]))
  /\ Booking._id (fst out) = Booking._id booking
  /\ Booking.bookingStatus (fst out) = Booking.bookingStatus booking
  /\ Booking.paymentStatus (fst out) = Booking.paymentStatus booking
  /\ Booking.paidAt (fst out) = Booking.paidAt booking
  /\ Booking.checkedIn (fst out) = Booking.checkedIn booking.
Proof.
  unfold generateAndSendQR.
  destruct (generateQRData _ _ _ _ _) as [token|];
    [|cbn; repeat split; now left].
  destruct (QRCode_toDataURL token) as [image|] eqn:Himg;
    [|cbn; repeat split; now left].
  set (b1 := Booking.set_qrImage _ _).
  destruct (Booking_save b1 db) as [db1|] eqn:Hs;
    [|cbn; repeat split; now left].
  apply Booking_save_inv in Hs as [_ ->].
  cbn [fst snd]. split; [|repeat split]. right.
  exists token, image, (sendConfirmationWhatsApp cfg b1).
  split; [reflexivity|]. split; [exact Himg|].
  split; [reflexivity|]. split; [reflexivity|].
  split; [reflexivity|]. split; [reflexivity|]. split; [reflexivity|].
  exact (sendConfirmationWhatsApp_shape cfg b1).
Qed.

End Issuing.

(** ** Payment reconciliation *)

Section Reconciliation.

Context {X : Externals}.
Variable cfg : Config.

Lemma optStringEqb_eq (a b : option string) :
  optStringEqb a b = true -> a = b.
Proof.
  destruct a, b; cbn; try discriminate; try reflexivity.
  intros H. apply String.eqb_eq in H. now subst.
Qed.

Lemma find_replaceBooking_pred (p : Booking.t -> bool) (b b' : Booking.t)
    (l : list Booking.t) :
  find p l = Some b -> p b' = true -> Booking._id b' = Booking._id b ->
  find p (replaceBooking b' l) = Some b'.
Proof.
  intros Hf Hp Hid. induction l as [|x l IH]; [discriminate|].
  cbn in Hf |- *. destruct (p x) eqn:Hx.
  - injection Hf as ->. now rewrite Hid, String.eqb_refl, Hp.
  - destruct (String.eqb (Booking._id x) (Booking._id b')).
    + now rewrite Hp.
    + rewrite Hx. now apply IH.
Qed.

Lemma restoreSpots_bookings (b : Booking.t) (db db' : Db) :
  restoreSpots b db = Ok db' ->
  bookings db' = bookings db /\ outbox db' = outbox db.
Proof.
  unfold restoreSpots.
  destruct (Activity_findById _ db); [|now intros [= <-]].
  destruct (findIndex _ _); [|now intros [= <-]].
  destruct (Activity_save _ db) as [[a' db1]|] eqn:Hs; [|discriminate].
  intros [= <-]. apply Activity_save_inv in Hs as (_ & _ & ->).
  split; reflexivity.
Qed.

(** What [generateAndSendQR] leaves of a booking that was just saved: the
    booking is still found, with its payment fields as saved. *)
Lemma generateAndSendQR_keeps (b : Booking.t) (iv : list byte) (now : Z)
    (db : Db) :
  Booking_findById (Booking._id b) db = Some b ->
  exists b',
    Booking_findById (Booking._id b) (snd (generateAndSendQR cfg b iv now db))
    = Some b'
    /\ Booking.paymentStatus b' = Booking.paymentStatus b
    /\ Booking.bookingStatus b' = Booking.bookingStatus b
    /\ Booking.paidAt b' = Booking.paidAt b
    /\ Booking.transactionId b' = Booking.transactionId b
    /\ Booking.razorpayPaymentId b' = Booking.razorpayPaymentId b
    /\ Booking.razorpaySignature b' = Booking.razorpaySignature b
    /\ Booking.paymentMethod b' = Booking.paymentMethod b.
Proof.
  intros Hf. unfold generateAndSendQR.
  destruct (generateQRData _ _ _ _ _) as [token|];
    [|exists b; repeat split; exact Hf].
  destruct (QRCode_toDataURL token) as [image|];
    [|exists b; repeat split; exact Hf].
  set (b1 := Booking.set_qrImage _ _).
  destruct (Booking_save b1 db) as [db1|] eqn:Hs;
    [|exists b; repeat split; exact Hf].
  exists b1. split; [|repeat split].
  change (Booking._id b) with (Booking._id b1) in Hf |- *.
  now destruct (Booking_save_lookup _ _ _ _ Hf Hs).
Qed.

(** X9: with a valid signature and a payment method that the schema stores,
    [verifyPayment] confirms the booking whatever state it was in (Initiated,
    Cancelled, already paid, checked in): the stored booking is Confirmed and
    Completed, paid now, with the payment id as transaction id; no activity
    changes. *)
Theorem verifyPayment_confirms (now : Z) (iv : list byte) (m : string)
    (body : VerifyPaymentBody) (db : Db) (bid : ObjectId)
    (booking : Booking.t) (secret : string) :
  Js.truthy (razorpay_order_id body) = true ->
  Js.truthy (razorpay_payment_id body) = true ->
  vp_bookingId body = GoodId bid ->
  Booking_findById bid db = Some booking ->
  RAZORPAY_KEY_SECRET cfg = Some secret ->
  razorpay_signature body
  = hmacSha256Hex secret
      (razorpay_order_id body ++ "|" ++ razorpay_payment_id body)%string ->
  Js.truthy (razorpay_signature body) = true ->
  Schema.inList m Schema.paymentMethods = true ->
  Schema.bookingValid booking = true ->
  exists r db' stored,
    verifyPayment cfg now iv (Some (Some m)) body db = (r, db')
    /\ statusCode r = 200
    /\ Booking_findById bid db' = Some stored
    /\ Booking.paymentStatus stored = PaymentCompleted
    /\ Booking.bookingStatus stored = Confirmed
    /\ Booking.paidAt stored = Some now
    /\ Booking.transactionId stored = Some (razorpay_payment_id body)
    /\ Booking.razorpaySignature stored = Some (razorpay_signature body)
    /\ Booking.paymentMethod stored = Some m
    /\ activities db' = activities db.
Proof.
  intros Ho Hp Hid Hf Hk Hsig Hs Hm Hv.
  unfold verifyPayment. rewrite Ho, Hp, Hs, Hid, Hf, Hk.
  cbv beta iota zeta. rewrite <- Hsig, String.eqb_refl.
  assert (Htr : Js.truthy m = true)
    by (destruct m; [discriminate Hm | reflexivity]).
  rewrite Htr. cbn [negb orb].
  set (b1 := Booking.set_confirmationDate _ _).
  assert (Hv1 : Schema.bookingValid b1 = true)
    by (apply (bookingValid_method booking b1 m Hv Hm); reflexivity).
  rewrite (Booking_save_ok _ db Hv1).
  set (db1 := set_bookings _ db).
  pose proof (find_some_id _ _ _ Hf) as Hbid.
  assert (Hl : Booking_findById (Booking._id b1) db1 = Some b1).
  { unfold Booking_findById, db1. cbn [bookings set_bookings].
    apply find_replaceBooking_same.
    change (Booking._id b1) with (Booking._id booking).
    unfold Booking_findById in Hf. rewrite Hbid, Hf. eauto. }
  destruct (generateAndSendQR_keeps b1 iv now db1 Hl)
    as (b' & Hl' & H1 & H2 & H3 & H4 & _ & H6 & H7).
  pose proof (generateAndSendQR_activities cfg b1 iv now db1) as Hact.
  destruct (generateAndSendQR cfg b1 iv now db1) as [b2 db2].
  cbn [snd] in Hl', Hact.
  change (Booking._id b1) with (Booking._id booking) in Hl'.
  rewrite Hbid in Hl'.
  eexists _, db2, b'. split; [reflexivity|].
  split; [reflexivity|]. split; [exact Hl'|].
  rewrite H1, H2, H3, H4, H6, H7. repeat split. exact Hact.
Qed.

(** X10: the webhook writes only when the signature header is the HMAC of the
    body under the configured secret: any other request is answered 400 or 500
    and leaves the database as it was. *)
Theorem paymentWebhook_writes_only_if_authentic (now : Z) (iv : list byte)
    (signature : option string) (body : WebhookBody) (db db' : Db)
    (r : Response) :
  paymentWebhook cfg now iv signature body db = (r, db') ->
  (forall secret,
     RAZORPAY_WEBHOOK_SECRET cfg = Some secret ->
     signature <> Some (hmacSha256Hex secret (JSON_stringify_body body))) ->
  db' = db /\ (statusCode r = 400 \/ statusCode r = 500).
Proof.
  unfold paymentWebhook. intros H Hno.
  destruct (RAZORPAY_WEBHOOK_SECRET cfg) as [secret|];
    [|pair_eq H; split; [reflexivity | now right]].
  destruct (negb (Js.truthy secret));
    [pair_eq H; split; [reflexivity | now right]|].
  destruct (optStringEqb signature _) eqn:E.
  - apply optStringEqb_eq in E. now destruct (Hno secret eq_refl).
  - cbn [negb] in H. pair_eq H. split; [reflexivity | now left].
Qed.

(** X11: a failed payment is released at most once by the webhook: when a
    [payment.failed] event was answered 200, the same event delivered again,
    at any time, is answered 200 and changes nothing. *)
Theorem paymentWebhook_failed_redelivery (now now' : Z) (iv iv' : list byte)
    (signature : option string) (body : WebhookBody) (db db1 : Db)
    (r : Response) :
  event body = "payment.failed" ->
  paymentWebhook cfg now iv signature body db = (r, db1) ->
  statusCode r = 200 ->
  paymentWebhook cfg now' iv' signature body db1
  = (ok 200 "Webhook received" NoDetail, db1).
Proof.
  intros Hev. unfold paymentWebhook.
  destruct (RAZORPAY_WEBHOOK_SECRET cfg) as [secret|];
    [|intros H; pair_eq H; discriminate].
  destruct (negb (Js.truthy secret)); [intros H; pair_eq H; discriminate|].
  destruct (negb (optStringEqb signature _));
    [intros H; pair_eq H; discriminate|].
  destruct (entity body) as [payload|]; [|intros H; pair_eq H; discriminate].
  rewrite Hev. cbn [String.eqb Ascii.eqb Bool.eqb andb].
  destruct (Booking_findByOrderId (order_id payload) db) as [b|] eqn:Hf.
  - destruct (Booking.paymentStatus b) eqn:Hp;
      try (intros H _; pair_eq H; now rewrite Hf, Hp).
    destruct (Booking_save _ db) as [da|] eqn:Hs;
      [|intros H; pair_eq H; discriminate].
    destruct (restoreSpots _ da) as [dc|] eqn:Hr;
      [|intros H; pair_eq H; discriminate].
    intros H _. pair_eq H.
    apply Booking_save_inv in Hs as [_ ->].
    apply restoreSpots_bookings in Hr as [Hb _].
    assert (Hf' : Booking_findByOrderId (order_id payload) dc
                  = Some (Booking.set_paymentStatus Failed b)).
    { unfold Booking_findByOrderId. rewrite Hb. cbn [bookings set_bookings].
      apply (find_replaceBooking_pred _ b); [exact Hf| |reflexivity].
      apply find_some in Hf as [_ Hf]. exact Hf. }
    now rewrite Hf'.
  - intros H _. pair_eq H. now rewrite Hf.
Qed.

(** X12: a captured payment confirms the booking that carries the order id,
    whatever its booking status, unless it is already paid: the stored booking
    is Confirmed and Completed, paid now, with the event's payment id as
    transaction id; the signature of the client is left as it was, and no
    activity changes. *)
Theorem paymentWebhook_captured_confirms (now : Z) (iv : list byte)
    (body : WebhookBody) (db : Db) (secret m : string)
    (payload : PaymentEntity) (booking : Booking.t) :
  RAZORPAY_WEBHOOK_SECRET cfg = Some secret ->
  Js.truthy secret = true ->
  entity body = Some payload ->
  event body = "payment.captured" ->
  Booking_findByOrderId (order_id payload) db = Some booking ->
  Booking.paymentStatus booking <> PaymentCompleted ->
  method payload = Some m ->
  Schema.inList m Schema.paymentMethods = true ->
  Schema.bookingValid booking = true ->
  exists db' stored,
    paymentWebhook cfg now iv
      (Some (hmacSha256Hex secret (JSON_stringify_body body))) body db
    = (ok 200 "Webhook processed successfully" NoDetail, db')
    /\ Booking_findById (Booking._id booking) db' = Some stored
    /\ Booking.paymentStatus stored = PaymentCompleted
    /\ Booking.bookingStatus stored = Confirmed
    /\ Booking.paidAt stored = Some now
    /\ Booking.transactionId stored = id payload
    /\ Booking.razorpaySignature stored = Booking.razorpaySignature booking
    /\ activities db' = activities db.
Proof.
  intros Hs Ht He Hev Hf Hp Hmeth Hm Hv. unfold paymentWebhook.
  rewrite Hs, Ht. cbn [negb optStringEqb]. rewrite String.eqb_refl.
  cbn [negb]. rewrite He, Hev.
  cbn [String.eqb Ascii.eqb Bool.eqb andb]. rewrite Hf, Hmeth.
  assert (Htr : Js.truthy m = true)
    by (destruct m; [discriminate Hm | reflexivity]).
  rewrite Htr.
  assert (Hfid : Booking_findById (Booking._id booking) db <> None).
  { apply Booking_findByOrderId_In in Hf. unfold Booking_findById.
    intros Hnone.
    apply (find_none _ _ Hnone) in Hf. now rewrite String.eqb_refl in Hf. }
  destruct (Booking.paymentStatus booking) eqn:Hps; try congruence;
    match goal with
    | |- context [Booking_save ?b db] =>
        set (b1 := b);
        assert (Hv1 : Schema.bookingValid b1 = true)
          by (apply (bookingValid_method booking b1 m Hv Hm); reflexivity);
        rewrite (Booking_save_ok _ db Hv1);
        set (db1 := set_bookings _ db);
        assert (Hl : Booking_findById (Booking._id b1) db1 = Some b1)
          by (unfold Booking_findById, db1; cbn [bookings set_bookings];
              apply find_replaceBooking_same;
              change (Booking._id b1) with (Booking._id booking);
              unfold Booking_findById in Hfid;
              destruct (find _ (bookings db)); [eauto | congruence]);
        destruct (generateAndSendQR_keeps b1 iv now db1 Hl)
          as (b' & Hl' & H1 & H2 & H3 & H4 & _ & H6 & _);
        pose proof (generateAndSendQR_activities cfg b1 iv now db1) as Hact;
        destruct (generateAndSendQR cfg b1 iv now db1) as [b2 db2];
        cbn [snd] in Hl', Hact;
        exists db2, b'; split; [reflexivity|];
        split; [exact Hl'|];
        rewrite H1, H2, H3, H4, H6; repeat split; exact Hact
    end.
Qed.

End Reconciliation.

Lemma find_is_Some {A : Type} (p : A -> bool) (l : list A) (x : A) :
  In x l -> p x = true -> is_Some (find p l).
Proof.
  intros Hin Hp. destruct (find p l) eqn:Hf; [eauto|].
  apply (find_none _ _ Hf) in Hin. congruence.
Qed.

(** X13: an order that was opened can be reconciled: after a
    [createPaymentOrder] answered 200 with an order id, a booking carrying
    that order id is found, so that a captured payment for it is never
    answered 'Booking not found'. *)
Theorem createPaymentOrder_binds_order
    (gateway : OrderOptions -> option GatewayOrder) (bookingId : IdParam)
    (db db' : Db) (r : Response) :
  createPaymentOrder gateway bookingId db = (r, db') ->
  statusCode r = 200 ->
  exists orderId amount number,
    detail r = OrderCreated orderId amount number
    /\ is_Some (Booking_findByOrderId (Some orderId) db').
Proof.
  unfold createPaymentOrder. intros H H200.
  destruct bookingId as [| |bid]; try (pair_eq H; discriminate).
  destruct (Booking_findById bid db) as [b|] eqn:Hf;
    [|pair_eq H; discriminate].
  destruct (Booking.bookingStatus b); try (pair_eq H; discriminate).
  destruct (Booking.paymentStatus b); try (pair_eq H; discriminate).
  destruct (gateway _) as [order|]; [|pair_eq H; discriminate].
  destruct (Booking_save _ db) as [db1|] eqn:Hs; [|pair_eq H; discriminate].
  pair_eq H. eexists _, _, _. split; [reflexivity|].
  set (b1 := Booking.set_razorpayOrderId _ b) in *.
  assert (Hid : Booking._id b1 = bid) by exact (find_some_id _ _ _ Hf).
  rewrite <- Hid in Hf.
  destruct (Booking_save_lookup _ _ _ _ Hf Hs) as (Hl & _).
  apply (find_is_Some _ _ b1).
  - exact (Booking_findById_In _ _ _ Hl).
  - cbn. apply String.eqb_refl.
Qed.

(** ** Cancellation *)

(** X14: [cancelBooking] refuses a paid booking and writes nothing then; when
    it answers 200, the booking was not paid, and is stored Cancelled, with
    the time, the admin and the reason (the default one when the request gives
    none), its payment status untouched. *)
Theorem cancelBooking_effect (now : Z) (user bid : ObjectId)
    (reason : string) (db db' : Db) (r : Response) (booking : Booking.t) :
  Booking_findById bid db = Some booking ->
  cancelBooking now user (GoodId bid) reason db = (r, db') ->
  (Booking.paymentStatus booking = PaymentCompleted ->
   statusCode r = 400 /\ db' = db)
  /\ (statusCode r = 200 ->
      Booking.paymentStatus booking <> PaymentCompleted
      /\ exists stored,
           Booking_findById bid db' = Some stored
           /\ Booking.bookingStatus stored = Cancelled
           /\ Booking.cancelledAt stored = Some now
           /\ Booking.cancelledBy stored = Some user
           /\ Booking.cancellationReason stored
              = Some (if String.eqb reason "" then "Cancelled by admin"
                      else reason)
           /\ Booking.paymentStatus stored = Booking.paymentStatus booking).
Proof.
  intros Hf. unfold cancelBooking. rewrite Hf.
  pose proof (find_some_id _ _ _ Hf) as Hid.
  destruct (Booking.paymentStatus booking) eqn:Hp;
    try (intros H; pair_eq H; split; [intros _; split; reflexivity
                                     | discriminate]);
    (intros H; split; [discriminate|]; intros H200;
     split; [discriminate|];
     destruct (restoreSpots booking db) as [db1|] eqn:Hr;
       [|pair_eq H; discriminate];
     destruct (Booking_save _ db1) as [db2|] eqn:Hs;
       [|pair_eq H; discriminate];
     pair_eq H;
     apply restoreSpots_bookings in Hr as [Hb _];
     match type of Hs with
     | Booking_save ?b _ = _ =>
         exists b; split; [|repeat split];
         [ assert (Hf1 : Booking_findById (Booking._id b) db1 = Some booking)
             by (unfold Booking_findById; rewrite Hb;
                 change (Booking._id b) with (Booking._id booking);
                 rewrite Hid; exact Hf);
           rewrite <- Hid;
           change (Booking._id booking) with (Booking._id b);
           now destruct (Booking_save_lookup _ _ _ _ Hf1 Hs)
         | cbn; unfold Js.truthy; now destruct (String.eqb reason "")
         | cbn; exact Hp ]
     end).
Qed.

(** ** Creation *)

Section Creation.

Variable cfg : Config.

(** X15: a request answered 201 stored exactly one new booking: Initiated and
    Pending, unpaid, without order id or credential, not checked in, for at
    least one participant, numbered by the allocator and stamped with the time
    of the request.  Its amounts are the doubles that the code computes from
    the activity as it was read: the price per person, its product with the
    participants as total and as final amount, and the product of the
    difference to the base price with the participants as discount; none of
    them is NaN. *)
Theorem createBooking_created (now : Z) (newId : ObjectId)
    (body : CreateBookingBody) (db db' : Db) (r : Response) (ck : Checked) :
  checkRequest cfg now body db = inr ck ->
  createBooking cfg now newId body db = (r, db') ->
  statusCode r = 201 ->
  exists b,
    bookings db' = bookings db ++ [b]
    /\ Booking._id b = newId
    /\ Booking.activity b = Activity._id (ck_activity ck)
    /\ Booking.bookingStatus b = Initiated
    /\ Booking.paymentStatus b = Pending
    /\ Booking.paidAt b = None
    /\ Booking.razorpayOrderId b = None
    /\ Booking.qrData b = None
    /\ Booking.checkedIn b = false
    /\ Booking.numberOfParticipants b = ck_participants ck
    /\ 1 <= Booking.numberOfParticipants b
    /\ Booking.bookingNumber b = Some (generateBookingNumber cfg now db)
    /\ Booking.createdAt b = now
    /\ Booking.pricePerPerson b = pricePerPersonOf (ck_activity ck)
    /\ Booking.totalAmount b
       = (pricePerPersonOf (ck_activity ck)
          * JsNum.ofZ (ck_participants ck))%float
    /\ Booking.discountAmount b
       = ((Activity.price (ck_activity ck)
           - pricePerPersonOf (ck_activity ck))
          * JsNum.ofZ (ck_participants ck))%float
    /\ Booking.finalAmount b = Booking.totalAmount b
    /\ Schema.amountsCast b = true.
Proof.
  intros Hck. unfold createBooking. rewrite Hck.
  destruct (_ <? _); [intros H; pair_eq H; discriminate|].
  destruct (_ <? _); [intros H; pair_eq H; discriminate|].
  unfold reserveAndCreate.
  destruct (findIndex _ _) as [i|]; [|intros H; pair_eq H; discriminate].
  destruct (Activity_save _ db) as [[a2 db1]|] eqn:Hs;
    [|intros H; pair_eq H; destruct e; discriminate].
  destruct (ck_requestedDate ck) as [date|];
    [|intros H; pair_eq H; discriminate].
  destruct (Booking_create _ db1) as [db2|] eqn:Hc;
    [|intros H; pair_eq H; destruct e; discriminate].
  intros H _. pair_eq H.
  apply Activity_save_inv in Hs as (_ & -> & ->).
  unfold Booking_create in Hc.
  destruct (Schema.bookingValid _) eqn:Hv; [|discriminate].
  destruct (duplicateKey _ _); [discriminate|].
  cbn [negb] in Hc. injection Hc as <-.
  eexists. split; [reflexivity|].
  repeat split.
  - exact (bookingValid_participants _ Hv).
  - unfold Schema.bookingValid in Hv.
    do 10 (apply andb_prop in Hv as [Hv _]). exact Hv.
Qed.

(** X16: a negative participant count passes the checks of the handler: the
    slot of a valid activity gains that many spots, the request is then
    answered 400 by the booking schema, and no booking is stored. *)
Theorem createBooking_negative_count (now : Z) (newId : ObjectId)
    (body : CreateBookingBody) (db : Db) (ck : Checked) (date : Z) :
  checkRequest cfg now body db = inr ck ->
  ck_participants ck < 0 ->
  activitySound (ck_activity ck) = true ->
  ck_requestedDate ck = Some date ->
  exists i activity' db',
    createBooking cfg now newId body db
    = (fail 400 "Validation Error" ErrorDetail, db')
    /\ bookings db' = bookings db
    /\ Activity.timeSlots (ck_activity ck) !! i = Some (ck_timeSlot ck)
    /\ Activity_findById (Activity._id (ck_activity ck)) db' = Some activity'
    /\ Activity.timeSlots activity' !! i
       = Some {| startTime := startTime (ck_timeSlot ck);
                 endTime := endTime (ck_timeSlot ck);
                 availableSpots :=
                   availableSpots (ck_timeSlot ck) - ck_participants ck |}.
Proof.
  intros Hck Hneg Hsound Hdate.
  destruct (checkRequest_inr _ _ _ _ _ Hck) as (Ha & Hslot & _).
  destruct (find_findIndex _ _ _ Hslot) as (i & Hi & Hlook).
  assert (Hall : forallb Schema.timeSlotValid
                   (Activity.timeSlots (ck_activity ck)) = true).
  { rewrite activitySound_spec in Hsound.
    apply andb_prop in Hsound as [Hsound _].
    now apply andb_prop in Hsound as [_ Hall]. }
  assert (Hspots : 1 <= availableSpots (ck_timeSlot ck)).
  { rewrite forallb_forall in Hall.
    assert (Hin : In (ck_timeSlot ck) (Activity.timeSlots (ck_activity ck))).
    { apply list_elem_of_In, list_elem_of_lookup. eauto. }
    specialize (Hall _ Hin). unfold Schema.timeSlotValid in Hall.
    apply andb_prop in Hall as [_ Hall]. lia. }
  unfold createBooking. rewrite Hck.
  assert (H1 : (availableSpots (ck_timeSlot ck) <? ck_participants ck)
               = false) by (apply Z.ltb_ge; lia).
  assert (H2 : (Activity.maxParticipants (ck_activity ck)
                <? ck_participants ck) = false).
  { apply Z.ltb_ge. rewrite activitySound_spec in Hsound.
    apply andb_prop in Hsound as [Hsound _].
    apply andb_prop in Hsound as [Hf _].
    unfold Schema.activityFieldsValid in Hf.
    apply andb_prop in Hf as [Hf _]. apply andb_prop in Hf as [_ Hf]. lia. }
  rewrite H1, H2. unfold reserveAndCreate. rewrite Hi.
  destruct (Activity_save_slots (ck_activity ck)
              (alter (addSpots (- ck_participants ck)) i
                 (Activity.timeSlots (ck_activity ck))) db Hsound)
    as (a' & Hsave & Hslots & Hid & _).
  { apply forallb_alter; [exact Hall|].
    intros x. apply timeSlotValid_addSpots. lia. }
  rewrite Hsave, Hdate.
  unfold Booking_create.
  match goal with
  | |- context [Schema.bookingValid ?b] =>
      assert (Hinv : Schema.bookingValid b = false)
  end.
  { unfold Schema.bookingValid.
    cbn [Booking.numberOfParticipants newBooking].
    assert (Hn : (1 <=? ck_participants ck) = false)
      by (apply Z.leb_gt; lia).
    rewrite Hn. now rewrite andb_false_r. }
  rewrite Hinv. cbn [negb].
  exists i, a'. eexists. split; [reflexivity|].
  split; [reflexivity|]. split; [exact Hlook|]. split.
  - unfold Activity_findById. cbn [activities set_activities].
    rewrite <- Hid. apply find_replaceActivity_same. rewrite Hid.
    unfold Activity_findById in Ha. rewrite Ha. eauto.
  - rewrite Hslots, list_lookup_alter_eq, Hlook. reflexivity.
Qed.

(** X17: booking numbers of a day, up to 9999: after the booking with sequence
    [s], the allocator reads [s] back and gives [s + 1], and two different
    sequences give two different numbers. *)
Theorem bookingNumbers_up_to_9999 (now s s' : Z) (last : Booking.t) :
  1 <= s <= 9999 -> 1 <= s' <= 9999 ->
  Booking.bookingNumber last = Some (bookingNumberOf cfg now s) ->
  nextSequence (Some last) = s + 1
  /\ (s <> s' -> bookingNumberOf cfg now s <> bookingNumberOf cfg now s').
Proof.
  intros Hs Hs' Hnum. split.
  - exact (nextSequence_increments cfg now s last Hs Hnum).
  - intros Hne Heq. apply Hne.
    exact (bookingNumberOf_injective cfg now s s' Hs Hs' Heq).
Qed.

End Creation.

(** ** Statistics and availability *)

Lemma status_counts (f : Booking.t -> bool) (l : list Booking.t) :
  (length (List.filter (fun b => f b && isConfirmed b) l)
   + length (List.filter (fun b => f b && isCancelled b) l)
   + length (List.filter (fun b => f b && isInitiated b) l)
   <= length (List.filter f l))%nat.
Proof.
  induction l as [|b l IH]; [reflexivity|].
  assert (Hone : isConfirmed b && isCancelled b = false
                 /\ isConfirmed b && isInitiated b = false
                 /\ isCancelled b && isInitiated b = false).
  { unfold isConfirmed, isCancelled, isInitiated.
    destruct (Booking.bookingStatus b); repeat split. }
  cbn [List.filter].
  destruct (f b), (isConfirmed b), (isCancelled b), (isInitiated b);
    cbn [andb length]; cbn in Hone; try lia;
    destruct Hone as (? & ? & ?); discriminate.
Qed.

Lemma filter_and_le {A : Type} (f g : A -> bool) (l : list A) :
  (length (List.filter (fun b => f b && g b) l)
   <= length (List.filter f l))%nat.
Proof.
  induction l as [|b l IH]; [reflexivity|].
  cbn [List.filter]. destruct (f b), (g b); cbn [andb length]; lia.
Qed.

Lemma filter_le {A : Type} (f : A -> bool) (l : list A) :
  (length (List.filter f l) <= length l)%nat.
Proof.
  induction l as [|b l IH]; [reflexivity|].
  cbn [List.filter]. destruct (f b); cbn [length]; lia.
Qed.

(** X18: in the overview of [getBookingStats] the confirmed, cancelled and
    pending bookings are counted among the total, each booking once, and so
    are the completed payments; the total is at most the number of stored
    bookings. *)
Theorem getBookingStats_counts {X : Externals} (tzOffset now : Z)
    (fromDate toDate : DateParam) (db : Db) (o : Overview) :
  sr_overview (getBookingStats tzOffset now fromDate toDate db) = Some o ->
  0 <= confirmedBookings o /\ 0 <= cancelledBookings o
  /\ 0 <= pendingBookings o
  /\ confirmedBookings o + cancelledBookings o + pendingBookings o
     <= totalBookings o
  /\ 0 <= completedPayments o <= totalBookings o
  /\ totalBookings o <= Z.of_nat (length (bookings db))
  /\ upcomingBookings o <= Z.of_nat (length (bookings db)).
Proof.
  unfold getBookingStats.
  assert (Hgen : forall f : Booking.t -> bool,
    let paid := List.filter (fun b => f b && isPaid b) (bookings db) in
    forall t u r,
    Some {| totalBookings := countDocuments f db;
            confirmedBookings :=
              countDocuments (fun b => f b && isConfirmed b) db;
            cancelledBookings :=
              countDocuments (fun b => f b && isCancelled b) db;
            pendingBookings :=
              countDocuments (fun b => f b && isInitiated b) db;
            todayBookings := t;
            upcomingBookings := countDocuments u db;
            totalRevenue := r;
            completedPayments := Z.of_nat (length paid) |} = Some o ->
    0 <= confirmedBookings o /\ 0 <= cancelledBookings o
    /\ 0 <= pendingBookings o
    /\ confirmedBookings o + cancelledBookings o + pendingBookings o
       <= totalBookings o
    /\ 0 <= completedPayments o <= totalBookings o
    /\ totalBookings o <= Z.of_nat (length (bookings db))
    /\ upcomingBookings o <= Z.of_nat (length (bookings db))).
  { intros f paid t u r [= <-]. subst paid. unfold countDocuments.
    cbn [totalBookings confirmedBookings cancelledBookings pendingBookings
         completedPayments upcomingBookings].
    pose proof (status_counts f (bookings db)).
    pose proof (filter_and_le f isPaid (bookings db)).
    pose proof (filter_le f (bookings db)).
    pose proof (filter_le u (bookings db)).
    repeat split; lia. }
  destruct fromDate, toDate; cbv zeta; cbn [sr_overview]; try discriminate;
    apply Hgen.
Qed.

(** X19: against stored documents that satisfy their schemas, a slot that
    [checkAvailability] reports is always reported available, with at least
    one spot: it is the first slot of the activity with the start time asked
    for. *)
Theorem checkAvailability_reports (idParam : IdParam) (date : DateParam)
    (timeSlot : string) (db : Db) (a : Availability) :
  storedOk db = true ->
  ar_data (checkAvailability idParam date timeSlot db) = Some a ->
  ar_status (checkAvailability idParam date timeSlot db) = 200
  /\ av_isAvailable a = true
  /\ 1 <= av_availableSpots a
  /\ av_availableSpots a = availableSpots (av_timeSlot a)
  /\ startTime (av_timeSlot a) = timeSlot
  /\ exists aid activity,
       idParam = GoodId aid /\ Activity_findById aid db = Some activity
       /\ In (av_timeSlot a) (Activity.timeSlots activity).
Proof.
  intros Hok. unfold checkAvailability.
  destruct idParam as [| |aid]; try discriminate.
  destruct (Activity_findById aid db) as [act|] eqn:Ha; [|discriminate].
  destruct (negb _ || negb _); [discriminate|].
  destruct (JsDate.lt _ _ || JsDate.lt _ _); [discriminate|].
  destruct (find _ _) as [slot|] eqn:Hs; [|discriminate].
  cbn. intros [= <-]. cbn.
  apply find_some in Hs as [Hin Hst]. apply String.eqb_eq in Hst.
  pose proof (storedOk_activity _ _ Hok (Activity_findById_In _ _ _ Ha))
    as Hsound.
  rewrite activitySound_spec in Hsound.
  apply andb_prop in Hsound as [Hsound _].
  apply andb_prop in Hsound as [_ Hall].
  rewrite forallb_forall in Hall. specialize (Hall _ Hin).
  unfold Schema.timeSlotValid in Hall. apply andb_prop in Hall as [_ Hall].
  assert (Hpos : 1 <= availableSpots slot) by lia.
  repeat split; try assumption.
  - apply Z.ltb_lt. lia.
  - exists aid, act. repeat split; assumption.
Qed.

(** ** Phone numbers *)

Section Phones.

Lemma test_Void (s : string) : Regex.test Regex.Void s = false.
Proof. induction s as [|c s IH]; [reflexivity | exact IH]. Qed.

Lemma test_Cat_Void (r : Regex.re) (s : string) :
  Regex.test (Regex.Cat Regex.Void r) s = false.
Proof. induction s as [|c s IH]; [reflexivity | exact IH]. Qed.

Lemma test_Alt (a b : Regex.re) (s : string) :
  Regex.test (Regex.Alt a b) s = Regex.test a s || Regex.test b s.
Proof.
  revert a b. induction s as [|c s IH]; intros a b; [reflexivity|].
  cbn. apply IH.
Qed.

Lemma test_Cat_Cls (p : ascii -> bool) (r : Regex.re) (s : string) :
  Regex.test (Regex.Cat (Regex.Cls p) r) s
  = match s with
    | EmptyString => false
    | String c s' => p c && Regex.test r s'
    end.
Proof.
  destruct s as [|c s]; [reflexivity|]. cbn.
  destruct (p c); cbn [andb].
  - destruct s as [|d s]; [cbn; reflexivity|].
    cbn. rewrite test_Alt, test_Cat_Void. reflexivity.
  - apply test_Cat_Void.
Qed.

(** [/^[0-9]{n}$/] accepts the strings of [n] digits. *)
Lemma test_times (p : ascii -> bool) (n : nat) (s : string) :
  Regex.test (Regex.times n (Regex.Cls p)) s
  = Nat.eqb (String.length s) n && allChars p s.
Proof.
  revert s. induction n as [|n IH]; intros s.
  - destruct s as [|c s]; [reflexivity|]. cbn. apply test_Void.
  - cbn [Regex.times]. rewrite test_Cat_Cls.
    destruct s as [|c s]; [reflexivity|].
    rewrite IH. cbn. now destruct (p c), (Nat.eqb (String.length s) n).
Qed.

Lemma filterString_all (p : ascii -> bool) (s : string) :
  allChars p s = true -> filterString p s = s.
Proof.
  induction s as [|c s IH]; [reflexivity|]. cbn.
  intros H. apply andb_prop in H as [-> H]. now rewrite IH.
Qed.

Lemma allChars_filterString (p : ascii -> bool) (s : string) :
  allChars p (filterString p s) = true.
Proof.
  induction s as [|c s IH]; [reflexivity|]. cbn.
  destruct (p c) eqn:E; [cbn; now rewrite E | exact IH].
Qed.

Lemma allChars_substring (p : ascii -> bool) (a n : nat) (s : string) :
  allChars p s = true -> allChars p (substring a n s) = true.
Proof.
  revert a n. induction s as [|c s IH]; intros a n H.
  - destruct a, n; reflexivity.
  - cbn in H. apply andb_prop in H as [Hc Hs].
    destruct a; [destruct n; [reflexivity|]; cbn; rewrite Hc; now apply IH|].
    cbn. now apply IH.
Qed.

Lemma formatPhoneNumber_ten_digits (phone : string) :
  Regex.test Regex.phoneRe phone = true ->
  formatPhoneNumber phone = Ok phone.
Proof.
  unfold Regex.phoneRe. rewrite test_times. intros H.
  apply andb_prop in H as [Hlen Hall]. apply Nat.eqb_eq in Hlen.
  unfold formatPhoneNumber. cbv zeta.
  rewrite (filterString_all _ _ Hall), Hlen.
  change (Nat.eqb 10 12) with false. rewrite andb_false_r, Hlen.
  reflexivity.
Qed.

(** X20: a phone number that the booking schema accepts goes through
    [formatPhoneNumber] unchanged: the WhatsApp confirmation of a stored
    booking never fails on the format of its number. *)
Theorem formatPhoneNumber_schema_phone (phone : string) :
  Regex.test Regex.phoneRe phone = true ->
  formatPhoneNumber phone = Ok phone.
Proof. exact (formatPhoneNumber_ten_digits phone). Qed.

(** X21: what [formatPhoneNumber] returns is a number of ten digits, which the
    booking schema accepts and which it maps to itself. *)
Theorem formatPhoneNumber_result (phone cleaned : string) :
  formatPhoneNumber phone = Ok cleaned ->
  String.length cleaned = 10%nat
  /\ allChars Regex.isDigit cleaned = true
  /\ Regex.test Regex.phoneRe cleaned = true
  /\ formatPhoneNumber cleaned = Ok cleaned.
Proof.
  unfold formatPhoneNumber at 1.
  set (digits := filterString Regex.isDigit phone).
  pose proof (allChars_filterString Regex.isDigit phone) as Hd.
  fold digits in Hd.
  set (c := if startsWith91 digits && Nat.eqb (String.length digits) 12
            then _ else _).
  assert (Hc : allChars Regex.isDigit c = true).
  { unfold c. destruct (_ && _); [now apply allChars_substring | exact Hd]. }
  destruct (negb (Nat.eqb (String.length c) 10)) eqn:Hlen; [discriminate|].
  intros [= <-]. apply negb_false_iff in Hlen.
  assert (Ht : Regex.test Regex.phoneRe c = true).
  { unfold Regex.phoneRe. now rewrite test_times, Hlen, Hc. }
  apply Nat.eqb_eq in Hlen.
  repeat split; try assumption.
  now apply formatPhoneNumber_ten_digits.
Qed.

End Phones.

(** ** The price after discount *)

(** X22: a successful [activity.save()] leaves the price as it was and,
    when the double [price - (price * discountPercentage) / 100] that the
    hook computes is a number, stores it as [priceAfterDiscount], whatever
    the document carried before.  The stored start date is not after the
    end date and no stored slot has fewer than one spot. *)
Theorem Activity_save_price_after_discount (a a' : Activity.t) (db db' : Db) :
  Activity_save a db = Ok (a', db') ->
  let computed :=
    (Activity.price a
     - (Activity.price a * Activity.discountPercentage a) / 100)%float in
  Activity.price a' = Activity.price a
  /\ (PrimFloat.is_nan computed = false ->
      Activity.priceAfterDiscount a' = Some computed
      /\ forall x, Activity_save (Activity.set_priceAfterDiscount x a) db
                   = Ok (a', db'))
  /\ Activity.startDate a' <= Activity.endDate a'
  /\ (forall s, In s (Activity.timeSlots a') -> 1 <= availableSpots s).
Proof.
  intros H computed. pose proof H as H0.
  apply Activity_save_inv in H as (Hv & -> & ->).
  unfold Schema.activityValid in Hv. apply andb_prop in Hv as [_ Hs].
  split; [reflexivity|]. split.
  { intros Hnan. split.
    - unfold discounted.
      cbn [Activity.priceAfterDiscount Activity.set_priceAfterDiscount].
      unfold Schema.assignedPrice.
      change (Schema.discountedPrice a) with computed.
      destruct (PrimFloat.is_nan computed); [discriminate | reflexivity].
    - intros x. rewrite <- H0. unfold Activity_save, Schema.activityValid.
      change (Schema.activityFieldsValid (Activity.set_priceAfterDiscount x a))
        with (Schema.activityFieldsValid a).
      cbn [Activity.timeSlots Activity.set_priceAfterDiscount].
      unfold Schema.activityPreSave, Schema.assignedPrice.
      change (Schema.discountedPrice (Activity.set_priceAfterDiscount x a))
        with computed.
      change (Schema.discountedPrice a) with computed.
      destruct (PrimFloat.is_nan computed); [discriminate | reflexivity]. }
  split.
  { unfold Activity_save in H0. rewrite activityPreSave_spec in H0.
    destruct (negb _); [discriminate|].
    destruct (hookPasses a) eqn:Hh; [|discriminate].
    unfold hookPasses in Hh. apply andb_prop in Hh as [Hh _].
    cbn. apply negb_true_iff in Hh. lia. }
  intros s Hin. cbn in Hin. rewrite forallb_forall in Hs.
  specialize (Hs _ Hin). unfold Schema.timeSlotValid in Hs.
  apply andb_prop in Hs as [_ Hs]. lia.
Qed.

(** ** The last spots of a slot *)

Lemma forallb_alter_false {A : Type} (f : A -> bool) (g : A -> A)
    (l : list A) (i : nat) (x : A) :
  l !! i = Some x -> f (g x) = false -> forallb f (alter g i l) = false.
Proof.
  revert i. induction l as [|y l IH]; intros [|i] Hi Hf; try discriminate.
  - cbn in Hi. injection Hi as ->. cbn. now rewrite Hf.
  - cbn in Hi. cbn. rewrite (IH i Hi Hf). apply andb_false_r.
Qed.

Section LastSpots.

Context {X : Externals}.
Variable cfg : Config.

(** X23: a slot cannot be booked out: a request for exactly the spots that are
    left passes the capacity check, the decrement to 0 is then rejected by the
    activity schema ([availableSpots] has [min: 1]), the answer is 400
    'Validation Error' and nothing is written. *)
Theorem createBooking_exact_capacity_rejected (now : Z) (newId : ObjectId)
    (body : CreateBookingBody) (db : Db) (ck : Checked) :
  checkRequest cfg now body db = inr ck ->
  ck_participants ck = availableSpots (ck_timeSlot ck) ->
  ck_participants ck <= Activity.maxParticipants (ck_activity ck) ->
  createBooking cfg now newId body db
  = (fail 400 "Validation Error" ErrorDetail, db).
Proof.
  intros Hck Hn Hmax.
  destruct (checkRequest_inr _ _ _ _ _ Hck) as (_ & Hslot & _).
  destruct (find_findIndex _ _ _ Hslot) as (i & Hi & Hlook).
  unfold createBooking. rewrite Hck.
  assert (H1 : (availableSpots (ck_timeSlot ck) <? ck_participants ck)
               = false) by (apply Z.ltb_ge; lia).
  assert (H2 : (Activity.maxParticipants (ck_activity ck)
                <? ck_participants ck) = false) by (apply Z.ltb_ge; lia).
  rewrite H1, H2. unfold reserveAndCreate. rewrite Hi.
  unfold Activity_save, Schema.activityValid.
  cbn [Activity.timeSlots Activity.set_timeSlots].
  rewrite (forallb_alter_false Schema.timeSlotValid _ _ i _ Hlook).
  - rewrite andb_false_r. reflexivity.
  - unfold Schema.timeSlotValid, addSpots. cbn [availableSpots].
    assert (E : (1 <=? availableSpots (ck_timeSlot ck)
                       + - ck_participants ck) = false)
      by (apply Z.leb_gt; lia).
    rewrite E. apply andb_false_r.
Qed.

End LastSpots.

(** * The properties on the example *)

(** A witness of X1: Asha's code at the gate: the scan is answered 200 for a
    booking that was confirmed, paid and not yet checked in. *)
Lemma scanQR_admits_only_witness :
  let out :=
    scanQR (X := Demo.externals) Demo.cfg (Demo.now + 120000) "staff1"
      Scenario.token Demo.dbPaid in
  statusCode (fst out) = 200
  /\ activities (snd out) = activities Demo.dbPaid
  /\ exists payload booking,
       decryptQRData (X := Demo.externals) Demo.cfg Scenario.token
       = Ok payload
       /\ Booking_findByIdParam (bookingId payload) Demo.dbPaid
          = Ok (Some booking)
       /\ Booking.checkedIn booking = false.
Proof.
  intros out.
  destruct (scanQR_admits_only (X := Demo.externals) Demo.cfg
              (Demo.now + 120000) "staff1" Scenario.token Demo.dbPaid
              (snd out) (fst out) (surjective_pairing out))
    as (H1 & _ & H3 & _).
  assert (H200 : statusCode (fst out) = 200) by (vm_compute; reflexivity).
  split; [exact H200|]. split; [exact H3|].
  destruct (H1 H200) as (p & b & Hd & Hf & _ & _ & Hc & _).
  exists p, b. repeat split; assumption.
Defined.

(** A witness of X2: a string of hex digits without a colon is no credential. *)
Lemma token_without_colon_rejected_witness :
  scanQR (X := Demo.externals) Demo.cfg Demo.now "staff1" "deadbeef"
    Demo.dbPaid
  = (fail 400 "Invalid or corrupted QR code" NoDetail, Demo.dbPaid)
  /\ vr_status (validateQR (X := Demo.externals) Demo.cfg "deadbeef"
                  Demo.dbPaid) = 400
  /\ vr_valid (validateQR (X := Demo.externals) Demo.cfg "deadbeef"
                 Demo.dbPaid) = Some false.
Proof.
  apply (token_without_colon_rejected (X := Demo.externals) Demo.cfg
           Demo.now "staff1" "deadbeef" Demo.dbPaid); reflexivity.
Defined.

(** A witness of X3: the credential issued for Asha's booking admits her on
    the day. *)
Lemma issued_credential_is_admitted_witness :
  exists r db',
    scanQR (X := Demo.externals) Demo.cfg (Demo.now + 120000) "staff1"
      Scenario.token Demo.dbPaid = (r, db')
    /\ statusCode r = 200.
Proof.
  destruct (issued_credential_is_admitted (X := Demo.externals) Demo.cfg
              Scenario.paid Scenario.activity Demo.iv (Demo.now + 60000)
              (Demo.now + 120000) "staff1" Scenario.token Demo.dbPaid
              Scenario.paid)
    as (r & db' & stored & H & H200 & _);
    try (vm_compute; reflexivity).
  - vm_compute. eauto.
  - exists r, db'. split; assumption.
Defined.

(** A witness of X4: after the scan, the same code validates as checked in. *)
Lemma validateQR_after_scan_witness :
  let out :=
    scanQR (X := Demo.externals) Demo.cfg (Demo.now + 120000) "staff1"
      Scenario.token Demo.dbPaid in
  exists status,
    vr_data (validateQR (X := Demo.externals) Demo.cfg Scenario.token
               (snd out)) = Some status
    /\ qs_checkedIn status = true
    /\ qs_bookingStatus status = Completed.
Proof.
  intros out.
  destruct (validateQR_after_scan (X := Demo.externals) Demo.cfg
              (Demo.now + 120000) "staff1" Scenario.token Demo.dbPaid
              (snd out) (fst out) (surjective_pairing out))
    as (st & H1 & _ & _ & H2 & _ & H3).
  - vm_compute. reflexivity.
  - exists st. repeat split; assumption.
Defined.

(** A witness of X5: Asha checked in by booking id, without a code. *)
Lemma verifyAndCheckIn_admits_only_witness :
  let out :=
    verifyAndCheckIn Demo.cfg (Demo.now + 120000)
      "staff1" (GoodId "b1") "" Demo.dbPaid in
  statusCode (fst out) = 200
  /\ activities (snd out) = activities Demo.dbPaid
  /\ exists booking,
       Booking_findById "b1" Demo.dbPaid = Some booking
       /\ Booking.paymentStatus booking = PaymentCompleted.
Proof.
  intros out.
  destruct (verifyAndCheckIn_admits_only Demo.cfg
              (Demo.now + 120000) "staff1" (GoodId "b1") "" Demo.dbPaid
              (snd out) (fst out) (surjective_pairing out))
    as (H1 & _ & H3 & _).
  assert (H200 : statusCode (fst out) = 200) by (vm_compute; reflexivity).
  split; [exact H200|]. split; [exact H3|].
  destruct (H1 H200) as (bid & b & Hid & Hf & _ & Hp & _).
  injection Hid as <-. exists b. split; assumption.
Defined.

(** A witness of X6: whoever is admitted with the code is admitted with the id
    alone. *)
Lemma checkIn_by_id_needs_no_code_witness :
  let out :=
    scanQR (X := Demo.externals) Demo.cfg (Demo.now + 120000) "staff1"
      Scenario.token Demo.dbPaid in
  exists payload bid r',
    decryptQRData (X := Demo.externals) Demo.cfg Scenario.token = Ok payload
    /\ bookingId payload = GoodId bid
    /\ verifyAndCheckIn Demo.cfg (Demo.now + 120000) "staff1" (GoodId bid) ""
         Demo.dbPaid
       = (r', snd out)
    /\ statusCode r' = 200.
Proof.
  intros out.
  apply (checkIn_by_id_needs_no_code (X := Demo.externals) Demo.cfg
           (Demo.now + 120000) "staff1" Scenario.token Demo.dbPaid
           (snd out) (fst out) (surjective_pairing out)).
  vm_compute. reflexivity.
Defined.

(** A witness of X7: Asha asks for her code again. *)
Lemma resendQR_reuses_credential_witness :
  let out := resendQR Demo.cfg Scenario.resend Demo.dbPaid in
  statusCode (fst out) = 200
  /\ bookings (snd out) = bookings Demo.dbPaid
  /\ activities (snd out) = activities Demo.dbPaid
  /\ exists image texts,
       outbox (snd out)
       = outbox Demo.dbPaid
         ++ Mail "asha@example.com" "b1"
              (nth_error (Js.splitOn "base64," image) 1)
            :: texts.
Proof.
  intros out.
  destruct (resendQR_reuses_credential Demo.cfg Scenario.resend Demo.dbPaid
              (snd out) (fst out) (surjective_pairing out))
    as (H1 & H2 & H3 & _).
  assert (H200 : statusCode (fst out) = 200) by (vm_compute; reflexivity).
  split; [exact H200|]. split; [exact H1|]. split; [exact H2|].
  destruct (H3 H200) as (b & image & texts & Hin & _ & _ & _ & _ & Hout & _).
  exists image, texts.
  destruct Hin as [<-|[]]. exact Hout.
Defined.

(** A witness of X9: Asha's payment is verified. *)
Lemma verifyPayment_confirms_witness :
  exists r db' stored,
    verifyPayment (X := Demo.externals) Demo.cfg (Demo.now + 60000) Demo.iv
      (Some (Some "Card")) (Demo.payment Demo.goodSignature) Demo.dbOrdered
    = (r, db')
    /\ statusCode r = 200
    /\ Booking_findById "b1" db' = Some stored
    /\ Booking.paymentStatus stored = PaymentCompleted
    /\ Booking.bookingStatus stored = Confirmed.
Proof.
  destruct (verifyPayment_confirms (X := Demo.externals) Demo.cfg
              (Demo.now + 60000) Demo.iv "Card"
              (Demo.payment Demo.goodSignature) Demo.dbOrdered "b1"
              Scenario.ordered "key-secret")
    as (r & db' & stored & H1 & H2 & H3 & H4 & H5 & _);
    try (vm_compute; reflexivity).
  exists r, db', stored. repeat split; assumption.
Defined.

(** A witness of X10: a forged signature on the gateway's event. *)
Lemma paymentWebhook_writes_only_if_authentic_witness :
  let out :=
    paymentWebhook (X := Demo.externals) Demo.cfg Demo.now Demo.iv2
      (Some "forged") Scenario.captured Demo.dbOrdered in
  snd out = Demo.dbOrdered
  /\ (statusCode (fst out) = 400 \/ statusCode (fst out) = 500).
Proof.
  intros out.
  apply (paymentWebhook_writes_only_if_authentic (X := Demo.externals)
           Demo.cfg Demo.now Demo.iv2 (Some "forged") Scenario.captured
           Demo.dbOrdered (snd out) (fst out) (surjective_pairing out)).
  intros secret H. injection H as <-. vm_compute. discriminate.
Defined.

(** A witness of X11: the gateway reports a failed payment, twice. *)
Lemma paymentWebhook_failed_redelivery_witness :
  let out :=
    paymentWebhook (X := Demo.externals) Demo.cfg Demo.now Demo.iv2
      (Demo.signed Scenario.failed) Scenario.failed Demo.dbOrdered in
  statusCode (fst out) = 200
  /\ paymentWebhook (X := Demo.externals) Demo.cfg (Demo.now + 60000) Demo.iv
       (Demo.signed Scenario.failed) Scenario.failed (snd out)
     = (ok 200 "Webhook received" NoDetail, snd out).
Proof.
  intros out.
  assert (H200 : statusCode (fst out) = 200) by (vm_compute; reflexivity).
  split; [exact H200|].
  exact (paymentWebhook_failed_redelivery (X := Demo.externals) Demo.cfg
           Demo.now (Demo.now + 60000) Demo.iv2 Demo.iv
           (Demo.signed Scenario.failed) Scenario.failed Demo.dbOrdered
           (snd out) (fst out) eq_refl (surjective_pairing out) H200).
Defined.

(** A witness of X12: the gateway reports the capture of Asha's payment. *)
Lemma paymentWebhook_captured_confirms_witness :
  exists db' stored,
    paymentWebhook (X := Demo.externals) Demo.cfg Demo.now Demo.iv2
      (Demo.signed Scenario.captured) Scenario.captured Demo.dbOrdered
    = (ok 200 "Webhook processed successfully" NoDetail, db')
    /\ Booking_findById "b1" db' = Some stored
    /\ Booking.paymentStatus stored = PaymentCompleted
    /\ Booking.bookingStatus stored = Confirmed.
Proof.
  destruct (paymentWebhook_captured_confirms (X := Demo.externals) Demo.cfg
              Demo.now Demo.iv2 Scenario.captured Demo.dbOrdered
              "hook-secret" "UPI"
              {| order_id := Some "order_b1"; id := Some "pay_1";
                 method := Some "UPI" |}
              Scenario.ordered)
    as (db' & stored & H1 & H2 & H3 & H4 & _);
    try (vm_compute; reflexivity).
  - vm_compute. discriminate.
  - exists db', stored. repeat split; assumption.
Defined.

(** A witness of X13: the order opened for Asha's booking finds the booking
    again. *)
Lemma createPaymentOrder_binds_order_witness :
  let out := createPaymentOrder Demo.gateway (GoodId "b1") Demo.dbBooked in
  exists orderId amount number,
    detail (fst out) = OrderCreated orderId amount number
    /\ is_Some (Booking_findByOrderId (Some orderId) (snd out)).
Proof.
  intros out.
  apply (createPaymentOrder_binds_order Demo.gateway (GoodId "b1")
           Demo.dbBooked (snd out) (fst out) (surjective_pairing out)).
  vm_compute. reflexivity.
Defined.

(** A witness of X14: Asha's unpaid booking is cancelled by an administrator. *)
Lemma cancelBooking_effect_witness :
  let out := cancelBooking Demo.now "admin1" (GoodId "b1") "" Demo.dbBooked in
  statusCode (fst out) = 200
  /\ exists stored,
       Booking_findById "b1" (snd out) = Some stored
       /\ Booking.bookingStatus stored = Cancelled
       /\ Booking.cancellationReason stored = Some "Cancelled by admin".
Proof.
  intros out.
  destruct (cancelBooking_effect Demo.now "admin1" "b1" "" Demo.dbBooked
              (snd out) (fst out) Scenario.booked)
    as (_ & H); [vm_compute; reflexivity | exact (surjective_pairing out) |].
  assert (H200 : statusCode (fst out) = 200) by (vm_compute; reflexivity).
  split; [exact H200|].
  destruct (H H200) as (_ & stored & H1 & H2 & _ & _ & H3 & _).
  exists stored. repeat split; assumption.
Defined.

(** A witness of X15: Asha books two of five spots. *)
Lemma createBooking_created_witness :
  let out :=
    createBooking Demo.cfg Demo.now "b1" (Demo.request 2) (Demo.db0 5) in
  statusCode (fst out) = 201
  /\ exists b,
       bookings (snd out) = bookings (Demo.db0 5) ++ [b]
       /\ Booking.bookingStatus b = Initiated
       /\ Booking.paymentStatus b = Pending.
Proof.
  intros out.
  assert (H201 : statusCode (fst out) = 201) by (vm_compute; reflexivity).
  split; [exact H201|].
  destruct (checkRequest Demo.cfg Demo.now (Demo.request 2) (Demo.db0 5))
    as [r|ck] eqn:Hck; [vm_compute in Hck; discriminate|].
  destruct (createBooking_created Demo.cfg Demo.now "b1" (Demo.request 2)
              (Demo.db0 5) (snd out) (fst out) ck Hck
              (surjective_pairing out) H201)
    as (b & H1 & _ & _ & H2 & H3 & _).
  exists b. repeat split; assumption.
Defined.

(** A witness of X16: a request for minus two participants. *)
Lemma createBooking_negative_count_witness :
  exists db',
    createBooking Demo.cfg Demo.now "b1" (Demo.request (-2)) (Demo.db0 5)
    = (fail 400 "Validation Error" ErrorDetail, db')
    /\ bookings db' = bookings (Demo.db0 5).
Proof.
  destruct (checkRequest Demo.cfg Demo.now (Demo.request (-2)) (Demo.db0 5))
    as [r|ck] eqn:Hck; [vm_compute in Hck; discriminate|].
  destruct (createBooking_negative_count Demo.cfg Demo.now "b1"
              (Demo.request (-2)) (Demo.db0 5) ck Demo.jan15 Hck)
    as (i & a' & db' & H1 & H2 & _);
    try (vm_compute in Hck; injection Hck as <-; vm_compute; reflexivity).
  exists db'. split; assumption.
Defined.

(** A witness of X17: after the first booking of the day comes the second. *)
Lemma bookingNumbers_up_to_9999_witness :
  nextSequence (Some (Demo.numbered "b1" "BK-250115-0001" Demo.now)) = 1 + 1
  /\ bookingNumberOf Demo.cfg Demo.now 1 <> bookingNumberOf Demo.cfg Demo.now 2.
Proof.
  destruct (bookingNumbers_up_to_9999 Demo.cfg Demo.now 1 2
              (Demo.numbered "b1" "BK-250115-0001" Demo.now))
    as (H1 & H2); [lia | lia | vm_compute; reflexivity |].
  split; [exact H1 | apply H2; lia].
Defined.

(** A witness of X18: the overview once Asha has paid. *)
Lemma getBookingStats_counts_witness :
  exists o,
    sr_overview (getBookingStats (X := Demo.externals) (tz Demo.cfg)
                   Demo.now NoDate NoDate Demo.dbPaid) = Some o
    /\ confirmedBookings o + cancelledBookings o + pendingBookings o
       <= totalBookings o
    /\ completedPayments o <= totalBookings o.
Proof.
  eexists. split; [vm_compute; reflexivity|].
  match goal with
  | |- context [totalBookings ?o] =>
      destruct (getBookingStats_counts (X := Demo.externals) (tz Demo.cfg)
                  Demo.now NoDate NoDate Demo.dbPaid o)
        as (_ & _ & _ & H1 & H2 & _)
  end; [vm_compute; reflexivity|].
  split; [exact H1 | exact (proj2 H2)].
Defined.

(** A witness of X19: the ten o'clock slot of the climbing wall. *)
Lemma checkAvailability_reports_witness :
  exists a,
    ar_data (checkAvailability (GoodId "a1") (DateAt Demo.jan15) "10:00"
               (Demo.db0 5)) = Some a
    /\ av_isAvailable a = true
    /\ 1 <= av_availableSpots a.
Proof.
  eexists. split; [vm_compute; reflexivity|].
  match goal with
  | |- av_isAvailable ?a = _ /\ _ =>
      destruct (checkAvailability_reports (GoodId "a1") (DateAt Demo.jan15)
                  "10:00" (Demo.db0 5) a) as (_ & H1 & H2 & _)
  end; [vm_compute; reflexivity | vm_compute; reflexivity |].
  split; assumption.
Defined.

(** A witness of X20: Asha's number as the schema stores it. *)
Lemma formatPhoneNumber_schema_phone_witness :
  formatPhoneNumber "9876543210" = Ok "9876543210".
Proof.
  apply (formatPhoneNumber_schema_phone "9876543210").
  vm_compute. reflexivity.
Defined.

(** A witness of X21: Asha's number with country code and punctuation. *)
Lemma formatPhoneNumber_result_witness :
  formatPhoneNumber "+91 98765-43210" = Ok "9876543210"
  /\ Regex.test Regex.phoneRe "9876543210" = true
  /\ formatPhoneNumber "9876543210" = Ok "9876543210".
Proof.
  assert (H : formatPhoneNumber "+91 98765-43210" = Ok "9876543210")
    by (vm_compute; reflexivity).
  split; [exact H|].
  destruct (formatPhoneNumber_result "+91 98765-43210" "9876543210" H)
    as (_ & _ & H1 & H2).
  split; assumption.
Defined.

(** A witness of X22: the climbing wall at 20 percent off is stored at 400. *)
Lemma Activity_save_price_after_discount_witness :
  exists a' db',
    Activity_save (Demo.climbing 5 20 None) (Demo.db0 5) = Ok (a', db')
    /\ Activity.priceAfterDiscount a' = Some 400%float.
Proof.
  destruct (Activity_save (Demo.climbing 5 20 None) (Demo.db0 5))
    as [[a' db']|e] eqn:Hs; [|vm_compute in Hs; discriminate].
  exists a', db'. split; [reflexivity|].
  destruct (Activity_save_price_after_discount _ _ _ _ Hs) as (_ & H & _).
  destruct H as [H _]; [reflexivity | exact H].
Defined.

(** A witness of X23: Asha asks for all five spots. *)
Lemma createBooking_exact_capacity_rejected_witness :
  createBooking Demo.cfg Demo.now "b1" (Demo.request 5) (Demo.db0 5)
  = (fail 400 "Validation Error" ErrorDetail, Demo.db0 5).
Proof.
  destruct (checkRequest Demo.cfg Demo.now (Demo.request 5) (Demo.db0 5))
    as [r|ck] eqn:Hck; [vm_compute in Hck; discriminate|].
  apply (createBooking_exact_capacity_rejected Demo.cfg Demo.now "b1"
           (Demo.request 5) (Demo.db0 5) ck Hck);
    vm_compute in Hck; injection Hck as <-; vm_compute;
    [reflexivity | discriminate].
Defined.

(** A witness of X24: the stored documents stay valid when Asha's order is
    paid. *)
Lemma storedOk_preserved_witness :
  storedOk
    (snd (verifyPayment (X := Demo.externals) Demo.cfg (Demo.now + 60000)
            Demo.iv (Some (Some "Card")) (Demo.payment Demo.goodSignature)
            Demo.dbOrdered)) = true
  /\ storedOk
       (snd (paymentWebhook (X := Demo.externals) Demo.cfg Demo.now Demo.iv2
               (Demo.signed Scenario.failed) Scenario.failed Demo.dbOrdered))
     = true.
Proof.
  destruct (storedOk_preserved (X := Demo.externals) Demo.cfg
              (Demo.now + 60000) "b2" "staff1" Demo.iv (Demo.request 1)
              (GoodId "b1") "" Demo.gateway (Some (Some "Card"))
              (Demo.payment Demo.goodSignature)
              (Demo.signed Scenario.failed) Scenario.failed Scenario.token
              Demo.dbOrdered)
    as (_ & _ & _ & H1 & _ & _); [vm_compute; reflexivity|].
  split; [exact H1|].
  destruct (storedOk_preserved (X := Demo.externals) Demo.cfg
              Demo.now "b2" "staff1" Demo.iv2 (Demo.request 1)
              (GoodId "b1") "" Demo.gateway (Some (Some "Card"))
              (Demo.payment Demo.goodSignature)
              (Demo.signed Scenario.failed) Scenario.failed Scenario.token
              Demo.dbOrdered)
    as (_ & _ & _ & _ & H2 & _); [vm_compute; reflexivity|].
  exact H2.
Defined.
